(** * Downlink scheduling and join handling of the LoRaWAN network server

    A shallow embedding of
      - package [downlink]: [DataDownFrameContext.Validate], [SendDataDown],
        [HandlePushDataDown], [SendUplinkResponse], [getDataDownTXInfoAndDR],
        [getDataDownFromApplication], [getAndFilterMACQueueItems],
        [macQueueItemsToMACCommands];
      - package [uplink]: [handleCollectedJoinRequestPackets];
      - package [api]: [errToCode], [errToRPCError].

    Everything the code reaches outside these packages (the gateway backend,
    the session store, the MAC-command queue, the application server, the
    network controller, the band table and the frame codec) is a field of
    [Env]: a deterministic answer to each call, given the calls made so far.
    The state that the functions thread is the log of those calls,
    newest call first.  Log statements of the source are left out. *)

From Stdlib Require Import ZArith List String Bool Lia.
From Stdlib Require Import Strings.Byte.
Import ListNotations.
Open Scope string_scope.
Open Scope list_scope.
Open Scope Z_scope.

Set Implicit Arguments.

(** ** Machine integers *)

(** Conversion to [uint8] and [uint32]: the value modulo the width. *)
Definition u8 (x : Z) : Z := x mod 256.
Definition u32 (x : Z) : Z := x mod 4294967296.

Definition is_u8 (x : Z) : Prop := 0 <= x < 256.
Definition is_u32 (x : Z) : Prop := 0 <= x < 4294967296.

(** [len(s)] as a Go [int]. *)
Definition len {A : Type} (l : list A) : Z := Z.of_nat (List.length l).

(** [time.Duration] constants, in nanoseconds. *)
Definition Microsecond : Z := 1000.
Definition Second : Z := 1000000000.

(** ** Identifiers and keys *)

Definition bytes := list byte.
Definition EUI64 := bytes.        (* [8]byte *)
Definition DevAddr := bytes.      (* [4]byte *)
Definition NetID := bytes.        (* [3]byte *)
Definition AES128Key := bytes.    (* [16]byte *)
Definition MIC := bytes.          (* [4]byte *)

(** [copy(dst[:], src)] into a zeroed array of [n] bytes. *)
Definition copy_into_zeroed (n : nat) (src : bytes) : bytes :=
  firstn n src ++ repeat x00 (n - List.length src).

(** ** Errors *)

(** Answers of the collaborators carry their own error values. *)
Definition ext_error := string.

Inductive error : Type :=
  (* package downlink *)
  | ErrFPortMustNotBeZero
  | ErrFPortMustBeZero
  | ErrNoLastRXInfoSet
  | ErrInvalidDataRate
  | ErrMaxPayloadSizeExceeded
  (* package gateway *)
  | GatewayErrDoesNotExist
  | GatewayErrAlreadyExists
  | GatewayErrInvalidAggregationInterval
  | GatewayErrInvalidName
  (* package session *)
  | SessionErrDoesNotExistOrFCntOrMICInvalid
  | SessionErrDoesNotExist
  (* an error returned by a collaborator *)
  | ErrExt (e : ext_error)
  (* [fmt.Errorf] / [errors.New] with integer arguments: a new error value *)
  | ErrNew (format : string) (args : list Z)
  (* [fmt.Errorf("...: %s", err)]: a new error value, formatted from [err] *)
  | ErrFrom (format : string) (err : error)
  (* [errors.Wrap] / [errors.Wrapf]: [err] stays the cause *)
  | Wrap (err : error) (format : string) (args : list Z).

(** [errors.Cause]. *)
Fixpoint Cause (e : error) : error :=
  match e with
  | Wrap e' _ _ => Cause e'
  | _ => e
  end.

(** What a call gives back: a value, a returned error, or a run-time panic
    (index out of range). *)
Inductive result (A : Type) : Type :=
  | Ok (a : A)
  | Err (e : error)
  | Panic (why : string).
Arguments Ok {A} a.
Arguments Err {A} e.
Arguments Panic {A} why.

(** ** Frames (package lorawan) *)

Inductive MType : Type :=
  | JoinRequest | JoinAccept
  | UnconfirmedDataUp | UnconfirmedDataDown
  | ConfirmedDataUp | ConfirmedDataDown
  | RFU | Proprietary.

Definition MType_eqb (a b : MType) : bool :=
  match a, b with
  | JoinRequest, JoinRequest | JoinAccept, JoinAccept
  | UnconfirmedDataUp, UnconfirmedDataUp
  | UnconfirmedDataDown, UnconfirmedDataDown
  | ConfirmedDataUp, ConfirmedDataUp
  | ConfirmedDataDown, ConfirmedDataDown
  | RFU, RFU | Proprietary, Proprietary => true
  | _, _ => false
  end.

Inductive Major : Type := LoRaWANR1.

Record MHDR : Type := { MType_ : MType; Major_ : Major }.

Record MACCommand : Type := { CID : byte; CmdPayload : bytes }.

Record FCtrl : Type :=
  { ADR : bool; ADRACKReq : bool; ACK : bool; FPending : bool }.

Record FHDR : Type :=
  { FHDR_DevAddr : DevAddr;
    FHDR_FCtrl : FCtrl;
    FCnt : Z;                       (* uint32 *)
    FOpts : list MACCommand }.

(** [lorawan.Payload]: the two kinds a FRMPayload holds. *)
Inductive Payload : Type :=
  | DataPayload (Bytes : bytes)
  | MACCommandPayload (c : MACCommand).

Record MACPayload : Type :=
  { MP_FHDR : FHDR;
    MP_FPort : option Z;            (* *uint8 *)
    FRMPayload : list Payload }.

Record JoinRequestPayload : Type :=
  { JR_AppEUI : EUI64; JR_DevEUI : EUI64; JR_DevNonce : bytes }.

(** The [MACPayload] interface field of a PHYPayload, by dynamic type. *)
Inductive PHYMACPayload : Type :=
  | IsMACPayload (m : MACPayload)
  | IsJoinRequestPayload (j : JoinRequestPayload)
  | IsOtherPayload (raw : bytes).

Record PHYPayload : Type :=
  { PHY_MHDR : MHDR;
    PHY_MACPayload : PHYMACPayload;
    PHY_MIC : MIC }.

(** ** Gateway packets (package gw) and the band table (package band) *)

Record DataRate : Type :=
  { Modulation : string; SpreadFactor : Z; Bandwidth : Z; BitRate : Z }.

Definition DataRate_zero : DataRate :=
  {| Modulation := EmptyString; SpreadFactor := 0; Bandwidth := 0;
     BitRate := 0 |}.

Record RXInfo : Type :=
  { RX_MAC : bytes;
    RX_Timestamp : Z;               (* uint32, microseconds *)
    RX_Frequency : Z;
    RX_DataRate : DataRate;
    RX_CodeRate : string;
    RX_RSSI : Z }.

Record TXInfo : Type :=
  { TX_MAC : bytes;
    Immediately : bool;
    TX_Timestamp : Z;               (* uint32, microseconds *)
    TX_Frequency : Z;
    TX_Power : Z;
    TX_DataRate : DataRate;
    TX_CodeRate : string }.

Record TXPacket : Type := { TXInfo_ : TXInfo; PHYPayload_ : PHYPayload }.

Record RXPacket : Type := { RX_PHYPayload : PHYPayload; RXInfoSet : list RXInfo }.

Record MaxPayloadSize : Type := { MPS_M : Z; MPS_N : Z }.

Record Band : Type :=
  { DataRates : list DataRate;
    MaxPayloadSizes : list MaxPayloadSize;
    RX2Frequency : Z;
    DefaultTXPower : Z;
    ReceiveDelay1 : Z;              (* time.Duration *)
    GetDataRate : DataRate -> ext_error + Z;
    GetRX1DataRate : Z -> Z -> ext_error + Z;
    GetRX1Frequency : Z -> ext_error + Z }.

(** ** Sessions and the MAC-command queue *)

(** Modelled from the spec: the type [session.RXWindow] and its constants
    [RX1] and [RX2], whose declaration lies in package session ("RXWindow in {RX1,
    RX2}").  The code also handles a value that is neither. *)
Inductive RXWindow : Type :=
  | RX1
  | RX2
  | RXWindowOther (n : Z).

(** Modelled from the spec: the record [session.NodeSession], with the
    fields the code reads and writes.  [InstallationMargin] is a float that
    is only ever copied: it is kept as its bit pattern. *)
Record NodeSession : Type :=
  { NS_DevAddr : DevAddr;
    NS_AppEUI : EUI64;
    NS_DevEUI : EUI64;
    NwkSKey : AES128Key;
    FCntUp : Z;                     (* uint32 *)
    FCntDown : Z;                   (* uint32 *)
    RelaxFCnt : bool;
    NS_RXWindow : RXWindow;
    RXDelay : Z;                    (* uint8 *)
    RX1DROffset : Z;                (* uint8 *)
    RX2DR : Z;                      (* uint8 *)
    NS_CFList : option (list Z);    (* *[5]uint32 *)
    ADRInterval : Z;                (* uint32 *)
    InstallationMargin : Z;
    LastRXInfoSet : list RXInfo }.

Definition set_FCntDown (ns : NodeSession) (v : Z) : NodeSession :=
  {| NS_DevAddr := NS_DevAddr ns; NS_AppEUI := NS_AppEUI ns;
     NS_DevEUI := NS_DevEUI ns; NwkSKey := NwkSKey ns;
     FCntUp := FCntUp ns; FCntDown := v; RelaxFCnt := RelaxFCnt ns;
     NS_RXWindow := NS_RXWindow ns; RXDelay := RXDelay ns;
     RX1DROffset := RX1DROffset ns; RX2DR := RX2DR ns;
     NS_CFList := NS_CFList ns; ADRInterval := ADRInterval ns;
     InstallationMargin := InstallationMargin ns;
     LastRXInfoSet := LastRXInfoSet ns |}.

(** [maccommand.QueueItem]. *)
Record QueueItem : Type :=
  { QI_Data : bytes; QI_FRMPayload : bool; QI_External : bool }.

(** ** Application server and network controller messages *)

Record GetDataDownRequest : Type :=
  { GDD_AppEUI : EUI64; GDD_DevEUI : EUI64;
    GDD_MaxPayloadSize : Z; GDD_FCnt : Z }.

Record GetDataDownResponse : Type :=
  { Resp_Data : bytes; Resp_Confirmed : bool; Resp_MoreData : bool;
    Resp_FPort : Z (* uint32 *) }.

Record JoinRequestRequest : Type :=
  { JRR_PhyPayload : bytes; JRR_DevAddr : DevAddr; JRR_NetID : NetID }.

Record JoinRequestResponse : Type :=
  { JResp_PhyPayload : bytes;
    JResp_NwkSKey : bytes;
    JResp_RxDelay : Z;              (* uint32 *)
    JResp_Rx1DROffset : Z;          (* uint32 *)
    JResp_CFList : list Z;
    JResp_RxWindow : Z;             (* enum *)
    JResp_Rx2DR : Z;                (* uint32 *)
    JResp_RelaxFCnt : bool;
    JResp_AdrInterval : Z;
    JResp_InstallationMargin : Z }.

Inductive ErrorType : Type := ErrorType_OTAA.

(** [as.HandleErrorRequest] and [nc.HandleErrorRequest].  The [Error] string
    is kept as the error value it is formatted from. *)
Record ASHandleErrorRequest : Type :=
  { HE_AppEUI : EUI64; HE_DevEUI : EUI64;
    HE_Type : ErrorType; HE_Error : error }.

Record NCHandleErrorRequest : Type :=
  { NCHE_AppEUI : EUI64; NCHE_DevEUI : EUI64;
    NCHE_Error : error; NCHE_Command : bytes }.

(** ** DataDownFrameContext *)

Record DataDownFrameContext : Type :=
  { DD_ACK : bool;
    DD_FPort : Z;                   (* uint8 *)
    MACCommands : list MACCommand;
    EncryptMACCommands : bool;
    Confirmed : bool;
    MoreData : bool;
    DD_Data : bytes }.

(** ** The call log *)

(** One entry per call that leaves the package, with its arguments and its
    answer, and one entry on entering [SendDataDown] and
    [getAndFilterMACQueueItems], with the arguments they were given. *)
Inductive Event : Type :=
  | EvSendTXPacket (p : TXPacket) (r : option ext_error)
  | EvSaveNodeSession (ns : NodeSession) (r : option ext_error)
  | EvReadQueue (devEUI : EUI64) (r : ext_error + list QueueItem)
  | EvFilterItems (items : list QueueItem) (frmPayload : bool) (maxBytes : Z)
  | EvDeleteQueueItem (devEUI : EUI64) (qi : QueueItem) (r : option ext_error)
  | EvFlushQueue (devEUI : EUI64) (r : option ext_error)
  | EvGetDataDown (req : GetDataDownRequest)
      (r : ext_error + option GetDataDownResponse)
  | EvControllerHandleError (req : NCHandleErrorRequest) (r : option ext_error)
  | EvApplicationHandleError (req : ASHandleErrorRequest) (r : option ext_error)
  | EvGetRandomDevAddr (netID : NetID) (r : ext_error + DevAddr)
  | EvJoinRequest (req : JoinRequestRequest) (r : ext_error + JoinRequestResponse)
  | EvSendJoinAcceptResponse (ns : NodeSession) (rx : RXPacket)
      (phy : PHYPayload) (r : option ext_error)
  | EvEnterSendDataDown (ns : NodeSession) (txInfo : TXInfo)
      (dataDown : DataDownFrameContext)
  | EvEnterGetAndFilterMACQueueItems (allowEncrypted : bool)
      (remainingPayloadSize : Z).

(** Newest call first. *)
Definition History := list Event.

(** ** The collaborators *)

Record Env : Type :=
  { (* common.Context *)
    ctx_NetID : NetID;
    (* common.Band *)
    band : Band;
    (* ctx.Gateway *)
    gw_SendTXPacket : History -> TXPacket -> option ext_error;
    (* package session *)
    session_SaveNodeSession : History -> NodeSession -> option ext_error;
    session_GetRandomDevAddr : History -> NetID -> ext_error + DevAddr;
    session_toRXWindow : Z -> RXWindow;
    (* package maccommand *)
    maccommand_ReadQueue : History -> EUI64 -> ext_error + list QueueItem;
    maccommand_FilterItems : list QueueItem -> bool -> Z -> list QueueItem;
    maccommand_DeleteQueueItem :
      History -> EUI64 -> QueueItem -> option ext_error;
    maccommand_FlushQueue : History -> EUI64 -> option ext_error;
    (* ctx.Application *)
    as_GetDataDown :
      History -> GetDataDownRequest -> ext_error + option GetDataDownResponse;
    as_JoinRequest :
      History -> JoinRequestRequest -> ext_error + JoinRequestResponse;
    as_HandleError : History -> ASHandleErrorRequest -> option ext_error;
    (* ctx.Controller *)
    nc_HandleError : History -> NCHandleErrorRequest -> option ext_error;
    (* package downlink, join-accept path *)
    downlink_SendJoinAcceptResponse :
      History -> NodeSession -> RXPacket -> PHYPayload -> option ext_error;
    (* package lorawan: the codec.  [EncryptFRMPayload] gives the new
       FRMPayload of the frame, [SetMIC] its MIC. *)
    phy_EncryptFRMPayload : AES128Key -> PHYPayload -> ext_error + list Payload;
    phy_SetMIC : AES128Key -> PHYPayload -> ext_error + MIC;
    phy_MarshalBinary : PHYPayload -> ext_error + bytes;
    phy_UnmarshalBinary : bytes -> ext_error + PHYPayload;
    mac_UnmarshalBinary : bytes -> ext_error + MACCommand }.

(** ** Calls, sequenced over the log *)

Definition M (A : Type) : Type := History -> result A * History.

Definition ret {A : Type} (a : A) : M A := fun h => (Ok a, h).

Definition fail {A : Type} (e : error) : M A := fun h => (Err e, h).

Definition panic {A : Type} (why : string) : M A := fun h => (Panic why, h).

Definition bind {A B : Type} (m : M A) (k : A -> M B) : M B :=
  fun h =>
    match m h with
    | (Ok a, h') => k a h'
    | (Err e, h') => (Err e, h')
    | (Panic why, h') => (Panic why, h')
    end.

Notation "x <- m ;; k" := (bind m (fun x => k))
  (at level 61, m at next level, right associativity).
Notation "' pat <- m ;; k" := (bind m (fun x => match x with pat => k end))
  (at level 61, pat pattern, m at next level, right associativity).

(** A call to a collaborator: its answer, given the log, is logged. *)
Definition call {R : Type} (answer : History -> R) (ev : R -> Event) : M R :=
  fun h => let r := answer h in (Ok r, ev r :: h).

(** A bare log entry. *)
Definition note (ev : Event) : M unit := fun h => (Ok tt, ev :: h).

(** [s[i]] on a slice: [None] stands for the index-out-of-range panic. *)
Definition index {A : Type} (l : list A) (i : Z) : option A :=
  if i <? 0 then None else nth_error l (Z.to_nat i).

Definition zeroMIC : MIC := repeat x00 4.

(** ** Package downlink *)

(** [DataDownFrameContext.Validate]: [None] is the nil error. *)
Definition Validate (ctx : DataDownFrameContext) : option error :=
  if (DD_FPort ctx =? 0) && (0 <? len (DD_Data ctx)) then
    Some ErrFPortMustNotBeZero
  else if (0 <? DD_FPort ctx) && EncryptMACCommands ctx then
    Some ErrFPortMustBeZero
  else None.

Definition set_FOpts (m : MACPayload) (o : list MACCommand) : MACPayload :=
  {| MP_FHDR := {| FHDR_DevAddr := FHDR_DevAddr (MP_FHDR m);
                   FHDR_FCtrl := FHDR_FCtrl (MP_FHDR m);
                   FCnt := FCnt (MP_FHDR m);
                   FOpts := o |};
     MP_FPort := MP_FPort m;
     FRMPayload := FRMPayload m |}.

Definition set_FPort_FRMPayload (m : MACPayload) (p : option Z)
    (frm : list Payload) : MACPayload :=
  {| MP_FHDR := MP_FHDR m; MP_FPort := p; FRMPayload := frm |}.

Section Downlink.

Variable env : Env.

(** [SendDataDown].  The session is passed by pointer: the session the
    caller holds afterwards is part of what comes back. *)
Definition SendDataDown (ns : NodeSession) (txInfo : TXInfo)
    (dataDown : DataDownFrameContext) (h : History)
    : result unit * NodeSession * History :=
  let h0 := EvEnterSendDataDown ns txInfo dataDown :: h in
  match Validate dataDown with
  | Some err => (Err (Wrap err "validation error" []), ns, h0)
  | None =>
    let mhdr :=
      {| MType_ := if Confirmed dataDown then ConfirmedDataDown
                   else UnconfirmedDataDown;
         Major_ := LoRaWANR1 |} in
    let macPL :=
      {| MP_FHDR :=
           {| FHDR_DevAddr := NS_DevAddr ns;
              FHDR_FCtrl :=
                {| ADR := negb (ADRInterval ns =? 0);
                   ADRACKReq := false;
                   ACK := DD_ACK dataDown;
                   FPending := MoreData dataDown |};
              FCnt := FCntDown ns;
              FOpts := [] |};
         MP_FPort := None;
         FRMPayload := [] |} in
    let withMAC : error + MACPayload :=
      if 0 <? len (MACCommands dataDown) then
        if EncryptMACCommands dataDown then
          let macPL1 :=
            set_FPort_FRMPayload macPL (Some (DD_FPort dataDown))
              (map MACCommandPayload (MACCommands dataDown)) in
          match phy_EncryptFRMPayload env (NwkSKey ns)
                  {| PHY_MHDR := mhdr; PHY_MACPayload := IsMACPayload macPL1;
                     PHY_MIC := zeroMIC |} with
          | inl e => inl (Wrap (ErrExt e) "encrypt FRMPayload error" [])
          | inr frm =>
              inr (set_FPort_FRMPayload macPL1 (MP_FPort macPL1) frm)
          end
        else inr (set_FOpts macPL (MACCommands dataDown))
      else inr macPL in
    match withMAC with
    | inl e => (Err e, ns, h0)
    | inr macPL2 =>
      let macPL3 :=
        if 0 <? DD_FPort dataDown then
          set_FPort_FRMPayload macPL2 (Some (DD_FPort dataDown))
            [DataPayload (DD_Data dataDown)]
        else macPL2 in
      match phy_SetMIC env (NwkSKey ns)
              {| PHY_MHDR := mhdr; PHY_MACPayload := IsMACPayload macPL3;
                 PHY_MIC := zeroMIC |} with
      | inl e => (Err (Wrap (ErrExt e) "set MIC error" []), ns, h0)
      | inr mic =>
        let pkt :=
          {| TXInfo_ := txInfo;
             PHYPayload_ :=
               {| PHY_MHDR := mhdr; PHY_MACPayload := IsMACPayload macPL3;
                  PHY_MIC := mic |} |} in
        let sent := gw_SendTXPacket env h0 pkt in
        let h1 := EvSendTXPacket pkt sent :: h0 in
        match sent with
        | Some e =>
            (Err (Wrap (ErrExt e) "send tx packet to gateway error" []), ns, h1)
        | None =>
          if negb (Confirmed dataDown) then
            let ns' := set_FCntDown ns (u32 (FCntDown ns + 1)) in
            let saved := session_SaveNodeSession env h1 ns' in
            let h2 := EvSaveNodeSession ns' saved :: h1 in
            match saved with
            | Some e =>
                (Err (Wrap (ErrExt e) "save node-session error" []), ns', h2)
            | None => (Ok tt, ns', h2)
            end
          else (Ok tt, ns, h1)
        end
      end
    end
  end.

(** [getAndFilterMACQueueItems]: the items to send, whether they go into the
    FRMPayload, and whether items remain in the queue. *)
Definition getAndFilterMACQueueItems (ns : NodeSession)
    (allowEncrypted : bool) (remainingPayloadSize : Z)
    : M (list QueueItem * bool * bool) :=
  _ <- note (EvEnterGetAndFilterMACQueueItems allowEncrypted
               remainingPayloadSize) ;;
  r <- call (fun h => maccommand_ReadQueue env h (NS_DevEUI ns))
            (EvReadQueue (NS_DevEUI ns)) ;;
  match r with
  | inl e => fail (ErrFrom "read mac-payload tx queue error: %s" (ErrExt e))
  | inr queueItems =>
    let macCommandQueueSize := len queueItems in
    match queueItems with
    | [] => ret ([], false, false)
    | first :: _ =>
      if allowEncrypted && QI_FRMPayload first then
        _ <- note (EvFilterItems queueItems true remainingPayloadSize) ;;
        let filtered :=
          maccommand_FilterItems env queueItems true remainingPayloadSize in
        ret (filtered, true, negb (len filtered =? macCommandQueueSize))
      else
        let maxFOptsLen :=
          if 15 <? remainingPayloadSize then 15 else remainingPayloadSize in
        _ <- note (EvFilterItems queueItems false maxFOptsLen) ;;
        let filtered :=
          maccommand_FilterItems env queueItems false maxFOptsLen in
        ret (filtered, false, negb (len filtered =? macCommandQueueSize))
    end
  end.

(** [macQueueItemsToMACCommands]: an item that does not unmarshal is
    reported to the network controller and skipped. *)
Fixpoint macQueueItemsToMACCommands (ns : NodeSession)
    (items : list QueueItem) (h : History) : list MACCommand * History :=
  match items with
  | [] => ([], h)
  | qi :: rest =>
    match mac_UnmarshalBinary env (QI_Data qi) with
    | inl e =>
      let req :=
        {| NCHE_AppEUI := NS_AppEUI ns; NCHE_DevEUI := NS_DevEUI ns;
           NCHE_Error := ErrFrom "unmarshal mac command error: %s" (ErrExt e);
           NCHE_Command := QI_Data qi |} in
      macQueueItemsToMACCommands ns rest
        (EvControllerHandleError req (nc_HandleError env h req) :: h)
    | inr mac =>
      let (out, h') := macQueueItemsToMACCommands ns rest h in
      (mac :: out, h')
    end
  end.

(** The loop [for _, qi := range macQueueItems { DeleteQueueItem ... }],
    which stops at the first error; [onError] builds the returned error. *)
Fixpoint deleteQueueItems (onError : error -> error) (devEUI : EUI64)
    (items : list QueueItem) : M unit :=
  match items with
  | [] => ret tt
  | qi :: rest =>
    r <- call (fun h => maccommand_DeleteQueueItem env h devEUI qi)
              (EvDeleteQueueItem devEUI qi) ;;
    match r with
    | Some e => fail (onError (ErrExt e))
    | None => deleteQueueItems onError devEUI rest
    end
  end.

(** [getDataDownFromApplication]: the payload to send, if any. *)
Definition getDataDownFromApplication (ns : NodeSession) (dr : Z)
    : M (option GetDataDownResponse) :=
  match index (MaxPayloadSizes (band env)) dr with
  | None => panic "index out of range"
  | Some mps =>
    let req :=
      {| GDD_AppEUI := NS_AppEUI ns; GDD_DevEUI := NS_DevEUI ns;
         GDD_MaxPayloadSize := u32 (MPS_N mps); GDD_FCnt := FCntDown ns |} in
    r <- call (fun h => as_GetDataDown env h req) (EvGetDataDown req) ;;
    match r with
    | inl _ => ret None
    | inr None => ret None
    | inr (Some resp) =>
      if Resp_FPort resp =? 0 then ret None
      else if MPS_N mps <? len (Resp_Data resp) then ret None
      else ret (Some resp)
    end
  end.

(** [getDataDownTXInfoAndDR]: the three values the Go function returns; the
    last one is the error (or a panic on [DataRates[dr]]). *)
Definition getDataDownTXInfoAndDR (ns : NodeSession) (rxInfo : RXInfo)
    : TXInfo * Z * result unit :=
  let b := band env in
  let txInfo :=
    {| TX_MAC := RX_MAC rxInfo; Immediately := false; TX_Timestamp := 0;
       TX_Frequency := 0; TX_Power := DefaultTXPower b;
       TX_DataRate := DataRate_zero; TX_CodeRate := RX_CodeRate rxInfo |} in
  let withRate (t : TXInfo) (d : DataRate) (f ts : Z) : TXInfo :=
    {| TX_MAC := TX_MAC t; Immediately := Immediately t; TX_Timestamp := ts;
       TX_Frequency := f; TX_Power := TX_Power t; TX_DataRate := d;
       TX_CodeRate := TX_CodeRate t |} in
  let rx1Timestamp :=
    if 0 <? RXDelay ns then
      u32 (RX_Timestamp rxInfo
           + u32 (Z.quot (RXDelay ns * Second) Microsecond))
    else
      u32 (RX_Timestamp rxInfo + u32 (Z.quot (ReceiveDelay1 b) Microsecond)) in
  match NS_RXWindow ns with
  | RX1 =>
    match GetDataRate b (RX_DataRate rxInfo) with
    | inl e => (txInfo, 0, Err (ErrExt e))
    | inr uplinkDR =>
      match GetRX1DataRate b uplinkDR (RX1DROffset ns) with
      | inl e => (txInfo, 0, Err (ErrExt e))
      | inr dr =>
        match index (DataRates b) dr with
        | None => (txInfo, dr, Panic "index out of range")
        | Some rate =>
          match GetRX1Frequency b (RX_Frequency rxInfo) with
          | inl e =>
              (withRate txInfo rate 0 0, dr, Err (ErrExt e))
          | inr f => (withRate txInfo rate f rx1Timestamp, dr, Ok tt)
          end
        end
      end
    end
  | RX2 =>
    let dr := RX2DR ns in
    if len (DataRates b) - 1 <? dr then
      (txInfo, 0,
       Err (ErrNew "invalid rx2 dr: %d (max dr: %d)"
              [dr; len (DataRates b) - 1]))
    else
      match index (DataRates b) dr with
      | None => (txInfo, dr, Panic "index out of range")
      | Some rate =>
        (withRate txInfo rate (RX2Frequency b)
           (u32 (rx1Timestamp + u32 (Z.quot Second Microsecond))),
         dr, Ok tt)
      end
  | RXWindowOther n =>
    (txInfo, 0, Err (ErrNew "unknown RXWindow option %d" [n]))
  end.

(** The callers' [if err := f(...); err != nil { return wrap(err) }]. *)
Definition orReturn {A : Type} (onError : error -> error) (m : M A) : M A :=
  fun h =>
    match m h with
    | (Err e, h') => (Err (onError e), h')
    | other => other
    end.

(** [SendDataDown(ctx, &ns, ...)] inside a caller: the caller's [ns] is the
    one the call leaves behind. *)
Definition callSendDataDown (ns : NodeSession) (txInfo : TXInfo)
    (dataDown : DataDownFrameContext) : M NodeSession :=
  fun h =>
    match SendDataDown ns txInfo dataDown h with
    | (Ok _, ns', h') => (Ok ns', h')
    | (Err e, _, h') => (Err e, h')
    | (Panic why, _, h') => (Panic why, h')
    end.

Definition callMacQueueItemsToMACCommands (ns : NodeSession)
    (items : list QueueItem) : M (list MACCommand) :=
  fun h =>
    let (out, h') := macQueueItemsToMACCommands ns items h in (Ok out, h').

(** [HandlePushDataDown]. *)
Definition HandlePushDataDown (ns : NodeSession) (confirmed : bool)
    (fPort : Z) (data : bytes) : M unit :=
  match LastRXInfoSet ns with
  | [] => fail ErrNoLastRXInfoSet
  | lastRX :: _ =>
    let dr := RX2DR ns in
    if len (DataRates (band env)) - 1 <? dr then
      fail (Wrap ErrInvalidDataRate "dr: %d (max dr: %d)"
              [dr; len (DataRates (band env)) - 1])
    else
      match index (MaxPayloadSizes (band env)) dr with
      | None => panic "index out of range"
      | Some mps =>
        let remainingPayloadSize := MPS_N mps in
        if remainingPayloadSize <? len data then
          fail (Wrap ErrMaxPayloadSizeExceeded "(max: %d)"
                  [remainingPayloadSize])
        else
          let remainingPayloadSize := remainingPayloadSize - len data in
          '(macQueueItems, _, _) <-
            orReturn (fun e => Wrap e "get mac-commands error" [])
              (getAndFilterMACQueueItems ns false remainingPayloadSize) ;;
          macCommands <- callMacQueueItemsToMACCommands ns macQueueItems ;;
          match index (DataRates (band env)) dr with
          | None => panic "index out of range"
          | Some rate =>
            let txInfo :=
              {| TX_MAC := RX_MAC lastRX; Immediately := true;
                 TX_Timestamp := 0;
                 TX_Frequency := RX2Frequency (band env);
                 TX_Power := DefaultTXPower (band env);
                 TX_DataRate := rate; TX_CodeRate := "4/5" |} in
            let ddCTX :=
              {| DD_ACK := false; DD_FPort := fPort;
                 MACCommands := macCommands; EncryptMACCommands := false;
                 Confirmed := confirmed; MoreData := false;
                 DD_Data := data |} in
            ns' <- orReturn (fun e => Wrap e "send data down error" [])
                     (callSendDataDown ns txInfo ddCTX) ;;
            deleteQueueItems
              (fun e => Wrap e "delete mac-command queue item error" [])
              (NS_DevEUI ns') macQueueItems
          end
      end
  end.

(** [SendUplinkResponse]. *)
Definition SendUplinkResponse (ns : NodeSession) (rxPacket : RXPacket)
    : M unit :=
  match PHY_MACPayload (RX_PHYPayload rxPacket) with
  | IsJoinRequestPayload _ | IsOtherPayload _ =>
      fail (ErrNew "expected *lorawan.MACPayload, got: %T" [])
  | IsMACPayload macPL =>
    match RXInfoSet rxPacket with
    | [] => panic "index out of range"
    | rxInfo :: _ =>
      match getDataDownTXInfoAndDR ns rxInfo with
      | (_, _, Err e) => fail (ErrFrom "get data down txinfo error: %s" e)
      | (_, _, Panic why) => panic why
      | (txInfo, dr, Ok _) =>
        match index (MaxPayloadSizes (band env)) dr with
        | None => panic "index out of range"
        | Some mps =>
          let allowEncryptedMACCommands := true in
          let remainingPayloadSize := MPS_N mps in
          txPayload <- getDataDownFromApplication ns dr ;;
          let remainingPayloadSize :=
            match txPayload with
            | Some p => remainingPayloadSize - len (Resp_Data p)
            | None => remainingPayloadSize
            end in
          let allowEncryptedMACCommands :=
            match txPayload with
            | Some _ => false
            | None => allowEncryptedMACCommands
            end in
          '(macQueueItems, encryptMACCommands, pendingMACCommands) <-
            orReturn (fun e => ErrFrom "get mac-commands error: %s" e)
              (getAndFilterMACQueueItems ns allowEncryptedMACCommands
                 remainingPayloadSize) ;;
          macCommands <- callMacQueueItemsToMACCommands ns macQueueItems ;;
          let ack :=
            MType_eqb (MType_ (PHY_MHDR (RX_PHYPayload rxPacket)))
              ConfirmedDataUp in
          let ddCTX :=
            {| DD_ACK := ack;
               DD_FPort :=
                 match txPayload with
                 | Some p => u8 (Resp_FPort p)
                 | None => 0
                 end;
               MACCommands := macCommands;
               EncryptMACCommands :=
                 allowEncryptedMACCommands && encryptMACCommands;
               Confirmed :=
                 match txPayload with
                 | Some p => Resp_Confirmed p
                 | None => false
                 end;
               MoreData :=
                 if pendingMACCommands then true
                 else match txPayload with
                      | Some p => Resp_MoreData p
                      | None => false
                      end;
               DD_Data :=
                 match txPayload with
                 | Some p => Resp_Data p
                 | None => []
                 end |} in
          if match txPayload with None => true | Some _ => false end
             && negb (DD_ACK ddCTX)
             && (len (MACCommands ddCTX) =? 0)
             && negb (ADRACKReq (FHDR_FCtrl (MP_FHDR macPL)))
          then ret tt
          else
            ns' <- orReturn (fun e => ErrFrom "send data down error: %s" e)
                     (callSendDataDown ns txInfo ddCTX) ;;
            deleteQueueItems
              (fun e =>
                 ErrFrom
                   "delete mac-command queue item from queue error: %s" e)
              (NS_DevEUI ns') macQueueItems
        end
      end
    end
  end.

End Downlink.

(** ** Package uplink: the join handler *)

Section Join.

Variable env : Env.

(** The session that [handleCollectedJoinRequestPackets] builds. *)
Definition joinNodeSession (devAddr : DevAddr) (jrPL : JoinRequestPayload)
    (joinResp : JoinRequestResponse) (rxPacket : RXPacket) : NodeSession :=
  {| NS_DevAddr := devAddr;
     NS_AppEUI := JR_AppEUI jrPL;
     NS_DevEUI := JR_DevEUI jrPL;
     NwkSKey := copy_into_zeroed 16 (JResp_NwkSKey joinResp);
     FCntUp := 0;
     FCntDown := 0;
     RelaxFCnt := JResp_RelaxFCnt joinResp;
     NS_RXWindow := session_toRXWindow env (JResp_RxWindow joinResp);
     RXDelay := u8 (JResp_RxDelay joinResp);
     RX1DROffset := u8 (JResp_Rx1DROffset joinResp);
     RX2DR := u8 (JResp_Rx2DR joinResp);
     NS_CFList :=
       Some (JResp_CFList joinResp
             ++ repeat 0 (5 - List.length (JResp_CFList joinResp)));
     ADRInterval := JResp_AdrInterval joinResp;
     InstallationMargin := JResp_InstallationMargin joinResp;
     LastRXInfoSet := RXInfoSet rxPacket |}.

(** [handleCollectedJoinRequestPackets]. *)
Definition handleCollectedJoinRequestPackets (rxPacket : RXPacket) : M unit :=
  match PHY_MACPayload (RX_PHYPayload rxPacket) with
  | IsMACPayload _ | IsOtherPayload _ =>
      fail (ErrNew "expected *lorawan.JoinRequestPayload, got: %T" [])
  | IsJoinRequestPayload jrPL =>
    match phy_MarshalBinary env (RX_PHYPayload rxPacket) with
    | inl e => fail (ErrFrom "phypayload marshal binary error: %s" (ErrExt e))
    | inr b =>
      r <- call (fun h => session_GetRandomDevAddr env h (ctx_NetID env))
                (EvGetRandomDevAddr (ctx_NetID env)) ;;
      match r with
      | inl e => fail (ErrFrom "get random DevAddr error: %s" (ErrExt e))
      | inr devAddr =>
        let req :=
          {| JRR_PhyPayload := b; JRR_DevAddr := devAddr;
             JRR_NetID := ctx_NetID env |} in
        r <- call (fun h => as_JoinRequest env h req) (EvJoinRequest req) ;;
        match r with
        | inl e =>
            fail (ErrFrom "application server join-request error: %s"
                    (ErrExt e))
        | inr joinResp =>
          let reportOTAA (err : error) : M unit :=
            let req :=
              {| HE_AppEUI := JR_AppEUI jrPL; HE_DevEUI := JR_DevEUI jrPL;
                 HE_Type := ErrorType_OTAA; HE_Error := err |} in
            _ <- call (fun h => as_HandleError env h req)
                      (EvApplicationHandleError req) ;;
            fail err in
          if 5 <? len (JResp_CFList joinResp) then
            reportOTAA (ErrNew "max CFlist size %d, got %d"
                          [5; len (JResp_CFList joinResp)])
          else
            match phy_UnmarshalBinary env (JResp_PhyPayload joinResp) with
            | inl e =>
                reportOTAA
                  (ErrFrom "downlink PHYPayload unmarshal error: %s" (ErrExt e))
            | inr downlinkPHY =>
              let ns := joinNodeSession devAddr jrPL joinResp rxPacket in
              r <- call (fun h => session_SaveNodeSession env h ns)
                        (EvSaveNodeSession ns) ;;
              match r with
              | Some e =>
                  fail (ErrFrom "save node-session error: %s" (ErrExt e))
              | None =>
                r <- call (fun h => maccommand_FlushQueue env h (NS_DevEUI ns))
                          (EvFlushQueue (NS_DevEUI ns)) ;;
                match r with
                | Some e =>
                    fail (ErrFrom "flush mac-command queue error: %s"
                            (ErrExt e))
                | None =>
                  r <- call (fun h => downlink_SendJoinAcceptResponse env h
                                        ns rxPacket downlinkPHY)
                            (EvSendJoinAcceptResponse ns rxPacket downlinkPHY) ;;
                  match r with
                  | Some e =>
                      fail (ErrFrom "send join-accept response error: %s"
                              (ErrExt e))
                  | None => ret tt
                  end
                end
              end
            end
        end
      end
    end
  end.

End Join.

(** ** Package api: gRPC codes *)

Inductive Code : Type :=
  | InvalidArgument | FailedPrecondition | Internal
  | NotFound | AlreadyExists | Unknown.

(** The map [errToCode]: its keys are the packages' error values. *)
Definition errToCode (e : error) : option Code :=
  match e with
  | ErrFPortMustNotBeZero => Some InvalidArgument
  | ErrFPortMustBeZero => Some InvalidArgument
  | ErrNoLastRXInfoSet => Some FailedPrecondition
  | ErrInvalidDataRate => Some Internal
  | ErrMaxPayloadSizeExceeded => Some InvalidArgument
  | GatewayErrDoesNotExist => Some NotFound
  | GatewayErrAlreadyExists => Some AlreadyExists
  | GatewayErrInvalidAggregationInterval => Some InvalidArgument
  | GatewayErrInvalidName => Some InvalidArgument
  | SessionErrDoesNotExistOrFCntOrMICInvalid => Some NotFound
  | SessionErrDoesNotExist => Some NotFound
  | _ => None
  end.

(** [errToRPCError]: the code and the cause that [grpc.Errorf] is given. *)
Definition errToRPCError (err : error) : Code * error :=
  let cause := Cause err in
  match errToCode cause with
  | Some code => (code, cause)
  | None => (Unknown, cause)
  end.

(** ** Reading the log *)

(** The entries of one kind, newest first. *)
Definition collect {A : Type} (sel : Event -> option A) (h : History)
    : list A :=
  flat_map (fun e => match sel e with Some a => [a] | None => [] end) h.

Definition asSendTXPacket (e : Event) : option (TXPacket * option ext_error) :=
  match e with EvSendTXPacket p r => Some (p, r) | _ => None end.

Definition asSaveNodeSession (e : Event)
    : option (NodeSession * option ext_error) :=
  match e with EvSaveNodeSession ns r => Some (ns, r) | _ => None end.

Definition asFilterItems (e : Event) : option (list QueueItem * bool * Z) :=
  match e with EvFilterItems q f m => Some (q, f, m) | _ => None end.

Definition asEnterSendDataDown (e : Event)
    : option (NodeSession * TXInfo * DataDownFrameContext) :=
  match e with EvEnterSendDataDown ns t d => Some (ns, t, d) | _ => None end.

Definition asEnterGetAndFilterMACQueueItems (e : Event) : option (bool * Z) :=
  match e with
  | EvEnterGetAndFilterMACQueueItems a r => Some (a, r)
  | _ => None
  end.

(** Calls of [Gateway.SendTXPacket], of [session.SaveNodeSession] and of
    [maccommand.FilterItems]; entries into [SendDataDown] and into
    [getAndFilterMACQueueItems]. *)
Definition sendCalls := collect asSendTXPacket.
Definition saveCalls := collect asSaveNodeSession.
Definition filterCalls := collect asFilterItems.
Definition sendDataDownCalls := collect asEnterSendDataDown.
Definition getAndFilterCalls := collect asEnterGetAndFilterMACQueueItems.

(** The frames the gateway accepted. *)
Definition transmitted (h : History) : list TXPacket :=
  flat_map (fun c => match snd c with None => [fst c] | Some _ => [] end)
    (sendCalls h).

(** No entry of the kind [sel] is a controller call, a queue deletion or
    a query of the application server. *)
Definition ignores_side_calls {A : Type} (sel : Event -> option A) : Prop :=
  (forall req r, sel (EvControllerHandleError req r) = None)
  /\ (forall d q r, sel (EvDeleteQueueItem d q r) = None)
  /\ (forall req r, sel (EvGetDataDown req r) = None).

(** ** A sample deployment, for the examples *)

Definition commandBytes (items : list QueueItem) : Z :=
  fold_right (fun qi n => len (QI_Data qi) + n) 0 items.

(** Modelled from the spec: [maccommand.FilterItems], whose body lies in
    package maccommand ("filter(queueItems, encrypted, budget): longest
    prefix whose concatenated command length <= budget").  Only the sample
    deployment uses it; the theorems hold for any [maccommand_FilterItems]. *)
Fixpoint FilterItems_prefix (items : list QueueItem) (frmPayload : bool)
    (maxBytes : Z) : list QueueItem :=
  match items with
  | [] => []
  | qi :: rest =>
    if maxBytes <? len (QI_Data qi) then []
    else qi :: FilterItems_prefix rest frmPayload (maxBytes - len (QI_Data qi))
  end.

Definition sampleRate (sf bw : Z) : DataRate :=
  {| Modulation := "LORA"; SpreadFactor := sf; Bandwidth := bw; BitRate := 0 |}.

Definition sampleBand : Band :=
  {| DataRates :=
       [sampleRate 12 125; sampleRate 11 125; sampleRate 10 125;
        sampleRate 9 125; sampleRate 8 125; sampleRate 7 125];
     MaxPayloadSizes :=
       [ {| MPS_M := 59; MPS_N := 51 |}; {| MPS_M := 59; MPS_N := 51 |};
         {| MPS_M := 59; MPS_N := 51 |}; {| MPS_M := 123; MPS_N := 115 |};
         {| MPS_M := 230; MPS_N := 222 |}; {| MPS_M := 230; MPS_N := 222 |} ];
     RX2Frequency := 869525000;
     DefaultTXPower := 14;
     ReceiveDelay1 := 1000000000;
     GetDataRate := fun d => inr (12 - SpreadFactor d);
     GetRX1DataRate := fun up off => inr (Z.max 0 (up - off));
     GetRX1Frequency := fun f => inr f |}.

(** A deployment whose gateway answers [gw], whose MAC queue reads as
    [queue] and whose application server answers [app]. *)
Definition sampleEnv (gw : option ext_error)
    (queue : ext_error + list QueueItem)
    (app : ext_error + option GetDataDownResponse) : Env :=
  {| ctx_NetID := [x01; x02; x03];
     band := sampleBand;
     gw_SendTXPacket := fun _ _ => gw;
     session_SaveNodeSession := fun _ _ => None;
     session_GetRandomDevAddr := fun _ _ => inr [x02; x00; x00; x2a];
     session_toRXWindow :=
       fun n => if n =? 0 then RX1 else if n =? 1 then RX2
                else RXWindowOther n;
     maccommand_ReadQueue := fun _ _ => queue;
     maccommand_FilterItems := FilterItems_prefix;
     maccommand_DeleteQueueItem := fun _ _ _ => None;
     maccommand_FlushQueue := fun _ _ => None;
     as_GetDataDown := fun _ _ => app;
     as_JoinRequest :=
       fun _ _ =>
         inr {| JResp_PhyPayload := [x20; x01; x02; x03];
                JResp_NwkSKey :=
                  [x00; x11; x22; x33; x44; x55; x66; x77;
                   x88; x99; xaa; xbb; xcc; xdd; xee; xff];
                JResp_RxDelay := 1; JResp_Rx1DROffset := 0;
                JResp_CFList := [867100000; 867300000];
                JResp_RxWindow := 0; JResp_Rx2DR := 0;
                JResp_RelaxFCnt := false; JResp_AdrInterval := 10;
                JResp_InstallationMargin := 5 |};
     as_HandleError := fun _ _ => None;
     nc_HandleError := fun _ _ => None;
     downlink_SendJoinAcceptResponse := fun _ _ _ _ => None;
     phy_EncryptFRMPayload :=
       fun _ _ => inr [DataPayload [xde; xad]];
     phy_SetMIC := fun _ _ => inr [x0a; x0b; x0c; x0d];
     phy_MarshalBinary := fun _ => inr [x00; x01];
     phy_UnmarshalBinary :=
       fun _ =>
         inr {| PHY_MHDR := {| MType_ := JoinAccept; Major_ := LoRaWANR1 |};
                PHY_MACPayload := IsOtherPayload [x01; x02; x03];
                PHY_MIC := zeroMIC |};
     mac_UnmarshalBinary :=
       fun b =>
         match b with
         | [] => inl "not enough bytes"
         | c :: pl => inr {| CID := c; CmdPayload := pl |}
         end |}.

Definition sampleRXInfo : RXInfo :=
  {| RX_MAC := [x01; x02; x03; x04; x05; x06; x07; x08];
     RX_Timestamp := 708016819;
     RX_Frequency := 868500000;
     RX_DataRate := sampleRate 7 125;
     RX_CodeRate := "4/5";
     RX_RSSI := -51 |}.

Definition sampleSession (w : RXWindow) (fCntDown adrInterval : Z)
    : NodeSession :=
  {| NS_DevAddr := [x02; x00; x00; x2a];
     NS_AppEUI := [x01; x02; x03; x04; x05; x06; x07; x08];
     NS_DevEUI := [x02; x03; x04; x05; x06; x07; x08; x09];
     NwkSKey := repeat x01 16;
     FCntUp := 8; FCntDown := fCntDown; RelaxFCnt := false;
     NS_RXWindow := w; RXDelay := 0; RX1DROffset := 0; RX2DR := 0;
     NS_CFList := None; ADRInterval := adrInterval;
     InstallationMargin := 0;
     LastRXInfoSet := [sampleRXInfo] |}.

Definition sampleTXInfo : TXInfo :=
  {| TX_MAC := RX_MAC sampleRXInfo; Immediately := true; TX_Timestamp := 0;
     TX_Frequency := 869525000; TX_Power := 14;
     TX_DataRate := sampleRate 12 125; TX_CodeRate := "4/5" |}.

Definition sampleMACPayload (adrAckReq : bool) : MACPayload :=
  {| MP_FHDR :=
       {| FHDR_DevAddr := [x02; x00; x00; x2a];
          FHDR_FCtrl :=
            {| ADR := false; ADRACKReq := adrAckReq;
               ACK := false; FPending := false |};
          FCnt := 10; FOpts := [] |};
     MP_FPort := Some 1;
     FRMPayload := [DataPayload [x01; x02; x03; x04]] |}.

(** An uplink data frame of type [mtype], heard by one gateway. *)
Definition sampleUplink (mtype : MType) (adrAckReq : bool) : RXPacket :=
  {| RX_PHYPayload :=
       {| PHY_MHDR := {| MType_ := mtype; Major_ := LoRaWANR1 |};
          PHY_MACPayload := IsMACPayload (sampleMACPayload adrAckReq);
          PHY_MIC := zeroMIC |};
     RXInfoSet := [sampleRXInfo] |}.

Definition sampleJoinRequest : RXPacket :=
  {| RX_PHYPayload :=
       {| PHY_MHDR := {| MType_ := JoinRequest; Major_ := LoRaWANR1 |};
          PHY_MACPayload :=
            IsJoinRequestPayload
              {| JR_AppEUI := [x01; x02; x03; x04; x05; x06; x07; x08];
                 JR_DevEUI := [x02; x03; x04; x05; x06; x07; x08; x09];
                 JR_DevNonce := [xab; xcd] |};
          PHY_MIC := zeroMIC |};
     RXInfoSet := [sampleRXInfo] |}.

Definition sampleFrame (fPort : Z) (data : bytes) (cmds : list MACCommand)
    (encrypt confirmed : bool) : DataDownFrameContext :=
  {| DD_ACK := false; DD_FPort := fPort; MACCommands := cmds;
     EncryptMACCommands := encrypt; Confirmed := confirmed;
     MoreData := false; DD_Data := data |}.

(** Two queued commands for FOpts: DevStatusReq and LinkADRReq. *)
Definition sampleQueue : list QueueItem :=
  [ {| QI_Data := [x06]; QI_FRMPayload := false; QI_External := false |};
    {| QI_Data := [x03; x50; x07; x00; x01]; QI_FRMPayload := false;
       QI_External := true |} ].

(** Two commands of ten bytes each: only one fits into FOpts. *)
Definition sampleLongQueue : list QueueItem :=
  [ {| QI_Data := [x80; x01; x02; x03; x04; x05; x06; x07; x08; x09];
       QI_FRMPayload := false; QI_External := true |};
    {| QI_Data := [x81; x01; x02; x03; x04; x05; x06; x07; x08; x09];
       QI_FRMPayload := false; QI_External := true |} ].

Definition samplePayload : GetDataDownResponse :=
  {| Resp_Data := [x0a; x0b; x0c; x0d]; Resp_Confirmed := false;
     Resp_MoreData := false; Resp_FPort := 1 |}.

(** ** The vocabulary of the statements *)

(** What [SendDataDown] hands to the gateway. *)
Definition Built (ns : NodeSession) (txInfo : TXInfo)
    (dd : DataDownFrameContext) (pkt : TXPacket) : Prop :=
  TXInfo_ pkt = txInfo
  /\ MType_ (PHY_MHDR (PHYPayload_ pkt))
     = (if Confirmed dd then ConfirmedDataDown else UnconfirmedDataDown)
  /\ exists m,
       PHY_MACPayload (PHYPayload_ pkt) = IsMACPayload m
       /\ FHDR_DevAddr (MP_FHDR m) = NS_DevAddr ns
       /\ FHDR_FCtrl (MP_FHDR m)
          = {| ADR := negb (ADRInterval ns =? 0); ADRACKReq := false;
               ACK := DD_ACK dd; FPending := MoreData dd |}
       /\ FCnt (MP_FHDR m) = FCntDown ns
       /\ FOpts (MP_FHDR m)
          = (if EncryptMACCommands dd then [] else MACCommands dd)
       /\ (EncryptMACCommands dd = false ->
           MP_FPort m
           = (if 0 <? DD_FPort dd then Some (DD_FPort dd) else None)
           /\ FRMPayload m
              = (if 0 <? DD_FPort dd then [DataPayload (DD_Data dd)]
                 else [])).

Inductive SendDataDownRun (env : Env) (ns : NodeSession) (txInfo : TXInfo)
    (dd : DataDownFrameContext) (h : History)
    : result unit * NodeSession * History -> Prop :=
  | Run_invalid e :
      Validate dd = Some e ->
      SendDataDownRun env ns txInfo dd h
        (Err (Wrap e "validation error" []), ns,
         EvEnterSendDataDown ns txInfo dd :: h)
  | Run_encrypt_failed e :
      Validate dd = None ->
      EncryptMACCommands dd = true ->
      SendDataDownRun env ns txInfo dd h
        (Err (Wrap (ErrExt e) "encrypt FRMPayload error" []), ns,
         EvEnterSendDataDown ns txInfo dd :: h)
  | Run_mic_failed e :
      Validate dd = None ->
      SendDataDownRun env ns txInfo dd h
        (Err (Wrap (ErrExt e) "set MIC error" []), ns,
         EvEnterSendDataDown ns txInfo dd :: h)
  | Run_gateway_failed pkt e :
      Validate dd = None ->
      Built ns txInfo dd pkt ->
      SendDataDownRun env ns txInfo dd h
        (Err (Wrap (ErrExt e) "send tx packet to gateway error" []), ns,
         EvSendTXPacket pkt (Some e) :: EvEnterSendDataDown ns txInfo dd :: h)
  | Run_sent_confirmed pkt :
      Validate dd = None ->
      Built ns txInfo dd pkt ->
      Confirmed dd = true ->
      SendDataDownRun env ns txInfo dd h
        (Ok tt, ns,
         EvSendTXPacket pkt None :: EvEnterSendDataDown ns txInfo dd :: h)
  | Run_save_failed pkt e :
      Validate dd = None ->
      Built ns txInfo dd pkt ->
      Confirmed dd = false ->
      SendDataDownRun env ns txInfo dd h
        (Err (Wrap (ErrExt e) "save node-session error" []),
         set_FCntDown ns (u32 (FCntDown ns + 1)),
         EvSaveNodeSession (set_FCntDown ns (u32 (FCntDown ns + 1))) (Some e)
         :: EvSendTXPacket pkt None :: EvEnterSendDataDown ns txInfo dd :: h)
  | Run_sent_saved pkt :
      Validate dd = None ->
      Built ns txInfo dd pkt ->
      Confirmed dd = false ->
      SendDataDownRun env ns txInfo dd h
        (Ok tt,
         set_FCntDown ns (u32 (FCntDown ns + 1)),
         EvSaveNodeSession (set_FCntDown ns (u32 (FCntDown ns + 1))) None
         :: EvSendTXPacket pkt None :: EvEnterSendDataDown ns txInfo dd :: h).

(** The budget [FilterItems] is given. *)
Definition filterBudget (frmPayload : bool) (remainingPayloadSize : Z) : Z :=
  if frmPayload then remainingPayloadSize
  else if 15 <? remainingPayloadSize then 15 else remainingPayloadSize.

(** A frame whose MAC commands are in FOpts and whose FRMPayload holds the
    application data, if there is a port, and nothing else. *)
Definition plaintextFrame (dd : DataDownFrameContext) (pkt : TXPacket)
    : Prop :=
  exists m,
    PHY_MACPayload (PHYPayload_ pkt) = IsMACPayload m
    /\ FOpts (MP_FHDR m) = MACCommands dd
    /\ MP_FPort m = (if 0 <? DD_FPort dd then Some (DD_FPort dd) else None)
    /\ FRMPayload m
       = (if 0 <? DD_FPort dd then [DataPayload (DD_Data dd)] else []).

(** What a run added to the log: the calls of the filter, of
    [maccommand.FilterItems], of [SendDataDown] and of the gateway. *)
Definition addedCalls (h h' : History)
    (gf : list (bool * Z)) (fc : list (list QueueItem * bool * Z))
    (sd : list (NodeSession * TXInfo * DataDownFrameContext))
    (sc : list (TXPacket * option ext_error)) : Prop :=
  getAndFilterCalls h' = gf ++ getAndFilterCalls h
  /\ filterCalls h' = fc ++ filterCalls h
  /\ sendDataDownCalls h' = sd ++ sendDataDownCalls h
  /\ sendCalls h' = sc ++ sendCalls h.

(** The calls are made without encryption: the filter is told so, the
    budget of [FilterItems] is the smaller of 15 and what the filter was
    given, the frame context does not ask for it, and the frame is plain. *)
Definition unencrypted
    (gf : list (bool * Z)) (fc : list (list QueueItem * bool * Z))
    (sd : list (NodeSession * TXInfo * DataDownFrameContext))
    (sc : list (TXPacket * option ext_error)) : Prop :=
  Forall (fun g => fst g = false) gf
  /\ Forall (fun f =>
               snd (fst f) = false /\ snd f <= 15
               /\ exists g, In g gf /\ snd f = Z.min 15 (snd g))
       fc
  /\ Forall (fun s => EncryptMACCommands (snd s) = false) sd
  /\ Forall (fun p => exists s, In s sd /\ plaintextFrame (snd s) (fst p)) sc.

(** The values [SendUplinkResponse] computes on its way, as functions of
    what the application server gave ([txPayload]) and of what the filter
    returned. *)
Definition responseAllowEncrypted (txPayload : option GetDataDownResponse)
    : bool :=
  match txPayload with Some _ => false | None => true end.

Definition responseRemaining (mps : MaxPayloadSize)
    (txPayload : option GetDataDownResponse) : Z :=
  match txPayload with
  | Some p => MPS_N mps - len (Resp_Data p)
  | None => MPS_N mps
  end.

Definition uplinkConfirmed (rxPacket : RXPacket) : bool :=
  MType_eqb (MType_ (PHY_MHDR (RX_PHYPayload rxPacket))) ConfirmedDataUp.

Definition responseFrameContext (rxPacket : RXPacket)
    (txPayload : option GetDataDownResponse) (macCommands : list MACCommand)
    (encryptMACCommands pendingMACCommands : bool) : DataDownFrameContext :=
  {| DD_ACK := uplinkConfirmed rxPacket;
     DD_FPort := match txPayload with Some p => u8 (Resp_FPort p) | None => 0 end;
     MACCommands := macCommands;
     EncryptMACCommands :=
       responseAllowEncrypted txPayload && encryptMACCommands;
     Confirmed :=
       match txPayload with Some p => Resp_Confirmed p | None => false end;
     MoreData :=
       if pendingMACCommands then true
       else match txPayload with Some p => Resp_MoreData p | None => false end;
     DD_Data := match txPayload with Some p => Resp_Data p | None => [] end |}.

(** At least one reason to answer: a payload from the application server,
    MAC commands to send, a confirmed uplink, or ADRACKReq in the uplink. *)
Definition mustRespond (rxPacket : RXPacket) (macPL : MACPayload)
    (txPayload : option GetDataDownResponse) (macCommands : list MACCommand)
    : Prop :=
  txPayload <> None
  \/ macCommands <> []
  \/ MType_ (PHY_MHDR (RX_PHYPayload rxPacket)) = ConfirmedDataUp
  \/ ADRACKReq (FHDR_FCtrl (MP_FHDR macPL)) = true.

(** ** More of the log, and more sample data *)

Definition asDeleteQueueItem (e : Event)
    : option (EUI64 * QueueItem * option ext_error) :=
  match e with EvDeleteQueueItem d q r => Some (d, q, r) | _ => None end.

Definition asControllerHandleError (e : Event)
    : option (NCHandleErrorRequest * option ext_error) :=
  match e with EvControllerHandleError req r => Some (req, r) | _ => None end.

Definition asGetDataDown (e : Event)
    : option (GetDataDownRequest
              * (ext_error + option GetDataDownResponse)) :=
  match e with EvGetDataDown req r => Some (req, r) | _ => None end.

Definition asFlushQueue (e : Event) : option (EUI64 * option ext_error) :=
  match e with EvFlushQueue d r => Some (d, r) | _ => None end.

Definition asSendJoinAcceptResponse (e : Event)
    : option (NodeSession * RXPacket * PHYPayload * option ext_error) :=
  match e with
  | EvSendJoinAcceptResponse ns rx phy r => Some (ns, rx, phy, r)
  | _ => None
  end.

Definition asApplicationHandleError (e : Event)
    : option (ASHandleErrorRequest * option ext_error) :=
  match e with EvApplicationHandleError req r => Some (req, r) | _ => None end.

(** Calls of [maccommand.DeleteQueueItem], of [Controller.HandleError], of
    [Application.GetDataDown], of [maccommand.FlushQueue], of
    [downlink.SendJoinAcceptResponse] and of [Application.HandleError]. *)
Definition deleteCalls := collect asDeleteQueueItem.
Definition controllerCalls := collect asControllerHandleError.
Definition applicationQueries := collect asGetDataDown.
Definition flushCalls := collect asFlushQueue.
Definition joinAcceptCalls := collect asSendJoinAcceptResponse.
Definition applicationErrorCalls := collect asApplicationHandleError.

(** Whether a queue item unmarshals into a MAC command. *)
Definition unmarshals (env : Env) (qi : QueueItem) : bool :=
  match mac_UnmarshalBinary env (QI_Data qi) with
  | inr _ => true
  | inl _ => false
  end.

(** [env], with another answer of the application server to a JoinRequest,
    another answer of the session store to a save, and another parser of
    the join-accept. *)
Definition withJoin (env : Env)
    (answer : ext_error + JoinRequestResponse) (saved : option ext_error)
    (parsed : ext_error + PHYPayload) : Env :=
  {| ctx_NetID := ctx_NetID env;
     band := band env;
     gw_SendTXPacket := gw_SendTXPacket env;
     session_SaveNodeSession := fun _ _ => saved;
     session_GetRandomDevAddr := session_GetRandomDevAddr env;
     session_toRXWindow := session_toRXWindow env;
     maccommand_ReadQueue := maccommand_ReadQueue env;
     maccommand_FilterItems := maccommand_FilterItems env;
     maccommand_DeleteQueueItem := maccommand_DeleteQueueItem env;
     maccommand_FlushQueue := maccommand_FlushQueue env;
     as_GetDataDown := as_GetDataDown env;
     as_JoinRequest := fun _ _ => answer;
     as_HandleError := as_HandleError env;
     nc_HandleError := nc_HandleError env;
     downlink_SendJoinAcceptResponse := downlink_SendJoinAcceptResponse env;
     phy_EncryptFRMPayload := phy_EncryptFRMPayload env;
     phy_SetMIC := phy_SetMIC env;
     phy_MarshalBinary := phy_MarshalBinary env;
     phy_UnmarshalBinary := fun _ => parsed;
     mac_UnmarshalBinary := mac_UnmarshalBinary env |}.

(** * Properties *)

(** ** The log projections *)

Lemma collect_cons {A : Type} (sel : Event -> option A) e h :
  collect sel (e :: h)
  = match sel e with Some a => a :: collect sel h | None => collect sel h end.
Proof. unfold collect; simpl; destruct (sel e); reflexivity. Qed.

Lemma collect_app {A : Type} (sel : Event -> option A) h1 h2 :
  collect sel (h1 ++ h2) = collect sel h1 ++ collect sel h2.
Proof. unfold collect; apply flat_map_app. Qed.

Lemma transmitted_cons_ok pkt h :
  transmitted (EvSendTXPacket pkt None :: h) = pkt :: transmitted h.
Proof. reflexivity. Qed.

Lemma transmitted_unchanged h h' :
  sendCalls h' = sendCalls h -> transmitted h' = transmitted h.
Proof. unfold transmitted; intros ->; reflexivity. Qed.

Lemma ignores_side_calls_send : ignores_side_calls asSendTXPacket.
Proof. repeat split. Qed.
Lemma ignores_side_calls_save : ignores_side_calls asSaveNodeSession.
Proof. repeat split. Qed.
Lemma ignores_side_calls_filter : ignores_side_calls asFilterItems.
Proof. repeat split. Qed.
Lemma ignores_side_calls_enterSend : ignores_side_calls asEnterSendDataDown.
Proof. repeat split. Qed.
Lemma ignores_side_calls_enterFilter :
  ignores_side_calls asEnterGetAndFilterMACQueueItems.
Proof. repeat split. Qed.

Create HintDb loops.

#[local] Hint Resolve ignores_side_calls_send ignores_side_calls_save
  ignores_side_calls_filter ignores_side_calls_enterSend ignores_side_calls_enterFilter
  : loops.

(** The two loops only add controller and queue-deletion calls. *)
Lemma macQueueItemsToMACCommands_collect {A : Type} (sel : Event -> option A)
    env ns items :
  ignores_side_calls sel ->
  forall h,
    collect sel (snd (macQueueItemsToMACCommands env ns items h))
    = collect sel h.
Proof.
  intros [Hc _]. induction items as [|qi rest IH]; intro h;
    cbn [macQueueItemsToMACCommands].
  - reflexivity.
  - destruct (mac_UnmarshalBinary env (QI_Data qi)) as [e|mac].
    + rewrite IH, collect_cons, Hc. reflexivity.
    + specialize (IH h).
      destruct (macQueueItemsToMACCommands env ns rest h) as [out h'].
      exact IH.
Qed.

Lemma deleteQueueItems_collect {A : Type} (sel : Event -> option A)
    env onError devEUI items :
  ignores_side_calls sel ->
  forall h,
    collect sel (snd (deleteQueueItems env onError devEUI items h))
    = collect sel h.
Proof.
  intros [_ [Hd _]]. induction items as [|qi rest IH]; intro h;
    cbn [deleteQueueItems].
  - reflexivity.
  - unfold bind, call.
    destruct (maccommand_DeleteQueueItem env h devEUI qi) as [e|];
      cbn [fail snd].
    + rewrite collect_cons, Hd. reflexivity.
    + rewrite IH, collect_cons, Hd. reflexivity.
Qed.

Lemma getDataDownFromApplication_collect {A : Type} (sel : Event -> option A)
    env ns dr h :
  ignores_side_calls sel ->
  collect sel (snd (getDataDownFromApplication env ns dr h)) = collect sel h.
Proof.
  intros [_ [_ Hg]]. unfold getDataDownFromApplication.
  destruct (index (MaxPayloadSizes (band env)) dr) as [mps|];
    [|reflexivity].
  unfold bind, call, ret.
  destruct (as_GetDataDown env h _) as [e|[resp|]]; cbn [snd];
    try (rewrite collect_cons, Hg; reflexivity).
  destruct (Resp_FPort resp =? 0); cbn [snd];
    [rewrite collect_cons, Hg; reflexivity|].
  destruct (MPS_N mps <? len (Resp_Data resp)); cbn [snd];
    rewrite collect_cons, Hg; reflexivity.
Qed.

(** The delete loop never panics, and fails only through [onError]. *)
Lemma deleteQueueItems_result env onError devEUI items h :
  fst (deleteQueueItems env onError devEUI items h) = Ok tt
  \/ exists e, fst (deleteQueueItems env onError devEUI items h)
               = Err (onError (ErrExt e)).
Proof.
  revert h. induction items as [|qi rest IH]; intro h; simpl.
  - left; reflexivity.
  - unfold bind, call.
    destruct (maccommand_DeleteQueueItem env h devEUI qi) as [e|]; simpl.
    + right; exists e; reflexivity.
    + apply IH.
Qed.

(** ** The outcomes of [SendDataDown] *)

Lemma Built_intro ns txInfo dd mt mic (m : MACPayload) :
  mt = (if Confirmed dd then ConfirmedDataDown else UnconfirmedDataDown) ->
  FHDR_DevAddr (MP_FHDR m) = NS_DevAddr ns ->
  FHDR_FCtrl (MP_FHDR m)
  = {| ADR := negb (ADRInterval ns =? 0); ADRACKReq := false;
       ACK := DD_ACK dd; FPending := MoreData dd |} ->
  FCnt (MP_FHDR m) = FCntDown ns ->
  FOpts (MP_FHDR m) = (if EncryptMACCommands dd then [] else MACCommands dd) ->
  (EncryptMACCommands dd = false ->
   MP_FPort m = (if 0 <? DD_FPort dd then Some (DD_FPort dd) else None)
   /\ FRMPayload m
      = (if 0 <? DD_FPort dd then [DataPayload (DD_Data dd)] else [])) ->
  Built ns txInfo dd
    {| TXInfo_ := txInfo;
       PHYPayload_ :=
         {| PHY_MHDR := {| MType_ := mt; Major_ := LoRaWANR1 |};
            PHY_MACPayload := IsMACPayload m;
            PHY_MIC := mic |} |}.
Proof.
  intros Hmt Haddr Hctrl Hcnt Hopts Hbody.
  split; [reflexivity|]. split; [exact Hmt|].
  exists m. repeat split; try assumption; apply Hbody; assumption.
Qed.

Lemma len_nil_ltb {A : Type} (l : list A) : (0 <? len l) = false -> l = [].
Proof.
  destruct l; [reflexivity|].
  unfold len; simpl. intro H. apply Z.ltb_ge in H. lia.
Qed.

(** Closes a [Built] goal once the branch taken is known. *)
Ltac built :=
  apply Built_intro; cbn;
  repeat match goal with
         | H : _ = _ |- _ => rewrite H
         end;
  solve [reflexivity | intros _; split; reflexivity | discriminate].

Lemma SendDataDown_run env ns txInfo dd h :
  SendDataDownRun env ns txInfo dd h (SendDataDown env ns txInfo dd h).
Proof.
  unfold SendDataDown.
  destruct (Validate dd) as [e|] eqn:HV; [constructor; assumption|].
  assert (Hport : EncryptMACCommands dd = true -> (0 <? DD_FPort dd) = false).
  { intro Henc. unfold Validate in HV. rewrite Henc in HV.
    destruct (0 <? DD_FPort dd); [|reflexivity].
    destruct ((DD_FPort dd =? 0) && (0 <? len (DD_Data dd))); discriminate. }
  destruct (0 <? len (MACCommands dd)) eqn:Hcmds;
    [destruct (EncryptMACCommands dd) eqn:Henc;
       [specialize (Hport eq_refl);
        destruct (phy_EncryptFRMPayload _ _ _) as [e|frm];
          [apply Run_encrypt_failed; assumption|]; rewrite Hport
       |clear Hport; destruct (0 <? DD_FPort dd) eqn:Hport]
    |apply len_nil_ltb in Hcmds; clear Hport;
     destruct (EncryptMACCommands dd) eqn:Henc;
     destruct (0 <? DD_FPort dd) eqn:Hport].
  all: destruct (phy_SetMIC _ _ _) as [e|mic];
    [apply Run_mic_failed; assumption|].
  all: cbv zeta.
  all: destruct (gw_SendTXPacket _ _ _) as [e|];
    [apply Run_gateway_failed; [assumption|clear HV; built]|].
  all: destruct (Confirmed dd) eqn:Hconf; cbn [negb];
    [apply Run_sent_confirmed; [assumption|clear HV; built|assumption]|].
  all: destruct (session_SaveNodeSession _ _ _) as [e|];
    [apply Run_save_failed | apply Run_sent_saved];
    try assumption; clear HV; built.
Qed.

Lemma list_neq_cons {A : Type} (x : A) (l : list A) : l <> x :: l.
Proof.
  intro H. apply (f_equal (@List.length A)) in H. simpl in H. lia.
Qed.

Lemma Cause_sentinel_code e :
  Cause e = ErrFPortMustNotBeZero \/ Cause e = ErrFPortMustBeZero ->
  fst (errToRPCError e) = InvalidArgument.
Proof. unfold errToRPCError. intros [-> | ->]; reflexivity. Qed.

Lemma Validate_Some dd e :
  Validate dd = Some e ->
  (e = ErrFPortMustNotBeZero /\ DD_FPort dd = 0 /\ 0 < len (DD_Data dd))
  \/ (e = ErrFPortMustBeZero /\ 0 < DD_FPort dd
      /\ EncryptMACCommands dd = true).
Proof.
  unfold Validate.
  destruct (DD_FPort dd =? 0) eqn:H0; destruct (0 <? len (DD_Data dd)) eqn:Hd;
    destruct (0 <? DD_FPort dd) eqn:Hp;
    destruct (EncryptMACCommands dd) eqn:He; simpl; intro H;
    inversion H; subst;
    try apply Z.eqb_eq in H0; try apply Z.ltb_lt in Hd;
    try apply Z.ltb_lt in Hp; auto.
Qed.

Lemma Validate_None dd :
  Validate dd = None ->
  ~ (DD_FPort dd = 0 /\ 0 < len (DD_Data dd))
  /\ ~ (0 < DD_FPort dd /\ EncryptMACCommands dd = true).
Proof.
  unfold Validate.
  destruct (DD_FPort dd =? 0) eqn:H0; destruct (0 <? len (DD_Data dd)) eqn:Hd;
    destruct (0 <? DD_FPort dd) eqn:Hp;
    destruct (EncryptMACCommands dd) eqn:He; simpl; intro H;
    try discriminate;
    try apply Z.eqb_neq in H0; try apply Z.ltb_ge in Hd;
    try apply Z.ltb_ge in Hp; split; intros [? ?];
    try lia; try discriminate.
Qed.

(** ** Validation errors *)

(** C4: [SendDataDown] returns an error caused by [ErrFPortMustNotBeZero]
    exactly when the frame context has FPort = 0 and non-empty Data, and one
    caused by [ErrFPortMustBeZero] exactly when it has FPort > 0 and
    EncryptMACCommands set.  In both cases the session is the one given, and
    nothing is handed to the gateway or saved: the log only gains the entry
    into [SendDataDown].  Whatever wraps these errors, [errToRPCError] gives
    them the code InvalidArgument. *)
Theorem SendDataDown_validation_errors :
  forall env ns txInfo dd h,
    let out := SendDataDown env ns txInfo dd h in
    ((exists e, fst (fst out) = Err e /\ Cause e = ErrFPortMustNotBeZero)
     <-> (DD_FPort dd = 0 /\ 0 < len (DD_Data dd)))
    /\ ((exists e, fst (fst out) = Err e /\ Cause e = ErrFPortMustBeZero)
        <-> (0 < DD_FPort dd /\ EncryptMACCommands dd = true))
    /\ (forall e,
          fst (fst out) = Err e ->
          Cause e = ErrFPortMustNotBeZero \/ Cause e = ErrFPortMustBeZero ->
          snd (fst out) = ns
          /\ snd out = EvEnterSendDataDown ns txInfo dd :: h
          /\ sendCalls (snd out) = sendCalls h
          /\ saveCalls (snd out) = saveCalls h)
    /\ (forall e,
          Cause e = ErrFPortMustNotBeZero \/ Cause e = ErrFPortMustBeZero ->
          fst (errToRPCError e) = InvalidArgument).
Proof.
  intros env ns txInfo dd h out.
  pose proof (SendDataDown_run env ns txInfo dd h) as R.
  fold out in R.
  assert (Hcause : forall e,
             fst (fst out) = Err e ->
             Cause e = ErrFPortMustNotBeZero \/ Cause e = ErrFPortMustBeZero ->
             exists v, Validate dd = Some v /\ Cause e = v
                       /\ out = (Err (Wrap v "validation error" []), ns,
                                 EvEnterSendDataDown ns txInfo dd :: h)).
  { intros e He Hc.
    inversion R as [v HV Ho | v HV Henc Ho | v HV Ho | pkt v HV HB Ho
                   | pkt HV HB Hconf Ho | pkt v HV HB Hconf Ho
                   | pkt HV HB Hconf Ho];
      rewrite <- Ho in He; simpl in He; inversion He; subst e;
      simpl in Hc; try (destruct Hc; discriminate).
    exists v.
    destruct (Validate_Some _ HV) as [[Hv _] | [Hv _]]; subst v; auto. }
  split; [split|split; [split|split]].
  - intros [e [He Hc]].
    destruct (Hcause e He (or_introl Hc)) as [v [HV [Hv _]]].
    destruct (Validate_Some _ HV) as [[-> ?] | [-> ?]]; [tauto|].
    rewrite Hc in Hv; discriminate.
  - intros Hcond.
    inversion R as [v HV Ho | v HV Henc Ho | v HV Ho | pkt v HV HB Ho
                   | pkt HV HB Hconf Ho | pkt v HV HB Hconf Ho
                   | pkt HV HB Hconf Ho];
      try (apply Validate_None in HV; tauto).
    destruct (Validate_Some _ HV) as [[-> ?] | [-> [Hp _]]]; [|lia].
    eexists; split; reflexivity.
  - intros [e [He Hc]].
    destruct (Hcause e He (or_intror Hc)) as [v [HV [Hv _]]].
    destruct (Validate_Some _ HV) as [[-> ?] | [-> ?]]; [|tauto].
    rewrite Hc in Hv; discriminate.
  - intros Hcond.
    inversion R as [v HV Ho | v HV Henc Ho | v HV Ho | pkt v HV HB Ho
                   | pkt HV HB Hconf Ho | pkt v HV HB Hconf Ho
                   | pkt HV HB Hconf Ho];
      try (apply Validate_None in HV; tauto).
    destruct (Validate_Some _ HV) as [[-> [Hp _]] | [-> ?]]; [lia|].
    eexists; split; reflexivity.
  - intros e He Hc.
    destruct (Hcause e He Hc) as [v [_ [_ Ho]]].
    rewrite Ho. repeat split.
  - apply Cause_sentinel_code.
Qed.

(** A push with FPort 0 and two bytes of data: the error that comes back
    from [HandlePushDataDown] has the code InvalidArgument. *)
Example HandlePushDataDown_invalid_argument :
  let env := sampleEnv None (inr []) (inr None) in
  let out := HandlePushDataDown env (sampleSession RX1 5 0) false 0
               [x01; x02] [] in
  fst out
  = Err (Wrap (Wrap ErrFPortMustNotBeZero "validation error" [])
           "send data down error" [])
  /\ sendCalls (snd out) = []
  /\ (forall e, fst out = Err e -> errToRPCError e
                                   = (InvalidArgument, ErrFPortMustNotBeZero)).
Proof.
  cbv zeta. split; [reflexivity|]. split; [reflexivity|].
  intros e He. vm_compute in He. inversion He. reflexivity.
Qed.

(** ** The downlink frame counter *)

Lemma Built_FCnt ns txInfo dd pkt :
  Built ns txInfo dd pkt ->
  exists m, PHY_MACPayload (PHYPayload_ pkt) = IsMACPayload m
            /\ FCnt (MP_FHDR m) = FCntDown ns.
Proof.
  intros [_ [_ [m [Hm [_ [_ [Hc _]]]]]]]. exists m. auto.
Qed.

(** C2: when [SendDataDown] succeeds, the frame it transmitted carries the
    FCntDown the session had before the call.  If the frame was unconfirmed,
    the session afterwards has FCntDown one higher (a uint32 increment) and
    that session was saved; if it was confirmed, the session is unchanged
    and nothing was saved. *)
Theorem SendDataDown_FCntDown :
  forall env ns txInfo dd h ns' h',
    SendDataDown env ns txInfo dd h = (Ok tt, ns', h') ->
    exists pkt m,
      transmitted h' = pkt :: transmitted h
      /\ PHY_MACPayload (PHYPayload_ pkt) = IsMACPayload m
      /\ FCnt (MP_FHDR m) = FCntDown ns
      /\ (Confirmed dd = false ->
          FCntDown ns' = u32 (FCntDown ns + 1)
          /\ (is_u32 (FCntDown ns + 1) -> FCntDown ns' = FCntDown ns + 1)
          /\ ns' = set_FCntDown ns (FCntDown ns')
          /\ saveCalls h' = (ns', None) :: saveCalls h)
      /\ (Confirmed dd = true ->
          ns' = ns /\ FCntDown ns' = FCntDown ns
          /\ saveCalls h' = saveCalls h).
Proof.
  intros env ns txInfo dd h ns' h' Hrun.
  pose proof (SendDataDown_run env ns txInfo dd h) as R.
  rewrite Hrun in R.
  inversion R as [v HV Ho | v HV Henc Ho | v HV Ho | pkt v HV HB Ho
                 | pkt HV HB Hconf Ho | pkt v HV HB Hconf Ho
                 | pkt HV HB Hconf Ho]; subst.
  - destruct (Built_FCnt HB) as [m [Hm Hc]].
    exists pkt, m. repeat split; auto; congruence.
  - destruct (Built_FCnt HB) as [m [Hm Hc]].
    exists pkt, m. split; [reflexivity|]. split; [exact Hm|].
    split; [exact Hc|]. split; [|congruence].
    intros _. split; [reflexivity|]. split; [|split; reflexivity].
    intros Hr. simpl. unfold u32. apply Z.mod_small. exact Hr.
Qed.

Lemma SendDataDown_FCntDown_witness :
  SendDataDown (sampleEnv None (inr []) (inr None)) (sampleSession RX1 5 0)
    sampleTXInfo (sampleFrame 1 [x01; x02] [] false false) []
  = (Ok tt, sampleSession RX1 6 0,
     snd (SendDataDown (sampleEnv None (inr []) (inr None))
            (sampleSession RX1 5 0) sampleTXInfo
            (sampleFrame 1 [x01; x02] [] false false) []))
  /\ exists pkt m,
       transmitted
         (snd (SendDataDown (sampleEnv None (inr []) (inr None))
                 (sampleSession RX1 5 0) sampleTXInfo
                 (sampleFrame 1 [x01; x02] [] false false) []))
       = pkt :: transmitted []
       /\ PHY_MACPayload (PHYPayload_ pkt) = IsMACPayload m
       /\ FCnt (MP_FHDR m) = 5
       /\ (false = false ->
           FCntDown (sampleSession RX1 6 0) = u32 (5 + 1)
           /\ (is_u32 (5 + 1) -> FCntDown (sampleSession RX1 6 0) = 5 + 1)
           /\ sampleSession RX1 6 0
              = set_FCntDown (sampleSession RX1 5 0)
                  (FCntDown (sampleSession RX1 6 0))
           /\ saveCalls
                (snd (SendDataDown (sampleEnv None (inr []) (inr None))
                        (sampleSession RX1 5 0) sampleTXInfo
                        (sampleFrame 1 [x01; x02] [] false false) []))
              = (sampleSession RX1 6 0, None) :: saveCalls [])
       /\ (false = true ->
           sampleSession RX1 6 0 = sampleSession RX1 5 0
           /\ FCntDown (sampleSession RX1 6 0)
              = FCntDown (sampleSession RX1 5 0)
           /\ saveCalls
                (snd (SendDataDown (sampleEnv None (inr []) (inr None))
                        (sampleSession RX1 5 0) sampleTXInfo
                        (sampleFrame 1 [x01; x02] [] false false) []))
              = saveCalls []).
Proof.
  split; [reflexivity|].
  apply (@SendDataDown_FCntDown (sampleEnv None (inr []) (inr None))
           (sampleSession RX1 5 0) sampleTXInfo
           (sampleFrame 1 [x01; x02] [] false false) []).
  reflexivity.
Defined.

(** A confirmed frame: FCntDown stays at 5 and nothing is saved. *)
Example SendDataDown_confirmed_keeps_FCntDown :
  let out := SendDataDown (sampleEnv None (inr []) (inr None))
               (sampleSession RX1 5 0) sampleTXInfo
               (sampleFrame 1 [x01; x02] [] false true) [] in
  fst out = (Ok tt, sampleSession RX1 5 0)
  /\ saveCalls (snd out) = []
  /\ List.length (transmitted (snd out)) = 1%nat.
Proof. repeat split. Qed.

(** The counter wraps as a uint32 does. *)
Example SendDataDown_FCntDown_wraps :
  FCntDown
    (snd (fst (SendDataDown (sampleEnv None (inr []) (inr None))
                 (sampleSession RX1 4294967295 0) sampleTXInfo
                 (sampleFrame 1 [x01; x02] [] false false) [])))
  = 0.
Proof. reflexivity. Qed.

(** ** Gateway failure *)

(** C3: when the call of [Gateway.SendTXPacket] that [SendDataDown] makes
    answers with an error, [SendDataDown] returns an error (with that cause),
    the session is the one given, with its FCntDown, and the session is not
    saved; no frame counts as transmitted. *)
Theorem SendDataDown_gateway_failure :
  forall env ns txInfo dd h r ns' h' pkt e,
    SendDataDown env ns txInfo dd h = (r, ns', h') ->
    sendCalls h' = (pkt, Some e) :: sendCalls h ->
    (exists err, r = Err err /\ Cause err = ErrExt e)
    /\ ns' = ns
    /\ FCntDown ns' = FCntDown ns
    /\ saveCalls h' = saveCalls h
    /\ transmitted h' = transmitted h.
Proof.
  intros env ns txInfo dd h r ns' h' pkt e Hrun Hsend.
  pose proof (SendDataDown_run env ns txInfo dd h) as R.
  rewrite Hrun in R.
  inversion R as [v HV Ho | v HV Henc Ho | v HV Ho | pkt0 v HV HB Ho
                 | pkt0 HV HB Hconf Ho | pkt0 v HV HB Hconf Ho
                 | pkt0 HV HB Hconf Ho]; subst;
    unfold sendCalls in Hsend; rewrite ?collect_cons in Hsend;
    cbn [asSendTXPacket] in Hsend;
    try (apply list_neq_cons in Hsend; contradiction);
    inversion Hsend; subst.
  split; [eexists; split; reflexivity|]. repeat split.
Qed.

Lemma SendDataDown_gateway_failure_witness :
  let env := sampleEnv (Some "gateway offline") (inr []) (inr None) in
  let ns := sampleSession RX1 5 0 in
  let dd := sampleFrame 1 [x01; x02] [] false false in
  exists r ns' h' pkt,
    SendDataDown env ns sampleTXInfo dd [] = (r, ns', h')
    /\ sendCalls h' = (pkt, Some "gateway offline") :: sendCalls []
    /\ (exists err, r = Err err /\ Cause err = ErrExt "gateway offline")
    /\ ns' = ns
    /\ FCntDown ns' = FCntDown ns
    /\ saveCalls h' = saveCalls []
    /\ transmitted h' = transmitted [].
Proof.
  cbv zeta.
  eexists _, _, _, _.
  split; [reflexivity|]. split; [reflexivity|].
  eapply (@SendDataDown_gateway_failure
            (sampleEnv (Some "gateway offline") (inr []) (inr None))
            (sampleSession RX1 5 0) sampleTXInfo
            (sampleFrame 1 [x01; x02] [] false false) []);
    reflexivity.
Defined.

(** ** The ADR bit *)

(** C9: in the frame [SendDataDown] builds, the ADR bit is
    [ns.ADRInterval != 0]: it is set exactly when the session's ADRInterval
    is non-zero, whatever the other inputs are.  [SendDataDown] hands that
    frame to the gateway, once, unless it fails before it gets there: on
    the validation of the frame context, on the encryption of the MAC
    commands or on the MIC, and then it returns that error.  A call that
    returns no error has handed over a frame with this bit, and the gateway
    accepted it. *)
Theorem SendDataDown_ADR_bit :
  forall env ns txInfo dd h,
    let out := SendDataDown env ns txInfo dd h in
    let h' := snd out in
    let frame pkt g :=
      sendCalls h' = (pkt, g) :: sendCalls h
      /\ exists m,
           PHY_MACPayload (PHYPayload_ pkt) = IsMACPayload m
           /\ ADR (FHDR_FCtrl (MP_FHDR m)) = negb (ADRInterval ns =? 0)
           /\ (ADR (FHDR_FCtrl (MP_FHDR m)) = true <-> ADRInterval ns <> 0) in
    ((sendCalls h' = sendCalls h
      /\ ((exists v,
             Validate dd = Some v
             /\ fst (fst out) = Err (Wrap v "validation error" []))
          \/ (exists x,
                EncryptMACCommands dd = true
                /\ fst (fst out)
                   = Err (Wrap (ErrExt x) "encrypt FRMPayload error" []))
          \/ (exists x,
                fst (fst out) = Err (Wrap (ErrExt x) "set MIC error" []))))
     \/ exists pkt g, frame pkt g)
    /\ (fst (fst out) = Ok tt -> exists pkt, frame pkt None).
Proof.
  intros env ns txInfo dd h. cbv zeta.
  pose proof (SendDataDown_run env ns txInfo dd h) as R.
  assert (HB : forall pkt, Built ns txInfo dd pkt ->
                 exists m,
                   PHY_MACPayload (PHYPayload_ pkt) = IsMACPayload m
                   /\ ADR (FHDR_FCtrl (MP_FHDR m))
                      = negb (ADRInterval ns =? 0)
                   /\ (ADR (FHDR_FCtrl (MP_FHDR m)) = true
                       <-> ADRInterval ns <> 0)).
  { intros pkt [_ [_ [m [Hm [_ [Hctrl _]]]]]]. exists m.
    split; [exact Hm|]. rewrite Hctrl. simpl. split; [reflexivity|].
    rewrite negb_true_iff. apply Z.eqb_neq. }
  inversion R as [v HV Ho | v HV Henc Ho | v HV Ho | pkt v HV Hb Ho
                 | pkt HV Hb Hconf Ho | pkt v HV Hb Hconf Ho
                 | pkt HV Hb Hconf Ho]; clear R; cbn [fst snd].
  - (* the frame context is invalid *)
    split; [|discriminate]. left. split; [reflexivity|].
    left. exists v. split; [exact HV|reflexivity].
  - (* the MAC commands cannot be encrypted *)
    split; [|discriminate]. left. split; [reflexivity|].
    right; left. exists v. split; [exact Henc|reflexivity].
  - (* the MIC cannot be set *)
    split; [|discriminate]. left. split; [reflexivity|].
    right; right. exists v. reflexivity.
  - (* the gateway refuses the frame *)
    split; [|discriminate]. right. exists pkt, (Some v).
    split; [reflexivity|exact (HB pkt Hb)].
  - (* confirmed frame, sent *)
    split; [right; exists pkt, None|intros _; exists pkt];
      (split; [reflexivity|exact (HB pkt Hb)]).
  - (* unconfirmed frame, sent, session not saved *)
    split; [|discriminate]. right. exists pkt, None.
    split; [reflexivity|exact (HB pkt Hb)].
  - (* unconfirmed frame, sent, session saved *)
    split; [right; exists pkt, None|intros _; exists pkt];
      (split; [reflexivity|exact (HB pkt Hb)]).
Qed.

(** A session with ADRInterval 10 sends data on port 1: the call returns no
    error, so one frame went to the gateway, and its ADR bit is set. *)
Lemma SendDataDown_ADR_bit_witness :
  let env := sampleEnv None (inr []) (inr None) in
  let ns := sampleSession RX1 5 10 in
  let dd := sampleFrame 1 [x01] [] false false in
  let out := SendDataDown env ns sampleTXInfo dd [] in
  fst (fst out) = Ok tt
  /\ exists pkt m,
       sendCalls (snd out) = [(pkt, None)]
       /\ PHY_MACPayload (PHYPayload_ pkt) = IsMACPayload m
       /\ ADR (FHDR_FCtrl (MP_FHDR m)) = true.
Proof.
  cbv zeta. split; [reflexivity|].
  destruct (proj2 (@SendDataDown_ADR_bit
                     (sampleEnv None (inr []) (inr None))
                     (sampleSession RX1 5 10) sampleTXInfo
                     (sampleFrame 1 [x01] [] false false) [])
              eq_refl)
    as [pkt [Hsent [m [Hm [_ Hset]]]]].
  exists pkt, m. split; [exact Hsent|]. split; [exact Hm|].
  apply Hset. simpl. discriminate.
Defined.

(** Two frames that differ in the session's ADRInterval only. *)
Example SendDataDown_ADR_examples :
  let frame adr :=
    hd_error (sendCalls
      (snd (SendDataDown (sampleEnv None (inr []) (inr None))
              (sampleSession RX1 5 adr) sampleTXInfo
              (sampleFrame 1 [x01] [] false false) []))) in
  let adrBit f :=
    match f with
    | Some ({| PHYPayload_ := {| PHY_MACPayload := IsMACPayload m |} |}, _) =>
        Some (ADR (FHDR_FCtrl (MP_FHDR m)))
    | _ => None
    end in
  adrBit (frame 0) = Some false /\ adrBit (frame 10) = Some true.
Proof. split; reflexivity. Qed.

(** ** The second receive window *)

Lemma index_in_range {A : Type} (l : list A) (i : Z) :
  0 <= i <= len l - 1 -> exists x, index l i = Some x.
Proof.
  intros Hi. unfold index.
  destruct (i <? 0) eqn:Hneg; [apply Z.ltb_lt in Hneg; lia|].
  destruct (nth_error l (Z.to_nat i)) as [x|] eqn:Hnth; [eauto|].
  apply nth_error_None in Hnth. unfold len in Hi. lia.
Qed.

Lemma seconds_in_microseconds d :
  Z.quot (d * Second) Microsecond = d * 1000000.
Proof.
  unfold Second, Microsecond.
  replace (d * 1000000000) with (d * 1000000 * 1000) by lia.
  apply Z.quot_mul. lia.
Qed.

Lemma u32_add3 a b c :
  u32 (u32 (a + u32 b) + u32 c) = (a + b + c) mod 4294967296.
Proof.
  unfold u32.
  rewrite (Zplus_mod_idemp_r c), Zplus_mod_idemp_l.
  replace (a + b mod 4294967296 + c) with (a + c + b mod 4294967296) by lia.
  rewrite Zplus_mod_idemp_r. f_equal. lia.
Qed.

(** C5: for a session on RX2, with [out] the three values that
    [getDataDownTXInfoAndDR] returns: if RX2DR is above the band's highest
    data rate the error is the "invalid rx2 dr" one; otherwise there is no
    error, the data rate is the band's entry RX2DR, the frequency is the
    band's RX2Frequency, and the timestamp is the uplink timestamp plus
    RXDelay seconds (ReceiveDelay1 when RXDelay is 0) plus one second, in
    microseconds and as a uint32. *)
Theorem getDataDownTXInfoAndDR_RX2 :
  forall env ns rxInfo,
    NS_RXWindow ns = RX2 ->
    is_u8 (RX2DR ns) ->
    let b := band env in
    let out := getDataDownTXInfoAndDR env ns rxInfo in
    let txInfo := fst (fst out) in
    let delay :=
      if 0 <? RXDelay ns then RXDelay ns * 1000000
      else Z.quot (ReceiveDelay1 b) Microsecond in
    (len (DataRates b) - 1 < RX2DR ns ->
     snd out
     = Err (ErrNew "invalid rx2 dr: %d (max dr: %d)"
              [RX2DR ns; len (DataRates b) - 1]))
    /\ (RX2DR ns <= len (DataRates b) - 1 ->
        snd out = Ok tt
        /\ snd (fst out) = RX2DR ns
        /\ index (DataRates b) (RX2DR ns) = Some (TX_DataRate txInfo)
        /\ TX_Frequency txInfo = RX2Frequency b
        /\ TX_Timestamp txInfo
           = (RX_Timestamp rxInfo + delay + 1000000) mod 4294967296
        /\ (is_u32 (RX_Timestamp rxInfo + delay + 1000000) ->
            TX_Timestamp txInfo = RX_Timestamp rxInfo + delay + 1000000)).
Proof.
  intros env ns rxInfo Hw Hdr b out txInfo delay.
  subst txInfo out. unfold getDataDownTXInfoAndDR. rewrite Hw. fold b.
  split.
  - intro Hhigh. apply Z.ltb_lt in Hhigh. rewrite Hhigh. reflexivity.
  - intro Hlow.
    assert (Hlt : (len (DataRates b) - 1 <? RX2DR ns) = false)
      by (apply Z.ltb_ge; exact Hlow).
    rewrite Hlt.
    destruct (@index_in_range _ (DataRates b) (RX2DR ns)) as [rate Hrate];
      [unfold is_u8 in Hdr; lia|].
    rewrite Hrate. cbn [fst snd TX_DataRate TX_Frequency TX_Timestamp].
    assert (Hts :
      u32 ((if 0 <? RXDelay ns
            then u32 (RX_Timestamp rxInfo
                      + u32 (Z.quot (RXDelay ns * Second) Microsecond))
            else u32 (RX_Timestamp rxInfo
                      + u32 (Z.quot (ReceiveDelay1 b) Microsecond)))
           + u32 (Z.quot Second Microsecond))
      = (RX_Timestamp rxInfo + delay + 1000000) mod 4294967296).
    { subst delay. change (Z.quot Second Microsecond) with 1000000.
      destruct (0 <? RXDelay ns).
      - rewrite u32_add3, seconds_in_microseconds. reflexivity.
      - rewrite u32_add3. reflexivity. }
    repeat split; try exact Hts.
    intros [Hlo Hhi]. rewrite Hts. apply Z.mod_small. lia.
Qed.

Lemma getDataDownTXInfoAndDR_RX2_witness :
  let env := sampleEnv None (inr []) (inr None) in
  let ns := sampleSession RX2 5 0 in
  NS_RXWindow ns = RX2
  /\ is_u8 (RX2DR ns)
  /\ (len (DataRates sampleBand) - 1 < RX2DR ns ->
      snd (getDataDownTXInfoAndDR env ns sampleRXInfo)
      = Err (ErrNew "invalid rx2 dr: %d (max dr: %d)"
               [RX2DR ns; len (DataRates sampleBand) - 1]))
  /\ (RX2DR ns <= len (DataRates sampleBand) - 1 ->
      snd (getDataDownTXInfoAndDR env ns sampleRXInfo) = Ok tt
      /\ snd (fst (getDataDownTXInfoAndDR env ns sampleRXInfo)) = RX2DR ns
      /\ index (DataRates sampleBand) (RX2DR ns)
         = Some (TX_DataRate
                   (fst (fst (getDataDownTXInfoAndDR env ns sampleRXInfo))))
      /\ TX_Frequency (fst (fst (getDataDownTXInfoAndDR env ns sampleRXInfo)))
         = 869525000
      /\ TX_Timestamp (fst (fst (getDataDownTXInfoAndDR env ns sampleRXInfo)))
         = (708016819 + 1000000 + 1000000) mod 4294967296
      /\ (is_u32 (708016819 + 1000000 + 1000000) ->
          TX_Timestamp
            (fst (fst (getDataDownTXInfoAndDR env ns sampleRXInfo)))
          = 708016819 + 1000000 + 1000000)).
Proof.
  cbv zeta.
  split; [reflexivity|]. split; [unfold is_u8; simpl; lia|].
  apply (@getDataDownTXInfoAndDR_RX2 (sampleEnv None (inr []) (inr None))
           (sampleSession RX2 5 0) sampleRXInfo);
    [reflexivity | unfold is_u8; simpl; lia].
Defined.

(** RX2 with RXDelay 0 on the sample band: two seconds after the uplink,
    on 869.525 MHz at DR0; and with RX2DR 6 where DR5 is the highest. *)
Example getDataDownTXInfoAndDR_RX2_examples :
  let env := sampleEnv None (inr []) (inr None) in
  (let out := getDataDownTXInfoAndDR env (sampleSession RX2 5 0) sampleRXInfo in
   TX_Timestamp (fst (fst out)) = 710016819
   /\ TX_Frequency (fst (fst out)) = 869525000
   /\ TX_DataRate (fst (fst out)) = sampleRate 12 125
   /\ snd out = Ok tt)
  /\ snd (getDataDownTXInfoAndDR env
            {| NS_DevAddr := []; NS_AppEUI := []; NS_DevEUI := [];
               NwkSKey := []; FCntUp := 0; FCntDown := 0;
               RelaxFCnt := false; NS_RXWindow := RX2; RXDelay := 3;
               RX1DROffset := 0; RX2DR := 6; NS_CFList := None;
               ADRInterval := 0; InstallationMargin := 0;
               LastRXInfoSet := [] |} sampleRXInfo)
     = Err (ErrNew "invalid rx2 dr: %d (max dr: %d)" [6; 5]).
Proof. repeat split. Qed.

(** ** Joining *)

Lemma copy_into_zeroed_exact n (src : bytes) :
  List.length src = n -> copy_into_zeroed n src = src.
Proof.
  intros <-. unfold copy_into_zeroed.
  rewrite firstn_all, Nat.sub_diag. apply app_nil_r.
Qed.

(** C8: when [handleCollectedJoinRequestPackets] succeeds, the log gained,
    in this order, the DevAddr draw, the application server's JoinRequest,
    the save of a session [ns], the flush of the MAC queue of the joining
    DevEUI, and the join-accept response for [ns].  [ns] has FCntUp = 0 and
    FCntDown = 0, the drawn DevAddr, the EUIs of the request, the NwkSKey
    and the parameters RXWindow, RXDelay, RX1DROffset, RX2DR, RelaxFCnt,
    CFList, ADRInterval and InstallationMargin of the application server's
    answer (converted to the session's field types), and the uplink's
    RXInfoSet as LastRXInfoSet. *)
Theorem handleCollectedJoinRequestPackets_session :
  forall env rxPacket h h',
    handleCollectedJoinRequestPackets env rxPacket h = (Ok tt, h') ->
    exists jrPL devAddr req joinResp downlinkPHY ns,
      PHY_MACPayload (RX_PHYPayload rxPacket) = IsJoinRequestPayload jrPL
      /\ h' = EvSendJoinAcceptResponse ns rxPacket downlinkPHY None
              :: EvFlushQueue (JR_DevEUI jrPL) None
              :: EvSaveNodeSession ns None
              :: EvJoinRequest req (inr joinResp)
              :: EvGetRandomDevAddr (ctx_NetID env) (inr devAddr)
              :: h
      /\ JRR_DevAddr req = devAddr
      /\ FCntUp ns = 0
      /\ FCntDown ns = 0
      /\ NS_DevAddr ns = devAddr
      /\ NS_AppEUI ns = JR_AppEUI jrPL
      /\ NS_DevEUI ns = JR_DevEUI jrPL
      /\ NwkSKey ns = copy_into_zeroed 16 (JResp_NwkSKey joinResp)
      /\ (List.length (JResp_NwkSKey joinResp) = 16%nat ->
          NwkSKey ns = JResp_NwkSKey joinResp)
      /\ NS_RXWindow ns = session_toRXWindow env (JResp_RxWindow joinResp)
      /\ RXDelay ns = u8 (JResp_RxDelay joinResp)
      /\ RX1DROffset ns = u8 (JResp_Rx1DROffset joinResp)
      /\ RX2DR ns = u8 (JResp_Rx2DR joinResp)
      /\ RelaxFCnt ns = JResp_RelaxFCnt joinResp
      /\ len (JResp_CFList joinResp) <= 5
      /\ NS_CFList ns
         = Some (JResp_CFList joinResp
                 ++ repeat 0 (5 - List.length (JResp_CFList joinResp)))
      /\ ADRInterval ns = JResp_AdrInterval joinResp
      /\ InstallationMargin ns = JResp_InstallationMargin joinResp
      /\ LastRXInfoSet ns = RXInfoSet rxPacket.
Proof.
  intros env rxPacket h h'.
  unfold handleCollectedJoinRequestPackets, bind, call, fail, ret.
  destruct (PHY_MACPayload (RX_PHYPayload rxPacket)) as [m|jrPL|raw];
    try discriminate.
  destruct (phy_MarshalBinary env (RX_PHYPayload rxPacket)) as [e|b];
    try discriminate.
  destruct (session_GetRandomDevAddr env h (ctx_NetID env)) as [e|devAddr];
    try discriminate.
  destruct (as_JoinRequest _ _ _) as [e|joinResp]; try discriminate.
  destruct (5 <? len (JResp_CFList joinResp)) eqn:Hcf; try discriminate.
  destruct (phy_UnmarshalBinary env (JResp_PhyPayload joinResp))
    as [e|downlinkPHY]; try discriminate.
  destruct (session_SaveNodeSession _ _ _) as [e|]; try discriminate.
  destruct (maccommand_FlushQueue _ _ _) as [e|]; try discriminate.
  destruct (downlink_SendJoinAcceptResponse _ _ _ _ _) as [e|];
    try discriminate.
  intro H. inversion H; subst h'; clear H.
  apply Z.ltb_ge in Hcf.
  eexists jrPL, devAddr, _, joinResp, downlinkPHY, _.
  split; [reflexivity|]. split; [reflexivity|].
  repeat split; try exact Hcf.
  intro Hlen. simpl. apply copy_into_zeroed_exact. exact Hlen.
Qed.

Lemma handleCollectedJoinRequestPackets_session_witness :
  let env := sampleEnv None (inr []) (inr None) in
  exists h',
    handleCollectedJoinRequestPackets env sampleJoinRequest [] = (Ok tt, h')
    /\ exists jrPL devAddr req joinResp downlinkPHY ns,
         PHY_MACPayload (RX_PHYPayload sampleJoinRequest)
         = IsJoinRequestPayload jrPL
         /\ h' = EvSendJoinAcceptResponse ns sampleJoinRequest downlinkPHY None
                 :: EvFlushQueue (JR_DevEUI jrPL) None
                 :: EvSaveNodeSession ns None
                 :: EvJoinRequest req (inr joinResp)
                 :: EvGetRandomDevAddr (ctx_NetID env) (inr devAddr)
                 :: []
         /\ JRR_DevAddr req = devAddr
         /\ FCntUp ns = 0
         /\ FCntDown ns = 0
         /\ NS_DevAddr ns = devAddr
         /\ NS_AppEUI ns = JR_AppEUI jrPL
         /\ NS_DevEUI ns = JR_DevEUI jrPL
         /\ NwkSKey ns = copy_into_zeroed 16 (JResp_NwkSKey joinResp)
         /\ (List.length (JResp_NwkSKey joinResp) = 16%nat ->
             NwkSKey ns = JResp_NwkSKey joinResp)
         /\ NS_RXWindow ns = session_toRXWindow env (JResp_RxWindow joinResp)
         /\ RXDelay ns = u8 (JResp_RxDelay joinResp)
         /\ RX1DROffset ns = u8 (JResp_Rx1DROffset joinResp)
         /\ RX2DR ns = u8 (JResp_Rx2DR joinResp)
         /\ RelaxFCnt ns = JResp_RelaxFCnt joinResp
         /\ len (JResp_CFList joinResp) <= 5
         /\ NS_CFList ns
            = Some (JResp_CFList joinResp
                    ++ repeat 0 (5 - List.length (JResp_CFList joinResp)))
         /\ ADRInterval ns = JResp_AdrInterval joinResp
         /\ InstallationMargin ns = JResp_InstallationMargin joinResp
         /\ LastRXInfoSet ns = RXInfoSet sampleJoinRequest.
Proof.
  cbv zeta. eexists. split; [vm_compute; reflexivity|].
  apply (@handleCollectedJoinRequestPackets_session
           (sampleEnv None (inr []) (inr None)) sampleJoinRequest []).
  vm_compute; reflexivity.
Defined.

(** The session saved for the sample join: counters at 0, the key of the
    answer, and the two channels of the answer padded to five. *)
Example join_saves_fresh_session :
  match saveCalls (snd (handleCollectedJoinRequestPackets
                          (sampleEnv None (inr []) (inr None))
                          sampleJoinRequest [])) with
  | [(ns, None)] =>
      FCntUp ns = 0 /\ FCntDown ns = 0
      /\ NwkSKey ns = [x00; x11; x22; x33; x44; x55; x66; x77;
                       x88; x99; xaa; xbb; xcc; xdd; xee; xff]
      /\ NS_CFList ns = Some [867100000; 867300000; 0; 0; 0]
      /\ NS_RXWindow ns = RX1 /\ RXDelay ns = 1
  | _ => False
  end.
Proof. simpl. repeat split. Qed.

(** ** Reading and filtering the MAC queue *)

Lemma filterBudget_plain rem :
  filterBudget false rem = Z.min 15 rem /\ filterBudget false rem <= 15.
Proof.
  unfold filterBudget. destruct (15 <? rem) eqn:H.
  - apply Z.ltb_lt in H. lia.
  - apply Z.ltb_ge in H. lia.
Qed.

Lemma getAndFilterMACQueueItems_eq env ns allow rem h :
  let h0 := EvEnterGetAndFilterMACQueueItems allow rem :: h in
  let h1 :=
    EvReadQueue (NS_DevEUI ns) (maccommand_ReadQueue env h0 (NS_DevEUI ns))
    :: h0 in
  getAndFilterMACQueueItems env ns allow rem h
  = match maccommand_ReadQueue env h0 (NS_DevEUI ns) with
    | inl e =>
        (Err (ErrFrom "read mac-payload tx queue error: %s" (ErrExt e)), h1)
    | inr [] => (Ok ([], false, false), h1)
    | inr (first :: rest) =>
        let queue := first :: rest in
        let frm := allow && QI_FRMPayload first in
        let items :=
          maccommand_FilterItems env queue frm (filterBudget frm rem) in
        (Ok (items, frm, negb (len items =? len queue)),
         EvFilterItems queue frm (filterBudget frm rem) :: h1)
    end.
Proof.
  unfold getAndFilterMACQueueItems, bind, note, call, ret, fail. cbv zeta.
  destruct (maccommand_ReadQueue env _ (NS_DevEUI ns)) as [e|[|first rest]];
    try reflexivity.
  unfold filterBudget.
  destruct (allow && QI_FRMPayload first); reflexivity.
Qed.

(** What the call adds to the log, and what it returns. *)
Lemma getAndFilterMACQueueItems_log env ns allow rem h :
  let out := getAndFilterMACQueueItems env ns allow rem h in
  getAndFilterCalls (snd out) = (allow, rem) :: getAndFilterCalls h
  /\ sendCalls (snd out) = sendCalls h
  /\ sendDataDownCalls (snd out) = sendDataDownCalls h
  /\ (filterCalls (snd out) = filterCalls h
      \/ exists queue frm,
           filterCalls (snd out)
           = (queue, frm, filterBudget frm rem) :: filterCalls h
           /\ (allow = false -> frm = false))
  /\ (forall items enc pending,
        fst out = Ok (items, enc, pending) ->
        (allow = false -> enc = false)
        /\ exists queue,
             maccommand_ReadQueue env
               (EvEnterGetAndFilterMACQueueItems allow rem :: h) (NS_DevEUI ns)
             = inr queue
             /\ pending = negb (len items =? len queue)
             /\ (queue = [] -> items = [])
             /\ (queue <> [] ->
                 items = maccommand_FilterItems env queue enc
                           (filterBudget enc rem))).
Proof.
  cbv zeta. rewrite getAndFilterMACQueueItems_eq. cbv zeta.
  destruct (maccommand_ReadQueue env _ (NS_DevEUI ns))
    as [e|[|first rest]] eqn:Hq; cbn [fst snd].
  - do 3 (split; [reflexivity|]). split; [left; reflexivity|].
    intros items enc pending H. discriminate.
  - do 3 (split; [reflexivity|]). split; [left; reflexivity|].
    intros items enc pending H. inversion H; subst.
    split; [reflexivity|]. exists []. repeat split; congruence.
  - split; [reflexivity|]. split; [reflexivity|]. split; [reflexivity|].
    split.
    + right. eexists _, _. split; [reflexivity|].
      intros ->. reflexivity.
    + intros items enc pending H. inversion H; subst. split.
      * intros ->. reflexivity.
      * eexists. split; [reflexivity|]. repeat split; congruence.
Qed.

(** ** Sending, then deleting what was sent *)

(** The part [SendUplinkResponse] and [HandlePushDataDown] end with. *)
Lemma send_then_delete_log env onSend onDelete ns txInfo dd items h :
  let out :=
    (ns' <- orReturn onSend (callSendDataDown env ns txInfo dd) ;;
     deleteQueueItems env onDelete (NS_DevEUI ns') items) h in
  sendDataDownCalls (snd out) = (ns, txInfo, dd) :: sendDataDownCalls h
  /\ getAndFilterCalls (snd out) = getAndFilterCalls h
  /\ filterCalls (snd out) = filterCalls h
  /\ ((sendCalls (snd out) = sendCalls h /\ exists e, fst out = Err e)
      \/ exists pkt gw,
           sendCalls (snd out) = (pkt, gw) :: sendCalls h
           /\ Built ns txInfo dd pkt
           /\ (fst out = Ok tt -> gw = None)
           /\ (forall e, gw = Some e -> exists err, fst out = Err err)).
Proof.
  cbv zeta. unfold bind, orReturn, callSendDataDown.
  pose proof (SendDataDown_run env ns txInfo dd h) as R.
  inversion R as [v HV Ho | v HV Henc Ho | v HV Ho | pkt v HV HB Ho
                 | pkt HV HB Hconf Ho | pkt v HV HB Hconf Ho
                 | pkt HV HB Hconf Ho]; clear R; cbn [fst snd].
  1-3: do 3 (split; [reflexivity|]); left;
       split; [reflexivity|eexists; reflexivity].
  - do 3 (split; [reflexivity|]). right. exists pkt, (Some v).
    split; [reflexivity|]. split; [assumption|]. split; [discriminate|].
    intros e _. eexists; reflexivity.
  - unfold sendDataDownCalls, getAndFilterCalls, filterCalls, sendCalls.
    rewrite !deleteQueueItems_collect by auto with loops.
    do 3 (split; [reflexivity|]). right. exists pkt, None.
    split; [reflexivity|]. split; [assumption|]. split; [reflexivity|].
    discriminate.
  - do 3 (split; [reflexivity|]). right. exists pkt, None.
    split; [reflexivity|]. split; [assumption|]. split; [reflexivity|].
    discriminate.
  - unfold sendDataDownCalls, getAndFilterCalls, filterCalls, sendCalls.
    rewrite !deleteQueueItems_collect by auto with loops.
    do 3 (split; [reflexivity|]). right. exists pkt, None.
    split; [reflexivity|]. split; [assumption|]. split; [reflexivity|].
    discriminate.
Qed.

(** Whether the frame got as far as the gateway: either [SendDataDown]
    failed before, and its error comes back, or one frame was handed over,
    and a return without error means the gateway took it. *)
Lemma send_then_delete_frame env onSend onDelete ns txInfo dd items h :
  let out :=
    (ns' <- orReturn onSend (callSendDataDown env ns txInfo dd) ;;
     deleteQueueItems env onDelete (NS_DevEUI ns') items) h in
  (sendCalls (snd out) = sendCalls h
   /\ exists e, fst out = Err (onSend e))
  \/ exists pkt gw,
       sendCalls (snd out) = (pkt, gw) :: sendCalls h
       /\ Built ns txInfo dd pkt
       /\ (fst out = Ok tt -> gw = None).
Proof.
  cbv zeta. unfold bind, orReturn, callSendDataDown.
  pose proof (SendDataDown_run env ns txInfo dd h) as R.
  inversion R as [v HV Ho | v HV Henc Ho | v HV Ho | pkt v HV HB Ho
                 | pkt HV HB Hconf Ho | pkt v HV HB Hconf Ho
                 | pkt HV HB Hconf Ho]; clear R; cbn [fst snd].
  1-3: left; split; [reflexivity|eexists; reflexivity].
  - right. exists pkt, (Some v).
    split; [reflexivity|]. split; [assumption|discriminate].
  - unfold sendCalls. rewrite !deleteQueueItems_collect by auto with loops.
    right. exists pkt, None.
    split; [reflexivity|]. split; [assumption|reflexivity].
  - right. exists pkt, None.
    split; [reflexivity|]. split; [assumption|reflexivity].
  - unfold sendCalls. rewrite !deleteQueueItems_collect by auto with loops.
    right. exists pkt, None.
    split; [reflexivity|]. split; [assumption|reflexivity].
Qed.

(** ** Unsolicited downlinks *)

Lemma Built_plaintext ns txInfo dd pkt :
  EncryptMACCommands dd = false ->
  Built ns txInfo dd pkt -> plaintextFrame dd pkt.
Proof.
  intros Henc [_ [_ [m [Hm [_ [_ [_ [Hopts Hbody]]]]]]]].
  rewrite Henc in Hopts. destruct (Hbody Henc) as [Hp Hf].
  exists m. auto.
Qed.

Lemma addedCalls_none h : addedCalls h h [] [] [] [].
Proof. repeat split. Qed.

Lemma unencrypted_none gf :
  Forall (fun g => fst g = false) gf -> unencrypted gf [] [] [].
Proof. intro H. repeat split; try constructor. exact H. Qed.

Lemma bind_callMacQueueItemsToMACCommands {B : Type} env ns items
    (k : list MACCommand -> M B) h :
  (macCommands <- callMacQueueItemsToMACCommands env ns items ;;
   k macCommands) h
  = k (fst (macQueueItemsToMACCommands env ns items h))
      (snd (macQueueItemsToMACCommands env ns items h)).
Proof.
  unfold bind, callMacQueueItemsToMACCommands.
  destruct (macQueueItemsToMACCommands env ns items h); reflexivity.
Qed.

(** The steps after the filter: converting the items, sending, deleting. *)
Lemma commands_send_delete_log env onSend onDelete ns
    (k : list MACCommand -> TXInfo * DataDownFrameContext) items h :
  let out :=
    (macCommands <- callMacQueueItemsToMACCommands env ns items ;;
     ns' <- orReturn onSend
              (callSendDataDown env ns (fst (k macCommands))
                 (snd (k macCommands))) ;;
     deleteQueueItems env onDelete (NS_DevEUI ns') items) h in
  exists cmds pkts,
    getAndFilterCalls (snd out) = getAndFilterCalls h
    /\ filterCalls (snd out) = filterCalls h
    /\ sendDataDownCalls (snd out)
       = (ns, fst (k cmds), snd (k cmds)) :: sendDataDownCalls h
    /\ sendCalls (snd out) = pkts ++ sendCalls h
    /\ Forall (fun p => Built ns (fst (k cmds)) (snd (k cmds)) (fst p)) pkts
    /\ cmds = fst (macQueueItemsToMACCommands env ns items h).
Proof.
  cbv zeta. rewrite bind_callMacQueueItemsToMACCommands.
  pose proof (fun A (sel : Event -> option A) H =>
                @macQueueItemsToMACCommands_collect A sel env ns items H h)
    as Hloop.
  set (cmds := fst (macQueueItemsToMACCommands env ns items h)).
  set (h2 := snd (macQueueItemsToMACCommands env ns items h)) in *.
  destruct (@send_then_delete_log env onSend onDelete ns (fst (k cmds))
              (snd (k cmds)) items h2)
    as [Hsd [Hgf [Hfc Hsc]]].
  unfold sendDataDownCalls, getAndFilterCalls, filterCalls, sendCalls in *.
  rewrite Hloop in Hsd, Hgf, Hfc by auto with loops.
  destruct Hsc as [[Hsc _] | [pkt [gw [Hsc [HB _]]]]];
    rewrite Hloop in Hsc by auto with loops.
  - exists cmds, []. repeat split; try assumption. constructor.
  - exists cmds, [(pkt, gw)]. repeat split; try assumption.
    constructor; [exact HB|constructor].
Qed.

(** C10: whatever [HandlePushDataDown] is given and whatever its
    collaborators answer, every call it makes of the MAC-queue filter has
    allowEncrypted = false, [FilterItems] is asked for FOpts items within
    min(15, remaining) bytes, the frame context given to [SendDataDown] has
    EncryptMACCommands = false (and the pushed port and data), and a frame
    handed to the gateway has the MAC commands in FOpts and only the
    application data in its FRMPayload. *)
Theorem HandlePushDataDown_never_encrypts :
  forall env ns confirmed fPort data h,
    let h' := snd (HandlePushDataDown env ns confirmed fPort data h) in
    exists gf fc sd sc,
      addedCalls h h' gf fc sd sc
      /\ unencrypted gf fc sd sc
      /\ Forall (fun s => DD_FPort (snd s) = fPort /\ DD_Data (snd s) = data)
           sd.
Proof.
  intros env ns confirmed fPort data h. cbv zeta.
  unfold HandlePushDataDown.
  destruct (LastRXInfoSet ns) as [|lastRX others];
    [exists [], [], [], []; split; [apply addedCalls_none|];
     split; [apply unencrypted_none|]; constructor|].
  destruct (len (DataRates (band env)) - 1 <? RX2DR ns);
    [exists [], [], [], []; split; [apply addedCalls_none|];
     split; [apply unencrypted_none|]; constructor|].
  destruct (index (MaxPayloadSizes (band env)) (RX2DR ns)) as [mps|];
    [|exists [], [], [], []; split; [apply addedCalls_none|];
      split; [apply unencrypted_none|]; constructor].
  destruct (MPS_N mps <? len data);
    [exists [], [], [], []; split; [apply addedCalls_none|];
     split; [apply unencrypted_none|]; constructor|].
  set (rem := MPS_N mps - len data).
  unfold bind at 1. unfold orReturn at 1.
  destruct (getAndFilterMACQueueItems_log env ns false rem h)
    as [Hgf [Hsc [Hsd [Hfc Hres]]]].
  assert (Hfc' : exists fc,
             filterCalls (snd (getAndFilterMACQueueItems env ns false rem h))
             = fc ++ filterCalls h
             /\ Forall (fun f =>
                          snd (fst f) = false /\ snd f <= 15
                          /\ exists g, In g [(false, rem)]
                                       /\ snd f = Z.min 15 (snd g)) fc).
  { destruct Hfc as [Hfc | [queue [frm [Hfc Hfrm]]]].
    - exists []. split; [exact Hfc|constructor].
    - rewrite (Hfrm eq_refl) in Hfc.
      exists [(queue, false, filterBudget false rem)].
      split; [exact Hfc|]. constructor; [|constructor].
      destruct (filterBudget_plain rem) as [Hmin Hle]. cbn [fst snd].
      split; [reflexivity|]. split; [exact Hle|].
      exists (false, rem). split; [left; reflexivity|exact Hmin]. }
  destruct Hfc' as [fc [Hfc' Hfcok]]. clear Hfc.
  destruct (getAndFilterMACQueueItems env ns false rem h)
    as [[[[items enc] pending]|e|why] h1]; cbn [fst snd] in *.
  2,3: exists [(false, rem)], fc, [], [];
    (split; [repeat split; assumption|]);
    (split; [|constructor]);
    (split; [constructor; [reflexivity|constructor]|]);
    (split; [exact Hfcok|]); split; constructor.
  destruct (index (DataRates (band env)) (RX2DR ns)) as [rate|].
  - match goal with
    | |- context [callSendDataDown env ns ?t _] =>
        destruct (@commands_send_delete_log env
                    (fun e => Wrap e "send data down error" [])
                    (fun e => Wrap e "delete mac-command queue item error" [])
                    ns
                    (fun cmds =>
                       (t,
                        {| DD_ACK := false; DD_FPort := fPort;
                           MACCommands := cmds; EncryptMACCommands := false;
                           Confirmed := confirmed; MoreData := false;
                           DD_Data := data |}))
                    items h1)
          as [cmds [pkts [Hgf2 [Hfc2 [Hsd2 [Hsc2 [HB _]]]]]]]
    end.
    cbn [fst snd] in *.
    eexists [(false, rem)], fc, [_], pkts.
    split; [|split].
    + unfold addedCalls.
      rewrite Hgf2, Hfc2, Hsd2, Hsc2, Hgf, Hfc', Hsd, Hsc.
      repeat split.
    + split; [constructor; [reflexivity|constructor]|].
      split; [exact Hfcok|].
      split; [constructor; [reflexivity|constructor]|].
      eapply Forall_impl; [|exact HB].
      intros p Hp. eexists. split; [left; reflexivity|].
      eapply Built_plaintext; [|exact Hp]. reflexivity.
    + constructor; [split; reflexivity|constructor].
  - rewrite bind_callMacQueueItemsToMACCommands. unfold panic. cbn [snd].
    exists [(false, rem)], fc, [], [].
    unfold addedCalls, sendDataDownCalls, getAndFilterCalls, filterCalls,
      sendCalls in *.
    rewrite !macQueueItemsToMACCommands_collect by auto with loops.
    split; [repeat split; assumption|].
    split; [|constructor].
    split; [constructor; [reflexivity|constructor]|].
    split; [exact Hfcok|]. split; constructor.
Qed.

(** A push while the head of the MAC queue asks for the FRMPayload: the
    item is still selected for FOpts, with a budget of 15 bytes, and the
    frame carries the command in FOpts and the pushed data on port 10. *)
Example HandlePushDataDown_FRMPayload_head :
  let queue := [ {| QI_Data := [x06]; QI_FRMPayload := true;
                    QI_External := false |} ] in
  let h' := snd (HandlePushDataDown (sampleEnv None (inr queue) (inr None))
                   (sampleSession RX1 5 0) false 10 [x01; x02; x03] []) in
  getAndFilterCalls h' = [(false, 48)]
  /\ filterCalls h' = [(queue, false, 15)]
  /\ match sendCalls h' with
     | [({| PHYPayload_ := {| PHY_MACPayload := IsMACPayload m |} |}, None)] =>
         FOpts (MP_FHDR m) = [ {| CID := x06; CmdPayload := [] |} ]
         /\ MP_FPort m = Some 10
         /\ FRMPayload m = [DataPayload [x01; x02; x03]]
     | _ => False
     end.
Proof. cbv zeta. split; [reflexivity|]. split; [reflexivity|]. simpl. auto. Qed.

(** ** Answering an uplink *)

Lemma MType_eqb_eq a b : MType_eqb a b = true <-> a = b.
Proof. destruct a, b; simpl; split; intro H; congruence. Qed.

Lemma len_eqb_0 {A : Type} (l : list A) : (len l =? 0) = true <-> l = [].
Proof.
  destruct l; unfold len; split; intro H; try reflexivity; discriminate.
Qed.

Section UplinkResponse.

Variable env : Env.
Variable ns : NodeSession.
Variable rxPacket : RXPacket.
Variable h : History.

(** The steps before the application server is asked. *)
Variables (macPL : MACPayload) (rxInfo : RXInfo) (others : list RXInfo).
Variables (txInfo : TXInfo) (dr : Z).
Hypothesis uplink_is_data :
  PHY_MACPayload (RX_PHYPayload rxPacket) = IsMACPayload macPL.
Hypothesis uplink_heard : RXInfoSet rxPacket = rxInfo :: others.
Hypothesis tx_parameters :
  getDataDownTXInfoAndDR env ns rxInfo = (txInfo, dr, Ok tt).

(** What the application server gave. *)
Variables (mps : MaxPayloadSize) (txPayload : option GetDataDownResponse).
Variable h1 : History.
Hypothesis max_payload : index (MaxPayloadSizes (band env)) dr = Some mps.
Hypothesis from_application :
  getDataDownFromApplication env ns dr h = (Ok txPayload, h1).

Lemma SendUplinkResponse_after_application :
  SendUplinkResponse env ns rxPacket h
  = ('(macQueueItems, encryptMACCommands, pendingMACCommands) <-
       orReturn (fun e => ErrFrom "get mac-commands error: %s" e)
         (getAndFilterMACQueueItems env ns (responseAllowEncrypted txPayload)
            (responseRemaining mps txPayload)) ;;
     macCommands <- callMacQueueItemsToMACCommands env ns macQueueItems ;;
     let ddCTX :=
       responseFrameContext rxPacket txPayload macCommands
         encryptMACCommands pendingMACCommands in
     if match txPayload with None => true | Some _ => false end
        && negb (DD_ACK ddCTX)
        && (len (MACCommands ddCTX) =? 0)
        && negb (ADRACKReq (FHDR_FCtrl (MP_FHDR macPL)))
     then ret tt
     else
       ns' <- orReturn (fun e => ErrFrom "send data down error: %s" e)
                (callSendDataDown env ns txInfo ddCTX) ;;
       deleteQueueItems env
         (fun e =>
            ErrFrom "delete mac-command queue item from queue error: %s" e)
         (NS_DevEUI ns') macQueueItems) h1.
Proof.
  unfold SendUplinkResponse.
  rewrite uplink_is_data, uplink_heard, tx_parameters, max_payload.
  unfold bind at 1. rewrite from_application.
  destruct txPayload; reflexivity.
Qed.

(** The filter and the conversion went through. *)
Variables (items : list QueueItem) (enc pending : bool) (h2 : History).
Variables (cmds : list MACCommand) (h3 : History).
Hypothesis filtered :
  getAndFilterMACQueueItems env ns (responseAllowEncrypted txPayload)
    (responseRemaining mps txPayload) h1
  = (Ok (items, enc, pending), h2).
Hypothesis converted :
  macQueueItemsToMACCommands env ns items h2 = (cmds, h3).

Lemma SendUplinkResponse_decision :
  SendUplinkResponse env ns rxPacket h
  = if responseAllowEncrypted txPayload
       && negb (uplinkConfirmed rxPacket)
       && (len cmds =? 0)
       && negb (ADRACKReq (FHDR_FCtrl (MP_FHDR macPL)))
    then (Ok tt, h3)
    else
      (ns' <- orReturn (fun e => ErrFrom "send data down error: %s" e)
                (callSendDataDown env ns txInfo
                   (responseFrameContext rxPacket txPayload cmds enc pending)) ;;
       deleteQueueItems env
         (fun e =>
            ErrFrom "delete mac-command queue item from queue error: %s" e)
         (NS_DevEUI ns') items) h3.
Proof.
  rewrite SendUplinkResponse_after_application.
  unfold bind at 1. unfold orReturn at 1. rewrite filtered.
  rewrite bind_callMacQueueItemsToMACCommands, converted. cbn [fst snd].
  cbv zeta. cbn [DD_ACK MACCommands responseFrameContext].
  destruct txPayload; cbn [responseAllowEncrypted andb]; [reflexivity|].
  destruct (negb (uplinkConfirmed rxPacket) && (len cmds =? 0)
            && negb (ADRACKReq (FHDR_FCtrl (MP_FHDR macPL))));
    reflexivity.
Qed.

Lemma decision_mustRespond :
  responseAllowEncrypted txPayload
  && negb (uplinkConfirmed rxPacket)
  && (len cmds =? 0)
  && negb (ADRACKReq (FHDR_FCtrl (MP_FHDR macPL))) = false
  <-> mustRespond rxPacket macPL txPayload cmds.
Proof.
  unfold mustRespond, uplinkConfirmed.
  pose proof (MType_eqb_eq (MType_ (PHY_MHDR (RX_PHYPayload rxPacket)))
                ConfirmedDataUp) as Hm.
  pose proof (len_eqb_0 cmds) as Hl.
  destruct txPayload as [p|]; cbn [responseAllowEncrypted andb].
  - split; [intros _; left; discriminate|reflexivity].
  - destruct (MType_eqb _ ConfirmedDataUp); cbn [negb andb].
    + split; [intros _; right; right; left; apply Hm; reflexivity
             |reflexivity].
    + destruct (len cmds =? 0); cbn [andb].
      * destruct (ADRACKReq (FHDR_FCtrl (MP_FHDR macPL))); cbn [negb].
        -- split; [intros _; do 3 right; reflexivity|reflexivity].
        -- split; [discriminate|].
           intros [H|[H|[H|H]]]; try congruence.
           ++ exfalso; apply H; apply Hl; reflexivity.
           ++ apply Hm in H; discriminate.
      * split; [|reflexivity]. intros _. right; left. intro Hc.
        apply Hl in Hc. discriminate.
Qed.

Lemma log_before_decision :
  sendCalls h3 = sendCalls h /\ sendDataDownCalls h3 = sendDataDownCalls h.
Proof.
  pose proof (fun A (sel : Event -> option A) H =>
                @getDataDownFromApplication_collect A sel env ns dr h H)
    as H1.
  rewrite from_application in H1. cbn [snd] in H1.
  destruct (getAndFilterMACQueueItems_log env ns
              (responseAllowEncrypted txPayload)
              (responseRemaining mps txPayload) h1)
    as [_ [Hsc [Hsd _]]].
  rewrite filtered in Hsc, Hsd. cbn [snd] in Hsc, Hsd.
  pose proof (fun A (sel : Event -> option A) H =>
                @macQueueItemsToMACCommands_collect A sel env ns items H h2)
    as H3.
  rewrite converted in H3. cbn [snd] in H3.
  unfold sendCalls, sendDataDownCalls in *.
  rewrite !H3, Hsc, Hsd, !H1 by auto with loops. split; reflexivity.
Qed.

(** C1, amended: when the steps before the decision go through (the uplink
    carries a MACPayload, the TX parameters are found, the application
    server was asked, the MAC queue was read and filtered),
    [SendUplinkResponse] calls [SendDataDown] if and only if at least one of
    these holds: the application server gave a payload that fits, there are
    MAC commands to send after filtering, the uplink was ConfirmedDataUp,
    the uplink had ADRACKReq set.  When none holds it returns successfully,
    without calling [SendDataDown] and without transmitting.  A frame is
    transmitted only if one of them holds, and when the function returns
    without error a frame was transmitted if and only if one of them
    holds. *)
Theorem SendUplinkResponse_responds_iff :
  let out := SendUplinkResponse env ns rxPacket h in
  let respond := mustRespond rxPacket macPL txPayload cmds in
  (respond <-> sendDataDownCalls (snd out) <> sendDataDownCalls h)
  /\ (respond ->
      sendDataDownCalls (snd out)
      = (ns, txInfo, responseFrameContext rxPacket txPayload cmds enc pending)
        :: sendDataDownCalls h)
  /\ (~ respond ->
      fst out = Ok tt
      /\ snd out = h3
      /\ sendDataDownCalls (snd out) = sendDataDownCalls h
      /\ sendCalls (snd out) = sendCalls h
      /\ transmitted (snd out) = transmitted h)
  /\ ((exists pkt, transmitted (snd out) = pkt :: transmitted h) -> respond)
  /\ (fst out = Ok tt ->
      (respond <-> exists pkt, transmitted (snd out) = pkt :: transmitted h)).
Proof.
  cbv zeta. rewrite SendUplinkResponse_decision.
  destruct log_before_decision as [Hsc Hsd].
  pose proof decision_mustRespond as Hdec.
  destruct (responseAllowEncrypted txPayload
            && negb (uplinkConfirmed rxPacket)
            && (len cmds =? 0)
            && negb (ADRACKReq (FHDR_FCtrl (MP_FHDR macPL)))) eqn:Hb.
  - (* nothing to answer *)
    assert (Hno : ~ mustRespond rxPacket macPL txPayload cmds)
      by (intro Hc; apply Hdec in Hc; discriminate).
    cbn [fst snd].
    assert (Htr : transmitted h3 = transmitted h)
      by (apply transmitted_unchanged; exact Hsc).
    split; [split; [tauto|intro Hne; exfalso; apply Hne; exact Hsd]|].
    split; [tauto|].
    split; [intros _; repeat split; assumption|].
    split.
    + intros [pkt Hpkt]. rewrite Htr in Hpkt.
      apply list_neq_cons in Hpkt. contradiction.
    + intros _. split; [tauto|].
      intros [pkt Hpkt]. rewrite Htr in Hpkt.
      apply list_neq_cons in Hpkt. contradiction.
  - (* an answer is due *)
    assert (Hyes : mustRespond rxPacket macPL txPayload cmds)
      by (apply Hdec; reflexivity).
    destruct (@send_then_delete_log env
                (fun e => ErrFrom "send data down error: %s" e)
                (fun e =>
                   ErrFrom
                     "delete mac-command queue item from queue error: %s" e)
                ns txInfo
                (responseFrameContext rxPacket txPayload cmds enc pending)
                items h3)
      as [Hsd' [_ [_ Hsc']]].
    rewrite Hsd in Hsd'.
    split; [split; [intros _; rewrite Hsd'; intro Hc;
                    symmetry in Hc; apply list_neq_cons in Hc; exact Hc
                   |intros _; exact Hyes]|].
    split; [intros _; exact Hsd'|].
    split; [tauto|].
    split; [intros _; exact Hyes|].
    intros Hok. split; [|intros _; exact Hyes]. intros _.
    destruct Hsc' as [[_ [e He]] | [pkt [gw [Hsc' [_ [Hgw _]]]]]].
    + rewrite He in Hok. discriminate.
    + exists pkt. rewrite (Hgw Hok) in Hsc'. unfold transmitted.
      rewrite Hsc', Hsc. reflexivity.
Qed.


(** C7: with [queue] the MAC queue as read and [items] the selection the
    filter returned, in the frame [SendUplinkResponse] builds ACK is set if
    and only if the uplink was of type ConfirmedDataUp, and FPending is set
    if and only if the application payload has MoreData or the selection
    and the queue differ in length: the selection is shorter than the
    queue, as [FilterItems] never returns more than it is given.  That
    frame is handed to the gateway, once, unless there is nothing to answer
    or [SendDataDown] fails before the gateway; when there is something to
    answer and no error is returned, the frame with these bits went out and
    the gateway accepted it. *)
Theorem SendUplinkResponse_FPending_ACK :
  forall queue,
    maccommand_ReadQueue env
      (EvEnterGetAndFilterMACQueueItems (responseAllowEncrypted txPayload)
         (responseRemaining mps txPayload) :: h1) (NS_DevEUI ns)
    = inr queue ->
    let out := SendUplinkResponse env ns rxPacket h in
    let h' := snd out in
    let respond := mustRespond rxPacket macPL txPayload cmds in
    let frame pkt gw :=
      sendCalls h' = (pkt, gw) :: sendCalls h
      /\ exists m,
           PHY_MACPayload (PHYPayload_ pkt) = IsMACPayload m
           /\ (ACK (FHDR_FCtrl (MP_FHDR m)) = true
               <-> MType_ (PHY_MHDR (RX_PHYPayload rxPacket))
                   = ConfirmedDataUp)
           /\ (FPending (FHDR_FCtrl (MP_FHDR m)) = true
               <-> (exists p, txPayload = Some p /\ Resp_MoreData p = true)
                   \/ List.length items <> List.length queue)
           /\ ((forall q e n,
                   (List.length (maccommand_FilterItems env q e n)
                    <= List.length q)%nat) ->
               (FPending (FHDR_FCtrl (MP_FHDR m)) = true
                <-> (exists p, txPayload = Some p /\ Resp_MoreData p = true)
                    \/ (List.length items < List.length queue)%nat)) in
    ((sendCalls h' = sendCalls h
      /\ ((~ respond /\ fst out = Ok tt)
          \/ (respond
              /\ exists e,
                   fst out = Err (ErrFrom "send data down error: %s" e))))
     \/ (respond /\ exists pkt gw, frame pkt gw))
    /\ (respond -> fst out = Ok tt -> exists pkt, frame pkt None).
Proof.
  intros queue Hqueue. cbv zeta.
  rewrite SendUplinkResponse_decision.
  destruct log_before_decision as [Hsc _].
  pose proof decision_mustRespond as Hdec.
  destruct (responseAllowEncrypted txPayload
            && negb (uplinkConfirmed rxPacket)
            && (len cmds =? 0)
            && negb (ADRACKReq (FHDR_FCtrl (MP_FHDR macPL)))) eqn:Hb.
  { (* nothing to answer *)
    assert (Hno : ~ mustRespond rxPacket macPL txPayload cmds)
      by (intro Hc; apply Hdec in Hc; discriminate).
    cbn [fst snd]. split; [|intro Hc; contradiction].
    left. split; [exact Hsc|]. left. split; [exact Hno|reflexivity]. }
  assert (Hyes : mustRespond rxPacket macPL txPayload cmds)
    by (apply Hdec; reflexivity).
  destruct (@send_then_delete_frame env
              (fun e => ErrFrom "send data down error: %s" e)
              (fun e =>
                 ErrFrom
                   "delete mac-command queue item from queue error: %s" e)
              ns txInfo
              (responseFrameContext rxPacket txPayload cmds enc pending)
              items h3)
    as [[Hsc' [e He]] | [pkt [gw [Hsc' [HB Hgw]]]]].
  { (* [SendDataDown] fails before the gateway *)
    split; [|intros _ Hok; rewrite He in Hok; discriminate].
    left. split; [rewrite Hsc'; exact Hsc|].
    right. split; [exact Hyes|]. exists e. exact He. }
  (* a frame is handed to the gateway *)
  rewrite Hsc', Hsc.
  match goal with
  | |- (_ \/ (_ /\ exists p g, @?F p g)) /\ _ =>
      assert (Hframe : F pkt gw)
  end.
  { cbv beta. split; [reflexivity|].
    destruct HB as [_ [_ [m [Hm [_ [Hctrl _]]]]]].
    exists m. split; [exact Hm|].
    rewrite Hctrl. cbn [ACK FPending responseFrameContext DD_ACK MoreData].
    split; [apply MType_eqb_eq|].
    (* the pending flag of the filter *)
    destruct (getAndFilterMACQueueItems_log env ns
                (responseAllowEncrypted txPayload)
                (responseRemaining mps txPayload) h1)
      as [_ [_ [_ [_ Hres]]]].
    rewrite filtered in Hres.
    destruct (Hres items enc pending eq_refl)
      as [_ [queue' [Hq' [Hpending [Hempty Hfull]]]]].
    rewrite Hqueue in Hq'. inversion Hq'; subst queue'; clear Hq'.
    assert (Hp : pending = true <-> List.length items <> List.length queue).
    { rewrite Hpending, negb_true_iff, Z.eqb_neq. unfold len. lia. }
    assert (Hmore :
      (if pending then true
       else match txPayload with
            | Some p => Resp_MoreData p
            | None => false
            end) = true
      <-> (exists p, txPayload = Some p /\ Resp_MoreData p = true)
          \/ List.length items <> List.length queue).
    { destruct pending.
      - split; [intros _; right; apply Hp; reflexivity|reflexivity].
      - split.
        + intro Hm'. left. destruct txPayload as [p|]; [|discriminate].
          exists p. auto.
        + intros [[p [Hsome Hm']] | Hne].
          * rewrite Hsome. exact Hm'.
          * apply Hp in Hne. discriminate. }
    split; [exact Hmore|].
    intro Hshrink.
    assert (Hlen : (List.length items <= List.length queue)%nat).
    { destruct queue as [|first rest].
      - rewrite (Hempty eq_refl). apply Nat.le_refl.
      - rewrite Hfull by discriminate. apply Hshrink. }
    rewrite Hmore. split; (intros [Hl | Hr]; [left; exact Hl|right; lia]). }
  split.
  - right. split; [exact Hyes|]. exists pkt, gw. exact Hframe.
  - intros _ Hok. exists pkt. rewrite <- (Hgw Hok). exact Hframe.
Qed.

End UplinkResponse.

(** ** The sample deployment at work *)

Lemma FilterItems_prefix_length items frm maxBytes :
  (List.length (FilterItems_prefix items frm maxBytes) <= List.length items)%nat.
Proof.
  revert maxBytes. induction items as [|qi rest IH]; intro maxBytes; simpl.
  - apply Nat.le_refl.
  - destruct (maxBytes <? len (QI_Data qi)); simpl.
    + apply Nat.le_0_l.
    + apply le_n_S, IH.
Qed.

Lemma FilterItems_prefix_budget items frm maxBytes :
  0 <= maxBytes ->
  commandBytes (FilterItems_prefix items frm maxBytes) <= maxBytes.
Proof.
  revert maxBytes. induction items as [|qi rest IH]; intros maxBytes Hm; simpl.
  - exact Hm.
  - destruct (maxBytes <? len (QI_Data qi)) eqn:Hfit; simpl.
    + exact Hm.
    + apply Z.ltb_ge in Hfit.
      specialize (IH (maxBytes - len (QI_Data qi))). lia.
Qed.

(** A confirmed uplink, an empty queue and no application payload: the
    answer is an ACK with the session's FCntDown. *)
Lemma SendUplinkResponse_responds_iff_witness :
  let env := sampleEnv None (inr []) (inr None) in
  let ns := sampleSession RX1 5 0 in
  let rx := sampleUplink ConfirmedDataUp false in
  let out := SendUplinkResponse env ns rx [] in
  let respond := mustRespond rx (sampleMACPayload false) None [] in
  respond
  /\ fst out = Ok tt
  /\ (respond <-> sendDataDownCalls (snd out) <> sendDataDownCalls [])
  /\ (~ respond -> transmitted (snd out) = transmitted [])
  /\ ((exists pkt, transmitted (snd out) = pkt :: transmitted []) -> respond)
  /\ (fst out = Ok tt ->
      (respond <-> exists pkt, transmitted (snd out) = pkt :: transmitted [])).
Proof.
  cbv zeta.
  split; [right; right; left; reflexivity|]. split; [reflexivity|].
  pose proof (@SendUplinkResponse_responds_iff
                (sampleEnv None (inr []) (inr None)) (sampleSession RX1 5 0)
                (sampleUplink ConfirmedDataUp false) []
                (sampleMACPayload false) sampleRXInfo [] _ 5
                eq_refl eq_refl eq_refl
                {| MPS_M := 230; MPS_N := 222 |} None _ eq_refl eq_refl
                [] false false _ [] _ eq_refl eq_refl) as W.
  cbv zeta in W. destruct W as [W1 [_ [W3 [W4 W5]]]].
  split; [exact W1|]. split; [|split; [exact W4|exact W5]].
  intro Hno. apply W3. exact Hno.
Defined.

(** C1 as stated fails: the uplink is of type ConfirmedDataUp, but the MAC
    queue cannot be read, and [SendUplinkResponse] returns the error without
    entering [SendDataDown]; nothing is handed to the gateway. *)
Lemma SendUplinkResponse_confirmed_uplink_unanswered :
  let env := sampleEnv None (inl "redis: connection refused") (inr None) in
  let rx := sampleUplink ConfirmedDataUp false in
  let out := SendUplinkResponse env (sampleSession RX1 5 0) rx [] in
  MType_ (PHY_MHDR (RX_PHYPayload rx)) = ConfirmedDataUp
  /\ fst out
     = Err (ErrFrom "get mac-commands error: %s"
              (ErrFrom "read mac-payload tx queue error: %s"
                 (ErrExt "redis: connection refused")))
  /\ sendDataDownCalls (snd out) = []
  /\ sendCalls (snd out) = []
  /\ ~ (exists pkt, transmitted (snd out) = pkt :: transmitted []).
Proof.
  cbv zeta. repeat split. intros [pkt H]. discriminate H.
Qed.

(** The same uplink when the gateway refuses the frame: [SendDataDown] is
    entered, the error comes back, and no frame counts as transmitted. *)
Example SendUplinkResponse_gateway_refuses :
  let env := sampleEnv (Some "gateway offline") (inr []) (inr None) in
  let out := SendUplinkResponse env (sampleSession RX1 5 0)
               (sampleUplink ConfirmedDataUp false) [] in
  fst out
  = Err (ErrFrom "send data down error: %s"
           (Wrap (ErrExt "gateway offline")
              "send tx packet to gateway error" []))
  /\ List.length (sendDataDownCalls (snd out)) = 1%nat
  /\ transmitted (snd out) = [].
Proof. cbv zeta. repeat split. Qed.

(** An unconfirmed uplink with nothing queued anywhere: no downlink. *)
Example SendUplinkResponse_nothing_to_send :
  let env := sampleEnv None (inr []) (inr None) in
  let out := SendUplinkResponse env (sampleSession RX1 5 0)
               (sampleUplink UnconfirmedDataUp false) [] in
  fst out = Ok tt
  /\ sendDataDownCalls (snd out) = []
  /\ sendCalls (snd out) = [].
Proof. cbv zeta. repeat split. Qed.

(** ... but with ADRACKReq set in the uplink, an empty frame goes out. *)
Example SendUplinkResponse_ADRACKReq :
  let env := sampleEnv None (inr []) (inr None) in
  let out := SendUplinkResponse env (sampleSession RX1 5 0)
               (sampleUplink UnconfirmedDataUp true) [] in
  fst out = Ok tt /\ List.length (transmitted (snd out)) = 1%nat.
Proof. cbv zeta. repeat split. Qed.


Example SendUplinkResponse_piggyback :
  let env := sampleEnv None (inr sampleQueue) (inr (Some samplePayload)) in
  let h' := snd (SendUplinkResponse env (sampleSession RX1 5 0)
                   (sampleUplink UnconfirmedDataUp false) []) in
  getAndFilterCalls h' = [(false, 218)]
  /\ filterCalls h' = [(sampleQueue, false, 15)]
  /\ match sendCalls h' with
     | [({| PHYPayload_ := {| PHY_MACPayload := IsMACPayload m |} |}, None)] =>
         FOpts (MP_FHDR m)
         = [ {| CID := x06; CmdPayload := [] |};
             {| CID := x03; CmdPayload := [x50; x07; x00; x01] |} ]
         /\ MP_FPort m = Some 1
         /\ FRMPayload m = [DataPayload [x0a; x0b; x0c; x0d]]
         /\ FCnt (MP_FHDR m) = 5
     | _ => False
     end.
Proof. cbv zeta. split; [reflexivity|]. split; [reflexivity|]. simpl. auto. Qed.

(** Without application data and with the head of the queue marked for the
    FRMPayload, the commands are encrypted into the FRMPayload on port 0. *)
Example SendUplinkResponse_encrypted_commands :
  let queue := [ {| QI_Data := [x06]; QI_FRMPayload := true;
                    QI_External := false |} ] in
  let env := sampleEnv None (inr queue) (inr None) in
  let h' := snd (SendUplinkResponse env (sampleSession RX1 5 0)
                   (sampleUplink UnconfirmedDataUp false) []) in
  getAndFilterCalls h' = [(true, 222)]
  /\ filterCalls h' = [(queue, true, 222)]
  /\ match sendCalls h' with
     | [({| PHYPayload_ := {| PHY_MACPayload := IsMACPayload m |} |}, None)] =>
         FOpts (MP_FHDR m) = []
         /\ MP_FPort m = Some 0
         /\ FRMPayload m = [DataPayload [xde; xad]]
     | _ => False
     end.
Proof. cbv zeta. split; [reflexivity|]. split; [reflexivity|]. simpl. auto. Qed.

(** Two commands of ten bytes: one fits into FOpts, the other stays queued.
    There is something to answer and no error comes back, so the frame went
    to the gateway: it says so with FPending, and it does not acknowledge
    the unconfirmed uplink. *)
Lemma SendUplinkResponse_FPending_ACK_witness :
  let env := sampleEnv None (inr sampleLongQueue) (inr None) in
  let ns := sampleSession RX1 5 0 in
  let rx := sampleUplink UnconfirmedDataUp false in
  let out := SendUplinkResponse env ns rx [] in
  maccommand_FilterItems env sampleLongQueue false 15
  = firstn 1 sampleLongQueue
  /\ fst out = Ok tt
  /\ exists pkt m,
       sendCalls (snd out) = [(pkt, None)]
       /\ PHY_MACPayload (PHYPayload_ pkt) = IsMACPayload m
       /\ FPending (FHDR_FCtrl (MP_FHDR m)) = true
       /\ ACK (FHDR_FCtrl (MP_FHDR m)) = false.
Proof.
  cbv zeta. split; [reflexivity|]. split; [reflexivity|].
  pose proof (proj2 (@SendUplinkResponse_FPending_ACK
                       (sampleEnv None (inr sampleLongQueue) (inr None))
                       (sampleSession RX1 5 0)
                       (sampleUplink UnconfirmedDataUp false) []
                       (sampleMACPayload false) sampleRXInfo [] _ 5
                       eq_refl eq_refl eq_refl
                       {| MPS_M := 230; MPS_N := 222 |} None _
                       eq_refl eq_refl
                       (firstn 1 sampleLongQueue) false true _ _ _
                       eq_refl eq_refl
                       sampleLongQueue eq_refl)) as W.
  destruct W as [pkt [Hsent [m [Hm [Hack [Hpending _]]]]]];
    [right; left; discriminate|reflexivity|].
  exists pkt, m. split; [exact Hsent|]. split; [exact Hm|].
  split.
  - apply Hpending. right. simpl. discriminate.
  - destruct (ACK (FHDR_FCtrl (MP_FHDR m))); [|reflexivity].
    pose proof (proj1 Hack eq_refl) as Hconfirmed. discriminate Hconfirmed.
Defined.

Example SendUplinkResponse_FPending_example :
  let env := sampleEnv None (inr sampleLongQueue) (inr None) in
  let h' := snd (SendUplinkResponse env (sampleSession RX1 5 0)
                   (sampleUplink UnconfirmedDataUp false) []) in
  match sendCalls h' with
  | [({| PHYPayload_ := {| PHY_MACPayload := IsMACPayload m |} |}, None)] =>
      FPending (FHDR_FCtrl (MP_FHDR m)) = true
      /\ ACK (FHDR_FCtrl (MP_FHDR m)) = false
      /\ List.length (FOpts (MP_FHDR m)) = 1%nat
  | _ => False
  end.
Proof. simpl. auto. Qed.

(** * Further properties of the same code *)

(** ** The receive windows *)

Lemma u32_add2 a b : u32 (a + u32 b) = (a + b) mod 4294967296.
Proof. unfold u32. apply Zplus_mod_idemp_r. Qed.

Lemma u32_range x : is_u32 (u32 x).
Proof. unfold is_u32, u32. apply Z.mod_pos_bound. lia. Qed.

Lemma index_Some_range {A : Type} (l : list A) (i : Z) (x : A) :
  index l i = Some x -> 0 <= i <= len l - 1.
Proof.
  unfold index. destruct (i <? 0) eqn:Hneg; [discriminate|].
  apply Z.ltb_ge in Hneg. intro H.
  assert (Hlt : (Z.to_nat i < List.length l)%nat)
    by (apply nth_error_Some; congruence).
  unfold len. lia.
Qed.

(** RX1: when the band knows the uplink data rate, the RX1 data rate for
    the session's offset is an entry of the band's table, and the band has a
    downlink frequency for the uplink's, [getDataDownTXInfoAndDR] answers
    with that entry, that frequency, and the uplink timestamp plus RXDelay
    seconds (ReceiveDelay1 when RXDelay is 0), as a uint32 and without the
    second that RX2 adds; gateway, code rate and power are the uplink's and
    the band's. *)
Theorem getDataDownTXInfoAndDR_RX1 :
  forall env ns rxInfo uplinkDR dr rate f,
    NS_RXWindow ns = RX1 ->
    GetDataRate (band env) (RX_DataRate rxInfo) = inr uplinkDR ->
    GetRX1DataRate (band env) uplinkDR (RX1DROffset ns) = inr dr ->
    index (DataRates (band env)) dr = Some rate ->
    GetRX1Frequency (band env) (RX_Frequency rxInfo) = inr f ->
    let delay :=
      if 0 <? RXDelay ns then RXDelay ns * 1000000
      else Z.quot (ReceiveDelay1 (band env)) Microsecond in
    getDataDownTXInfoAndDR env ns rxInfo
    = ({| TX_MAC := RX_MAC rxInfo; Immediately := false;
          TX_Timestamp := (RX_Timestamp rxInfo + delay) mod 4294967296;
          TX_Frequency := f; TX_Power := DefaultTXPower (band env);
          TX_DataRate := rate; TX_CodeRate := RX_CodeRate rxInfo |},
       dr, Ok tt).
Proof.
  intros env ns rxInfo uplinkDR dr rate f Hw Hup Hdr Hrate Hf delay.
  unfold getDataDownTXInfoAndDR. rewrite Hw, Hup, Hdr, Hrate, Hf.
  cbn [TX_MAC Immediately TX_Power TX_CodeRate].
  subst delay. destruct (0 <? RXDelay ns).
  - rewrite u32_add2, seconds_in_microseconds. reflexivity.
  - rewrite u32_add2. reflexivity.
Qed.

Lemma getDataDownTXInfoAndDR_RX1_witness :
  let env := sampleEnv None (inr []) (inr None) in
  let ns := sampleSession RX1 5 0 in
  NS_RXWindow ns = RX1
  /\ GetDataRate (band env) (RX_DataRate sampleRXInfo) = inr 5
  /\ index (DataRates (band env)) 5 = Some (sampleRate 7 125)
  /\ getDataDownTXInfoAndDR env ns sampleRXInfo
     = ({| TX_MAC := RX_MAC sampleRXInfo; Immediately := false;
           TX_Timestamp := (708016819 + 1000000) mod 4294967296;
           TX_Frequency := 868500000; TX_Power := 14;
           TX_DataRate := sampleRate 7 125; TX_CodeRate := "4/5" |},
        5, Ok tt).
Proof.
  cbv zeta. do 3 (split; [reflexivity|]).
  exact (@getDataDownTXInfoAndDR_RX1 (sampleEnv None (inr []) (inr None))
           (sampleSession RX1 5 0) sampleRXInfo 5 5 (sampleRate 7 125)
           868500000 eq_refl eq_refl eq_refl eq_refl eq_refl).
Defined.

(** Whatever [getDataDownTXInfoAndDR] returns, the TXInfo names the
    uplink's gateway, its code rate and the band's default power, and is not
    marked immediate.  When it returns no error, the session listens on RX1
    or RX2, the returned data-rate index lies within the band's table, the
    TXInfo carries that entry, and the timestamp is a uint32. *)
Theorem getDataDownTXInfoAndDR_sound :
  forall env ns rxInfo,
    let out := getDataDownTXInfoAndDR env ns rxInfo in
    let txInfo := fst (fst out) in
    let dr := snd (fst out) in
    TX_MAC txInfo = RX_MAC rxInfo
    /\ TX_CodeRate txInfo = RX_CodeRate rxInfo
    /\ TX_Power txInfo = DefaultTXPower (band env)
    /\ Immediately txInfo = false
    /\ (snd out = Ok tt ->
        (NS_RXWindow ns = RX1 \/ NS_RXWindow ns = RX2)
        /\ 0 <= dr <= len (DataRates (band env)) - 1
        /\ index (DataRates (band env)) dr = Some (TX_DataRate txInfo)
        /\ is_u32 (TX_Timestamp txInfo)).
Proof.
  intros env ns rxInfo. cbv zeta. unfold getDataDownTXInfoAndDR.
  destruct (NS_RXWindow ns) as [| |n].
  - destruct (GetDataRate _ _) as [e|up];
      [repeat split; discriminate|].
    destruct (GetRX1DataRate _ _ _) as [e|dr];
      [repeat split; discriminate|].
    destruct (index (DataRates (band env)) dr) as [rate|] eqn:Hrate;
      [|repeat split; discriminate].
    destruct (GetRX1Frequency _ _) as [e|f];
      [repeat split; discriminate|].
    cbn [fst snd TX_MAC TX_CodeRate TX_Power Immediately TX_DataRate
         TX_Timestamp].
    do 4 (split; [reflexivity|]). intros _.
    split; [left; reflexivity|].
    split; [eapply index_Some_range; exact Hrate|].
    split; [exact Hrate|].
    destruct (0 <? RXDelay ns); apply u32_range.
  - destruct (len (DataRates (band env)) - 1 <? RX2DR ns);
      [repeat split; discriminate|].
    destruct (index (DataRates (band env)) (RX2DR ns)) as [rate|] eqn:Hrate;
      [|repeat split; discriminate].
    cbn [fst snd TX_MAC TX_CodeRate TX_Power Immediately TX_DataRate
         TX_Timestamp].
    do 4 (split; [reflexivity|]). intros _.
    split; [right; reflexivity|].
    split; [eapply index_Some_range; exact Hrate|].
    split; [exact Hrate|]. apply u32_range.
  - repeat split; discriminate.
Qed.

(** A session that listens on neither window: an error, whatever else. *)
Example getDataDownTXInfoAndDR_unknown_window :
  snd (getDataDownTXInfoAndDR (sampleEnv None (inr []) (inr None))
         (sampleSession (RXWindowOther 7) 5 0) sampleRXInfo)
  = Err (ErrNew "unknown RXWindow option %d" [7]).
Proof. reflexivity. Qed.

(** RX2 opens one second after RX1: for two sessions with the same RXDelay,
    one on RX1 and one on RX2, both answered without error for the same
    uplink, the RX2 timestamp is the RX1 timestamp plus 1 000 000
    microseconds, as a uint32. *)
Theorem getDataDownTXInfoAndDR_RX2_after_RX1 :
  forall env ns1 ns2 rxInfo,
    NS_RXWindow ns1 = RX1 ->
    NS_RXWindow ns2 = RX2 ->
    RXDelay ns1 = RXDelay ns2 ->
    snd (getDataDownTXInfoAndDR env ns1 rxInfo) = Ok tt ->
    snd (getDataDownTXInfoAndDR env ns2 rxInfo) = Ok tt ->
    TX_Timestamp (fst (fst (getDataDownTXInfoAndDR env ns2 rxInfo)))
    = u32 (TX_Timestamp (fst (fst (getDataDownTXInfoAndDR env ns1 rxInfo)))
           + 1000000).
Proof.
  intros env ns1 ns2 rxInfo H1 H2 Hd.
  unfold getDataDownTXInfoAndDR. rewrite H1, H2, Hd.
  destruct (GetDataRate _ _) as [e|up]; [discriminate|].
  destruct (GetRX1DataRate _ _ _) as [e|dr]; [discriminate|].
  destruct (index (DataRates (band env)) dr) as [rate|]; [|discriminate].
  destruct (GetRX1Frequency _ _) as [e|f]; [discriminate|].
  destruct (len (DataRates (band env)) - 1 <? RX2DR ns2); [discriminate|].
  destruct (index (DataRates (band env)) (RX2DR ns2)) as [rate2|];
    [|discriminate].
  intros _ _. cbn [fst snd TX_Timestamp].
  change (Z.quot Second Microsecond) with 1000000.
  change (u32 1000000) with 1000000. reflexivity.
Qed.

Lemma getDataDownTXInfoAndDR_RX2_after_RX1_witness :
  let env := sampleEnv None (inr []) (inr None) in
  let t w := fst (fst (getDataDownTXInfoAndDR env (sampleSession w 5 0)
                         sampleRXInfo)) in
  TX_Timestamp (t RX1) = 709016819
  /\ TX_Timestamp (t RX2) = u32 (TX_Timestamp (t RX1) + 1000000).
Proof.
  cbv zeta. split; [reflexivity|].
  exact (@getDataDownTXInfoAndDR_RX2_after_RX1
           (sampleEnv None (inr []) (inr None))
           (sampleSession RX1 5 0) (sampleSession RX2 5 0) sampleRXInfo
           eq_refl eq_refl eq_refl eq_refl eq_refl).
Defined.

(** ** Asking the application server *)

(** [getDataDownFromApplication] never returns an error: what the
    application server answers with an error, with nothing, with FPort 0 or
    with more data than the data rate allows counts as no payload.  A
    payload that does come back is the server's answer, has a non-zero FPort
    and fits.  The one request made carries the session's EUIs, its FCntDown
    and the maximum payload size of the data rate. *)
Theorem getDataDownFromApplication_payload :
  forall env ns dr mps h,
    index (MaxPayloadSizes (band env)) dr = Some mps ->
    let out := getDataDownFromApplication env ns dr h in
    let req :=
      {| GDD_AppEUI := NS_AppEUI ns; GDD_DevEUI := NS_DevEUI ns;
         GDD_MaxPayloadSize := u32 (MPS_N mps); GDD_FCnt := FCntDown ns |} in
    snd out = EvGetDataDown req (as_GetDataDown env h req) :: h
    /\ (exists txPayload, fst out = Ok txPayload)
    /\ (forall p,
          fst out = Ok (Some p) <->
          as_GetDataDown env h req = inr (Some p)
          /\ Resp_FPort p <> 0
          /\ len (Resp_Data p) <= MPS_N mps).
Proof.
  intros env ns dr mps h Hmps. cbv zeta.
  unfold getDataDownFromApplication. rewrite Hmps.
  unfold bind, call, ret.
  destruct (as_GetDataDown env h _) as [e|[resp|]]; cbn [fst snd].
  - split; [reflexivity|]. split; [eexists; reflexivity|].
    intro p. split; [discriminate|intros [H _]; discriminate].
  - destruct (Resp_FPort resp =? 0) eqn:Hport; cbn [fst snd].
    + apply Z.eqb_eq in Hport.
      split; [reflexivity|]. split; [eexists; reflexivity|].
      intro p. split; [discriminate|].
      intros [H [Hp _]]. inversion H; subst. contradiction.
    + apply Z.eqb_neq in Hport.
      destruct (MPS_N mps <? len (Resp_Data resp)) eqn:Hfit; cbn [fst snd].
      * apply Z.ltb_lt in Hfit.
        split; [reflexivity|]. split; [eexists; reflexivity|].
        intro p. split; [discriminate|].
        intros [H [_ Hl]]. inversion H; subst. lia.
      * apply Z.ltb_ge in Hfit.
        split; [reflexivity|]. split; [eexists; reflexivity|].
        intro p. split.
        -- intro H. inversion H; subst. auto.
        -- intros [H _]. inversion H; subst. reflexivity.
  - split; [reflexivity|]. split; [eexists; reflexivity|].
    intro p. split; [discriminate|intros [H _]; discriminate].
Qed.

Lemma getDataDownFromApplication_payload_witness :
  let env := sampleEnv None (inr []) (inr (Some samplePayload)) in
  let ns := sampleSession RX1 5 0 in
  let out := getDataDownFromApplication env ns 5 [] in
  index (MaxPayloadSizes (band env)) 5 = Some {| MPS_M := 230; MPS_N := 222 |}
  /\ fst out = Ok (Some samplePayload)
  /\ (forall p,
        fst out = Ok (Some p) <->
        @inr ext_error _ (Some samplePayload) = inr (Some p)
        /\ Resp_FPort p <> 0
        /\ len (Resp_Data p) <= 222).
Proof.
  cbv zeta. split; [reflexivity|]. split; [reflexivity|].
  exact (proj2 (proj2
           (@getDataDownFromApplication_payload
              (sampleEnv None (inr []) (inr (Some samplePayload)))
              (sampleSession RX1 5 0) 5 {| MPS_M := 230; MPS_N := 222 |} []
              eq_refl))).
Defined.

(** An answer on port 0, an answer of 52 bytes at DR0 (51 allowed), and an
    error of the server: no payload, and no error either. *)
Example getDataDownFromApplication_rejects :
  let ask answer :=
    fst (getDataDownFromApplication (sampleEnv None (inr []) answer)
           (sampleSession RX1 5 0) 0 []) in
  ask (inr (Some {| Resp_Data := [x01]; Resp_Confirmed := false;
                    Resp_MoreData := false; Resp_FPort := 0 |})) = Ok None
  /\ ask (inr (Some {| Resp_Data := repeat x00 52; Resp_Confirmed := false;
                       Resp_MoreData := false; Resp_FPort := 1 |})) = Ok None
  /\ ask (inl "deadline exceeded") = Ok None.
Proof. cbv zeta. repeat split. Qed.

(** ** The MAC-command queue *)

(** With the queue read as [queue], [getAndFilterMACQueueItems] returns
    without error.  It asks for the FRMPayload exactly when encryption is
    allowed and the first item of the queue is marked for it; the budget it
    gives [FilterItems] is then all the remaining bytes, and otherwise the
    smaller of 15 and the remaining bytes.  An empty queue gives an empty
    selection without calling [FilterItems]; otherwise the selection is what
    [FilterItems] returns for the whole queue.  The third value tells
    whether selection and queue differ in length. *)
Theorem getAndFilterMACQueueItems_selection :
  forall env ns allow rem h queue,
    maccommand_ReadQueue env
      (EvEnterGetAndFilterMACQueueItems allow rem :: h) (NS_DevEUI ns)
    = inr queue ->
    let out := getAndFilterMACQueueItems env ns allow rem h in
    exists items enc pending,
      fst out = Ok (items, enc, pending)
      /\ (enc = true <->
          allow = true
          /\ exists first, hd_error queue = Some first
                           /\ QI_FRMPayload first = true)
      /\ (pending = true <-> List.length items <> List.length queue)
      /\ (queue = [] ->
          items = [] /\ filterCalls (snd out) = filterCalls h)
      /\ (queue <> [] ->
          let budget := if enc then rem else Z.min 15 rem in
          items = maccommand_FilterItems env queue enc budget
          /\ filterCalls (snd out) = (queue, enc, budget) :: filterCalls h).
Proof.
  intros env ns allow rem h queue Hq. cbv zeta.
  rewrite getAndFilterMACQueueItems_eq. cbv zeta. rewrite Hq.
  destruct queue as [|first rest]; cbn [fst snd].
  - exists [], false, false. split; [reflexivity|].
    split; [split; [discriminate|intros [_ [x [Hx _]]]; discriminate]|].
    split; [split; [discriminate|intro H; exfalso; apply H; reflexivity]|].
    split; [intros _; split; reflexivity|].
    intro H. exfalso. apply H. reflexivity.
  - eexists _, _, _. split; [reflexivity|].
    split.
    { rewrite andb_true_iff. split.
      - intros [Ha Hf]. split; [exact Ha|]. exists first. auto.
      - intros [Ha [x [Hx Hf]]]. inversion Hx; subst. auto. }
    split.
    { rewrite negb_true_iff, Z.eqb_neq. unfold len. lia. }
    split; [discriminate|]. intros _.
    assert (Hb : filterBudget (allow && QI_FRMPayload first) rem
                 = if allow && QI_FRMPayload first then rem
                   else Z.min 15 rem).
    { destruct (allow && QI_FRMPayload first); [reflexivity|].
      apply filterBudget_plain. }
    rewrite Hb. split; reflexivity.
Qed.

Lemma getAndFilterMACQueueItems_selection_witness :
  let queue := [ {| QI_Data := [x06]; QI_FRMPayload := true;
                    QI_External := false |} ] in
  let env := sampleEnv None (inr queue) (inr None) in
  let out := getAndFilterMACQueueItems env (sampleSession RX1 5 0) true 222
               [] in
  fst out = Ok (queue, true, false)
  /\ exists items enc pending,
       fst out = Ok (items, enc, pending)
       /\ (enc = true <->
           true = true
           /\ exists first, hd_error queue = Some first
                            /\ QI_FRMPayload first = true)
       /\ (pending = true <-> List.length items <> List.length queue)
       /\ (queue = [] ->
           items = [] /\ filterCalls (snd out) = filterCalls [])
       /\ (queue <> [] ->
           let budget := if enc then 222 else Z.min 15 222 in
           items = maccommand_FilterItems env queue enc budget
           /\ filterCalls (snd out) = (queue, enc, budget) :: filterCalls []).
Proof.
  cbv zeta. split; [reflexivity|].
  exact (@getAndFilterMACQueueItems_selection
           (sampleEnv None
              (inr [ {| QI_Data := [x06]; QI_FRMPayload := true;
                        QI_External := false |} ]) (inr None))
           (sampleSession RX1 5 0) true 222 [] _ eq_refl).
Defined.

(** A queue that cannot be read: the error, and no call of [FilterItems]. *)
Example getAndFilterMACQueueItems_read_error :
  let out := getAndFilterMACQueueItems
               (sampleEnv None (inl "redis: connection refused") (inr None))
               (sampleSession RX1 5 0) true 222 [] in
  fst out
  = Err (ErrFrom "read mac-payload tx queue error: %s"
           (ErrExt "redis: connection refused"))
  /\ filterCalls (snd out) = [].
Proof. cbv zeta. split; reflexivity. Qed.

(** [macQueueItemsToMACCommands] returns the commands of the items that
    unmarshal, in queue order, and skips the others; for each skipped item,
    in queue order, it reports the item's bytes to the network controller
    under the session's EUIs.  It makes no other call. *)
Theorem macQueueItemsToMACCommands_skips_and_reports :
  forall env ns items h,
    let out := macQueueItemsToMACCommands env ns items h in
    fst out
    = flat_map (fun qi =>
                  match mac_UnmarshalBinary env (QI_Data qi) with
                  | inr mac => [mac]
                  | inl _ => []
                  end) items
    /\ List.length (fst out) = List.length (filter (unmarshals env) items)
    /\ (exists reports,
          controllerCalls (snd out) = reports ++ controllerCalls h
          /\ map (fun c => NCHE_Command (fst c)) (rev reports)
             = map QI_Data
                 (filter (fun qi => negb (unmarshals env qi)) items)
          /\ Forall (fun c =>
                       NCHE_AppEUI (fst c) = NS_AppEUI ns
                       /\ NCHE_DevEUI (fst c) = NS_DevEUI ns) reports)
    /\ (forall (A : Type) (sel : Event -> option A),
          (forall req r, sel (EvControllerHandleError req r) = None) ->
          collect sel (snd out) = collect sel h).
Proof.
  intros env ns items. cbv zeta.
  induction items as [|qi rest IH]; intro h;
    cbn [macQueueItemsToMACCommands flat_map filter].
  - split; [reflexivity|]. split; [reflexivity|].
    split; [exists []; repeat split; constructor|]. reflexivity.
  - destruct (mac_UnmarshalBinary env (QI_Data qi)) as [e|mac] eqn:Hparse.
    + assert (Hu : unmarshals env qi = false)
        by (unfold unmarshals; rewrite Hparse; reflexivity).
      rewrite Hu. cbn [negb].
      match goal with
      | |- context [macQueueItemsToMACCommands env ns rest (?ev :: h)] =>
          destruct (IH (ev :: h)) as [Hout [Hlen [[reports [Hc [Hm Hf]]] Hsel]]]
      end.
      split; [exact Hout|]. split; [exact Hlen|]. split.
      * eexists (reports ++ [_]). split; [|split].
        -- rewrite Hc. unfold controllerCalls. rewrite collect_cons.
           cbn [asControllerHandleError]. rewrite <- app_assoc. reflexivity.
        -- rewrite rev_app_distr. cbn [rev app map fst NCHE_Command].
           rewrite Hm. reflexivity.
        -- apply Forall_app. split; [exact Hf|].
           constructor; [split; reflexivity|constructor].
      * intros A sel Hs. rewrite Hsel by exact Hs.
        rewrite collect_cons, Hs. reflexivity.
    + assert (Hu : unmarshals env qi = true)
        by (unfold unmarshals; rewrite Hparse; reflexivity).
      rewrite Hu. cbn [negb].
      destruct (IH h) as [Hout [Hlen [Hrep Hsel]]].
      destruct (macQueueItemsToMACCommands env ns rest h) as [out h'].
      cbn [fst snd app List.length] in *.
      split; [rewrite Hout; reflexivity|].
      split; [rewrite Hlen; reflexivity|].
      split; [exact Hrep|exact Hsel].
Qed.

(** The second of three items does not unmarshal: two commands come back,
    and one report goes to the controller. *)
Example macQueueItemsToMACCommands_example :
  let item d := {| QI_Data := d; QI_FRMPayload := false;
                   QI_External := false |} in
  let out := macQueueItemsToMACCommands (sampleEnv None (inr []) (inr None))
               (sampleSession RX1 5 0)
               [item [x06]; item []; item [x02; x01]] [] in
  fst out = [ {| CID := x06; CmdPayload := [] |};
              {| CID := x02; CmdPayload := [x01] |} ]
  /\ List.length (controllerCalls (snd out)) = 1%nat.
Proof. cbv zeta. split; reflexivity. Qed.

(** The loop that deletes the sent items calls [DeleteQueueItem] for the
    items in order, under the given DevEUI, and stops at the first call that
    fails: with no error all items were deleted; with an error the calls
    cover the items up to the one that failed, the returned error is built
    from that call's, and the items after it were not touched. *)
Theorem deleteQueueItems_stops_at_first_failure :
  forall env onError devEUI items h,
    let out := deleteQueueItems env onError devEUI items h in
    exists calls,
      deleteCalls (snd out) = calls ++ deleteCalls h
      /\ Forall (fun c => fst (fst c) = devEUI) calls
      /\ (fst out = Ok tt ->
          map (fun c => snd (fst c)) (rev calls) = items
          /\ Forall (fun c => snd c = None) calls)
      /\ (forall e,
            fst out = Err e ->
            exists before failed after x,
              items = before ++ failed :: after
              /\ map (fun c => snd (fst c)) (rev calls) = before ++ [failed]
              /\ hd_error calls = Some (devEUI, failed, Some x)
              /\ Forall (fun c => snd c = None) (tl calls)
              /\ e = onError (ErrExt x))
      /\ (forall why, fst out <> Panic why).
Proof.
  intros env onError devEUI items. cbv zeta.
  induction items as [|qi rest IH]; intro h; cbn [deleteQueueItems].
  - exists []. split; [reflexivity|]. split; [constructor|].
    split; [intros _; split; [reflexivity|constructor]|].
    split; [discriminate|discriminate].
  - unfold bind, call.
    destruct (maccommand_DeleteQueueItem env h devEUI qi) as [x|] eqn:Hr;
      cbn [fail fst snd].
    + exists [(devEUI, qi, Some x)].
      split; [reflexivity|]. split; [constructor; [reflexivity|constructor]|].
      split; [discriminate|]. split; [|discriminate].
      intros e He. inversion He; subst.
      exists [], qi, rest, x. repeat split. constructor.
    + destruct (IH (EvDeleteQueueItem devEUI qi None :: h))
        as [calls [Hc [Hd [Hok [Herr Hpanic]]]]].
      exists (calls ++ [(devEUI, qi, None)]).
      split.
      { rewrite Hc. unfold deleteCalls. rewrite collect_cons.
        cbn [asDeleteQueueItem]. rewrite <- app_assoc. reflexivity. }
      split.
      { apply Forall_app. split; [exact Hd|].
        constructor; [reflexivity|constructor]. }
      split.
      { intro H. destruct (Hok H) as [Hm Hn].
        rewrite rev_app_distr. cbn [rev app map fst snd]. rewrite Hm.
        split; [reflexivity|].
        apply Forall_app. split; [exact Hn|].
        constructor; [reflexivity|constructor]. }
      split; [|exact Hpanic].
      intros e He.
      destruct (Herr e He) as [before [failed [after [x [Hi [Hm [Hh [Ht Hx]]]]]]]].
      exists (qi :: before), failed, after, x.
      split; [rewrite Hi; reflexivity|].
      split.
      { rewrite rev_app_distr. cbn [rev app map fst snd]. rewrite Hm.
        reflexivity. }
      destruct calls as [|c calls']; [discriminate|].
      cbn [hd_error tl app] in *.
      split; [exact Hh|]. split; [|exact Hx].
      apply Forall_app. split; [exact Ht|].
      constructor; [reflexivity|constructor].
Qed.

(** ** More on [SendDataDown] *)

Lemma set_FCntDown_same ns : set_FCntDown ns (FCntDown ns) = ns.
Proof. destruct ns; reflexivity. Qed.

Lemma len_pos_ltb {A : Type} (l : list A) : l <> [] -> (0 <? len l) = true.
Proof.
  destruct l; [intro H; exfalso; apply H; reflexivity|].
  intros _. reflexivity.
Qed.

(** Encrypted MAC commands: when the frame context asks for encryption and
    has MAC commands, the frame handed to the gateway has empty FOpts, the
    context's FPort (which validation has made 0), and as FRMPayload what
    [EncryptFRMPayload] made, under the session's NwkSKey, of the frame that
    holds the commands in its FRMPayload.  The context's Data is not sent. *)
Theorem SendDataDown_encrypted_commands :
  forall env ns txInfo dd h pkt gw,
    EncryptMACCommands dd = true ->
    MACCommands dd <> [] ->
    sendCalls (snd (SendDataDown env ns txInfo dd h))
    = (pkt, gw) :: sendCalls h ->
    exists m,
      PHY_MACPayload (PHYPayload_ pkt) = IsMACPayload m
      /\ FOpts (MP_FHDR m) = []
      /\ MP_FPort m = Some (DD_FPort dd)
      /\ DD_FPort dd <= 0
      /\ (DD_FPort dd = 0 -> DD_Data dd = [])
      /\ phy_EncryptFRMPayload env (NwkSKey ns)
           {| PHY_MHDR := PHY_MHDR (PHYPayload_ pkt);
              PHY_MACPayload :=
                IsMACPayload
                  (set_FPort_FRMPayload m (MP_FPort m)
                     (map MACCommandPayload (MACCommands dd)));
              PHY_MIC := zeroMIC |}
         = inr (FRMPayload m).
Proof.
  intros env ns txInfo dd h pkt gw Henc Hcmds.
  unfold SendDataDown.
  destruct (Validate dd) as [v|] eqn:HV.
  { cbn [snd]. unfold sendCalls. rewrite collect_cons.
    cbn [asEnterSendDataDown asSendTXPacket]. intro H.
    apply list_neq_cons in H. contradiction. }
  destruct (Validate_None _ HV) as [Hnz Hz].
  assert (Hport : (0 <? DD_FPort dd) = false).
  { destruct (0 <? DD_FPort dd) eqn:Hp; [|reflexivity].
    apply Z.ltb_lt in Hp. exfalso. apply Hz. auto. }
  assert (Hdata : DD_FPort dd = 0 -> DD_Data dd = []).
  { intro H0. destruct (DD_Data dd) as [|b l] eqn:Hd; [reflexivity|].
    exfalso. apply Hnz. split; [exact H0|]. rewrite ?Hd. reflexivity. }
  rewrite (len_pos_ltb Hcmds), Henc, Hport.
  destruct (phy_EncryptFRMPayload _ _ _) as [e|frm] eqn:Hfrm.
  { cbn [snd]. unfold sendCalls. rewrite collect_cons.
    cbn [asSendTXPacket]. intro H.
    apply list_neq_cons in H. contradiction. }
  destruct (phy_SetMIC _ _ _) as [e|mic].
  { cbn [snd]. unfold sendCalls. rewrite collect_cons.
    cbn [asSendTXPacket]. intro H.
    apply list_neq_cons in H. contradiction. }
  cbv zeta.
  destruct (gw_SendTXPacket _ _ _) as [e|];
    [|destruct (negb (Confirmed dd));
      [destruct (session_SaveNodeSession _ _ _) as [e|]|]];
    cbn [snd]; unfold sendCalls; rewrite ?collect_cons;
    cbn [asSendTXPacket asEnterSendDataDown asSaveNodeSession];
    intro H; inversion H; subst pkt gw;
    (eexists; split; [reflexivity|]);
    (split; [reflexivity|]); (split; [reflexivity|]);
    (split; [apply Z.ltb_ge; exact Hport|]); (split; [exact Hdata|]);
    exact Hfrm.
Qed.

Lemma SendDataDown_encrypted_commands_witness :
  let env := sampleEnv None (inr []) (inr None) in
  let ns := sampleSession RX1 5 0 in
  let cmds := [ {| CID := x06; CmdPayload := [] |} ] in
  let dd := sampleFrame 0 [] cmds true false in
  exists pkt gw m,
    sendCalls (snd (SendDataDown env ns sampleTXInfo dd []))
    = (pkt, gw) :: sendCalls []
    /\ PHY_MACPayload (PHYPayload_ pkt) = IsMACPayload m
    /\ FOpts (MP_FHDR m) = []
    /\ MP_FPort m = Some 0
    /\ FRMPayload m = [DataPayload [xde; xad]]
    /\ phy_EncryptFRMPayload env (NwkSKey ns)
         {| PHY_MHDR := PHY_MHDR (PHYPayload_ pkt);
            PHY_MACPayload :=
              IsMACPayload
                (set_FPort_FRMPayload m (MP_FPort m)
                   (map MACCommandPayload cmds));
            PHY_MIC := zeroMIC |}
       = inr (FRMPayload m).
Proof.
  cbv zeta. eexists _, _.
  destruct (@SendDataDown_encrypted_commands
              (sampleEnv None (inr []) (inr None)) (sampleSession RX1 5 0)
              sampleTXInfo
              (sampleFrame 0 [] [ {| CID := x06; CmdPayload := [] |} ]
                 true false)
              [] _ _ eq_refl ltac:(discriminate) eq_refl)
    as [m [Hm [Ho [Hp [_ [_ He]]]]]].
  exists m. split; [reflexivity|]. split; [exact Hm|]. split; [exact Ho|].
  split; [exact Hp|]. split; [|exact He].
  cbn in Hm. inversion Hm. reflexivity.
Defined.

(** The MIC is computed last: the frame handed to the gateway carries the
    MIC that [SetMIC] computes, under the session's NwkSKey, over that very
    frame, and it goes out with the TXInfo that was passed in. *)
Theorem SendDataDown_MIC_covers_frame :
  forall env ns txInfo dd h pkt gw,
    sendCalls (snd (SendDataDown env ns txInfo dd h))
    = (pkt, gw) :: sendCalls h ->
    TXInfo_ pkt = txInfo
    /\ gw = gw_SendTXPacket env (EvEnterSendDataDown ns txInfo dd :: h) pkt
    /\ phy_SetMIC env (NwkSKey ns)
         {| PHY_MHDR := PHY_MHDR (PHYPayload_ pkt);
            PHY_MACPayload := PHY_MACPayload (PHYPayload_ pkt);
            PHY_MIC := zeroMIC |}
       = inr (PHY_MIC (PHYPayload_ pkt)).
Proof.
  intros env ns txInfo dd h pkt gw.
  unfold SendDataDown.
  destruct (Validate dd) as [v|].
  { cbn [snd]. unfold sendCalls. rewrite collect_cons.
    cbn [asSendTXPacket]. intro H.
    apply list_neq_cons in H. contradiction. }
  cbv zeta.
  match goal with
  | |- context [match ?w with inl _ => _ | inr _ => _ end] =>
      destruct w as [e|macPL2]
  end.
  { cbn [snd]. unfold sendCalls. rewrite collect_cons.
    cbn [asSendTXPacket]. intro H.
    apply list_neq_cons in H. contradiction. }
  destruct (phy_SetMIC _ _ _) as [e|mic] eqn:Hmic.
  { cbn [snd]. unfold sendCalls. rewrite collect_cons.
    cbn [asSendTXPacket]. intro H.
    apply list_neq_cons in H. contradiction. }
  destruct (gw_SendTXPacket _ _ _) as [e|] eqn:Hgw;
    [|destruct (negb (Confirmed dd));
      [destruct (session_SaveNodeSession _ _ _) as [e|]|]];
    cbn [snd]; unfold sendCalls; rewrite ?collect_cons;
    cbn [asSendTXPacket asEnterSendDataDown asSaveNodeSession];
    intro H; inversion H; subst pkt gw;
    (split; [reflexivity|]); (split; [symmetry; exact Hgw|]); exact Hmic.
Qed.

Lemma SendDataDown_MIC_covers_frame_witness :
  let env := sampleEnv None (inr []) (inr None) in
  let ns := sampleSession RX1 5 0 in
  let dd := sampleFrame 1 [x01; x02] [] false false in
  exists pkt gw,
    sendCalls (snd (SendDataDown env ns sampleTXInfo dd []))
    = (pkt, gw) :: sendCalls []
    /\ TXInfo_ pkt = sampleTXInfo
    /\ PHY_MIC (PHYPayload_ pkt) = [x0a; x0b; x0c; x0d]
    /\ phy_SetMIC env (NwkSKey ns)
         {| PHY_MHDR := PHY_MHDR (PHYPayload_ pkt);
            PHY_MACPayload := PHY_MACPayload (PHYPayload_ pkt);
            PHY_MIC := zeroMIC |}
       = inr (PHY_MIC (PHYPayload_ pkt)).
Proof.
  cbv zeta. eexists _, _. split; [reflexivity|].
  destruct (@SendDataDown_MIC_covers_frame
              (sampleEnv None (inr []) (inr None)) (sampleSession RX1 5 0)
              sampleTXInfo (sampleFrame 1 [x01; x02] [] false false)
              [] _ _ eq_refl)
    as [Ht [_ Hm]].
  split; [exact Ht|]. split; [reflexivity|exact Hm].
Defined.

(** What [SendDataDown] does to the session: it changes no field but
    FCntDown, and it changes FCntDown or calls [SaveNodeSession] only for an
    unconfirmed frame that the gateway has accepted; it then saves, once,
    the session with the incremented counter. *)
Theorem SendDataDown_session_effect :
  forall env ns txInfo dd h,
    let out := SendDataDown env ns txInfo dd h in
    let ns' := snd (fst out) in
    ns' = set_FCntDown ns (FCntDown ns')
    /\ ((ns' = ns /\ saveCalls (snd out) = saveCalls h)
        \/ (Confirmed dd = false
            /\ ns' = set_FCntDown ns (u32 (FCntDown ns + 1))
            /\ (exists saved, saveCalls (snd out) = (ns', saved) :: saveCalls h)
            /\ exists pkt, transmitted (snd out) = pkt :: transmitted h)).
Proof.
  intros env ns txInfo dd h. cbv zeta.
  pose proof (SendDataDown_run env ns txInfo dd h) as R.
  inversion R as [v HV Ho | v HV Henc Ho | v HV Ho | pkt v HV HB Ho
                 | pkt HV HB Hconf Ho | pkt v HV HB Hconf Ho
                 | pkt HV HB Hconf Ho]; cbn [fst snd];
    try (split; [symmetry; apply set_FCntDown_same|left; split; reflexivity]).
  - split; [reflexivity|]. right. split; [exact Hconf|].
    split; [reflexivity|]. split; [eexists; reflexivity|].
    exists pkt. reflexivity.
  - split; [reflexivity|]. right. split; [exact Hconf|].
    split; [reflexivity|]. split; [eexists; reflexivity|].
    exists pkt. reflexivity.
Qed.

(** The frame is out but the save fails: [SendDataDown] returns the error
    of the session store, although the gateway has accepted the frame; the
    caller's session has the incremented FCntDown, which the store does not
    have. *)
Theorem SendDataDown_save_failure :
  forall env ns txInfo dd h r ns' h' saved e,
    SendDataDown env ns txInfo dd h = (r, ns', h') ->
    saveCalls h' = (saved, Some e) :: saveCalls h ->
    r = Err (Wrap (ErrExt e) "save node-session error" [])
    /\ Confirmed dd = false
    /\ saved = ns'
    /\ FCntDown ns' = u32 (FCntDown ns + 1)
    /\ exists pkt m,
         transmitted h' = pkt :: transmitted h
         /\ PHY_MACPayload (PHYPayload_ pkt) = IsMACPayload m
         /\ FCnt (MP_FHDR m) = FCntDown ns.
Proof.
  intros env ns txInfo dd h r ns' h' saved e Hrun Hsave.
  pose proof (SendDataDown_run env ns txInfo dd h) as R.
  rewrite Hrun in R.
  inversion R as [v HV Ho | v HV Henc Ho | v HV Ho | pkt v HV HB Ho
                 | pkt HV HB Hconf Ho | pkt v HV HB Hconf Ho
                 | pkt HV HB Hconf Ho]; subst;
    unfold saveCalls in Hsave; rewrite ?collect_cons in Hsave;
    cbn [asSaveNodeSession] in Hsave;
    try (apply list_neq_cons in Hsave; contradiction);
    inversion Hsave; subst.
  destruct (Built_FCnt HB) as [m [Hm Hc]].
  split; [reflexivity|]. split; [exact Hconf|]. split; [reflexivity|].
  split; [reflexivity|]. exists pkt, m. repeat split; assumption.
Qed.

Lemma SendDataDown_save_failure_witness :
  let env := withJoin (sampleEnv None (inr []) (inr None))
               (inl "unused") (Some "redis: connection refused")
               (inl "unused") in
  let ns := sampleSession RX1 5 0 in
  let dd := sampleFrame 1 [x01; x02] [] false false in
  exists r ns' h',
    SendDataDown env ns sampleTXInfo dd [] = (r, ns', h')
    /\ saveCalls h' = (ns', Some "redis: connection refused") :: saveCalls []
    /\ r = Err (Wrap (ErrExt "redis: connection refused")
                  "save node-session error" [])
    /\ FCntDown ns' = 6
    /\ List.length (transmitted h') = 1%nat.
Proof.
  cbv zeta. eexists _, _, _.
  split; [reflexivity|]. split; [reflexivity|].
  destruct (@SendDataDown_save_failure
              (withJoin (sampleEnv None (inr []) (inr None))
                 (inl "unused") (Some "redis: connection refused")
                 (inl "unused"))
              (sampleSession RX1 5 0) sampleTXInfo
              (sampleFrame 1 [x01; x02] [] false false) []
              _ _ _ _ _ eq_refl eq_refl)
    as [Hr [_ [_ [Hc _]]]].
  split; [exact Hr|]. split; [exact Hc|]. reflexivity.
Defined.

(** ** What each step adds to the log *)

Lemma send_then_delete_eq env onSend onDelete ns txInfo dd items h :
  (ns' <- orReturn onSend (callSendDataDown env ns txInfo dd) ;;
   deleteQueueItems env onDelete (NS_DevEUI ns') items) h
  = match SendDataDown env ns txInfo dd h with
    | (Ok _, ns', h') => deleteQueueItems env onDelete (NS_DevEUI ns') items h'
    | (Err e, _, h') => (Err (onSend e), h')
    | (Panic why, _, h') => (Panic why, h')
    end.
Proof.
  unfold bind, orReturn, callSendDataDown.
  destruct (SendDataDown env ns txInfo dd h) as [[[u|e|why] ns'] h'];
    reflexivity.
Qed.

Lemma SendDataDown_DevEUI env ns txInfo dd h :
  NS_DevEUI (snd (fst (SendDataDown env ns txInfo dd h))) = NS_DevEUI ns.
Proof.
  pose proof (SendDataDown_run env ns txInfo dd h) as R.
  inversion R; reflexivity.
Qed.

(** [SendDataDown] logs its entry, the gateway call and the save only. *)
Lemma SendDataDown_collect {A : Type} (sel : Event -> option A)
    env ns txInfo dd h :
  (forall n t d, sel (EvEnterSendDataDown n t d) = None) ->
  (forall p r, sel (EvSendTXPacket p r) = None) ->
  (forall n r, sel (EvSaveNodeSession n r) = None) ->
  collect sel (snd (SendDataDown env ns txInfo dd h)) = collect sel h.
Proof.
  intros He Hs Hv.
  pose proof (SendDataDown_run env ns txInfo dd h) as R.
  inversion R; cbn [snd]; rewrite ?collect_cons, ?He, ?Hs, ?Hv; reflexivity.
Qed.

(** [getAndFilterMACQueueItems] logs its entry, the queue read and the
    call of [FilterItems] only. *)
Lemma getAndFilterMACQueueItems_collect {A : Type} (sel : Event -> option A)
    env ns allow rem h :
  (forall a r, sel (EvEnterGetAndFilterMACQueueItems a r) = None) ->
  (forall d r, sel (EvReadQueue d r) = None) ->
  (forall q f m, sel (EvFilterItems q f m) = None) ->
  collect sel (snd (getAndFilterMACQueueItems env ns allow rem h))
  = collect sel h.
Proof.
  intros He Hr Hf. rewrite getAndFilterMACQueueItems_eq. cbv zeta.
  destruct (maccommand_ReadQueue env _ (NS_DevEUI ns)) as [e|[|first rest]];
    cbn [snd]; rewrite ?collect_cons, ?He, ?Hr, ?Hf; reflexivity.
Qed.

(** [macQueueItemsToMACCommands] logs controller calls only. *)
Lemma macQueueItemsToMACCommands_collect_other {A : Type}
    (sel : Event -> option A) env ns items :
  (forall req r, sel (EvControllerHandleError req r) = None) ->
  forall h,
    collect sel (snd (macQueueItemsToMACCommands env ns items h))
    = collect sel h.
Proof.
  intros Hc. induction items as [|qi rest IH]; intro h;
    cbn [macQueueItemsToMACCommands].
  - reflexivity.
  - destruct (mac_UnmarshalBinary env (QI_Data qi)) as [e|mac].
    + rewrite IH, collect_cons, Hc. reflexivity.
    + specialize (IH h).
      destruct (macQueueItemsToMACCommands env ns rest h) as [out h'].
      exact IH.
Qed.

(** A delete loop that returns no error has deleted every item, in order,
    under the given DevEUI. *)
Lemma deleteQueueItems_all_deleted env onError devEUI items :
  forall h,
    fst (deleteQueueItems env onError devEUI items h) = Ok tt ->
    exists calls,
      deleteCalls (snd (deleteQueueItems env onError devEUI items h))
      = calls ++ deleteCalls h
      /\ rev calls = map (fun qi => (devEUI, qi, None)) items.
Proof.
  induction items as [|qi rest IH]; intro h; cbn [deleteQueueItems].
  - intros _. exists []. split; reflexivity.
  - unfold bind, call.
    destruct (maccommand_DeleteQueueItem env h devEUI qi) as [x|];
      cbn [fail fst snd]; [discriminate|].
    intro Hok. destruct (IH _ Hok) as [calls [Hc Hm]].
    exists (calls ++ [(devEUI, qi, None)]). split.
    + rewrite Hc. unfold deleteCalls. rewrite collect_cons.
      cbn [asDeleteQueueItem]. rewrite <- app_assoc. reflexivity.
    + rewrite rev_app_distr. cbn [rev app map]. rewrite Hm. reflexivity.
Qed.

(** The end of [SendUplinkResponse] and of [HandlePushDataDown]: nothing is
    deleted from the queue unless the gateway accepted the frame, and when
    the whole returns no error the frame was accepted and every selected
    item was deleted, in order, under the session's DevEUI. *)
Lemma send_then_delete_deletions env onSend onDelete ns txInfo dd items h :
  let out :=
    (ns' <- orReturn onSend (callSendDataDown env ns txInfo dd) ;;
     deleteQueueItems env onDelete (NS_DevEUI ns') items) h in
  (transmitted (snd out) = transmitted h ->
   deleteCalls (snd out) = deleteCalls h)
  /\ (fst out = Ok tt ->
      exists pkt dels,
        transmitted (snd out) = pkt :: transmitted h
        /\ Built ns txInfo dd pkt
        /\ deleteCalls (snd out) = dels ++ deleteCalls h
        /\ rev dels = map (fun qi => (NS_DevEUI ns, qi, None)) items).
Proof.
  cbv zeta. rewrite send_then_delete_eq.
  pose proof (@SendDataDown_collect _ asDeleteQueueItem env ns txInfo dd h
                (fun _ _ _ => eq_refl) (fun _ _ => eq_refl)
                (fun _ _ => eq_refl)) as Hdel.
  pose proof (SendDataDown_DevEUI env ns txInfo dd h) as Hdev.
  pose proof (SendDataDown_run env ns txInfo dd h) as R.
  destruct (SendDataDown env ns txInfo dd h) as [[r ns'] h4].
  cbn [fst snd] in Hdel, Hdev.
  change (deleteCalls h4 = deleteCalls h) in Hdel.
  rewrite Hdev.
  assert (Hsent : forall pkt,
            Built ns txInfo dd pkt ->
            transmitted h4 = pkt :: transmitted h ->
            (transmitted (snd (deleteQueueItems env onDelete (NS_DevEUI ns)
                                 items h4))
             = transmitted h ->
             deleteCalls (snd (deleteQueueItems env onDelete (NS_DevEUI ns)
                                 items h4))
             = deleteCalls h)
            /\ (fst (deleteQueueItems env onDelete (NS_DevEUI ns) items h4)
                = Ok tt ->
                exists pkt0 dels,
                  transmitted (snd (deleteQueueItems env onDelete
                                      (NS_DevEUI ns) items h4))
                  = pkt0 :: transmitted h
                  /\ Built ns txInfo dd pkt0
                  /\ deleteCalls (snd (deleteQueueItems env onDelete
                                         (NS_DevEUI ns) items h4))
                     = dels ++ deleteCalls h
                  /\ rev dels
                     = map (fun qi => (NS_DevEUI ns, qi, None)) items)).
  { intros pkt HB Htr.
    assert (Htr' : transmitted (snd (deleteQueueItems env onDelete
                                       (NS_DevEUI ns) items h4))
                   = pkt :: transmitted h).
    { rewrite <- Htr. apply transmitted_unchanged.
      unfold sendCalls. apply deleteQueueItems_collect. auto with loops. }
    split.
    - intro Hc. rewrite Htr' in Hc. symmetry in Hc.
      apply list_neq_cons in Hc. contradiction.
    - intro Hok. destruct (deleteQueueItems_all_deleted _ _ _ _ _ Hok)
        as [dels [Hd Hm]].
      exists pkt, dels. rewrite Hd, Hdel, Hm. auto. }
  inversion R as [v HV Ho | v HV Henc Ho | v HV Ho | pkt v HV HB Ho
                 | pkt HV HB Hconf Ho | pkt v HV HB Hconf Ho
                 | pkt HV HB Hconf Ho]; subst; cbn [fst snd];
    try (split; [intros _; exact Hdel|discriminate]);
    apply (Hsent pkt HB); reflexivity.
Qed.

(** ** Pushing data down *)

(** The three refusals of [HandlePushDataDown]: a session without a last
    reception, a session whose RX2DR is above the band's highest data rate,
    and data longer than that data rate allows.  Each comes back before any
    call is made, and [errToRPCError] maps it to FailedPrecondition, to
    Internal and to InvalidArgument. *)
Theorem HandlePushDataDown_refusals :
  forall env ns confirmed fPort data h,
    let out := HandlePushDataDown env ns confirmed fPort data h in
    let maxDR := len (DataRates (band env)) - 1 in
    (LastRXInfoSet ns = [] ->
     out = (Err ErrNoLastRXInfoSet, h)
     /\ errToRPCError ErrNoLastRXInfoSet
        = (FailedPrecondition, ErrNoLastRXInfoSet))
    /\ (LastRXInfoSet ns <> [] -> maxDR < RX2DR ns ->
        exists e,
          out = (Err e, h)
          /\ errToRPCError e = (Internal, ErrInvalidDataRate))
    /\ (forall mps,
          LastRXInfoSet ns <> [] -> RX2DR ns <= maxDR ->
          index (MaxPayloadSizes (band env)) (RX2DR ns) = Some mps ->
          MPS_N mps < len data ->
          exists e,
            out = (Err e, h)
            /\ errToRPCError e = (InvalidArgument, ErrMaxPayloadSizeExceeded)).
Proof.
  intros env ns confirmed fPort data h. cbv zeta.
  unfold HandlePushDataDown.
  destruct (LastRXInfoSet ns) as [|lastRX others].
  - split; [intros _; split; reflexivity|].
    split; [intro H; exfalso; apply H; reflexivity|].
    intros mps H. exfalso; apply H; reflexivity.
  - split; [discriminate|]. split.
    + intros _ Hdr. apply Z.ltb_lt in Hdr. rewrite Hdr.
      eexists. split; reflexivity.
    + intros mps _ Hdr Hmps Hlen.
      apply Z.ltb_ge in Hdr. rewrite Hdr, Hmps.
      apply Z.ltb_lt in Hlen. rewrite Hlen.
      eexists. split; reflexivity.
Qed.

(** Fifty-two bytes at DR0, where 51 fit. *)
Example HandlePushDataDown_too_long :
  let out := HandlePushDataDown (sampleEnv None (inr []) (inr None))
               (sampleSession RX1 5 0) false 1 (repeat x00 52) [] in
  out = (Err (Wrap ErrMaxPayloadSizeExceeded "(max: %d)" [51]), []).
Proof. reflexivity. Qed.

(** A push that returns no error has transmitted one frame: on the gateway
    of the session's first last reception, immediately, on the band's RX2
    frequency at the session's RX2 data rate, with the band's default power
    and code rate 4/5.  The frame is confirmed or not as asked, carries the
    session's FCntDown, no ACK and no FPending, and the data on the given
    port, which fits the data rate; without a port there is no FRMPayload. *)
Theorem HandlePushDataDown_transmits :
  forall env ns confirmed fPort data h h',
    HandlePushDataDown env ns confirmed fPort data h = (Ok tt, h') ->
    exists lastRX others mps rate pkt m,
      LastRXInfoSet ns = lastRX :: others
      /\ index (MaxPayloadSizes (band env)) (RX2DR ns) = Some mps
      /\ len data <= MPS_N mps
      /\ index (DataRates (band env)) (RX2DR ns) = Some rate
      /\ transmitted h' = pkt :: transmitted h
      /\ TXInfo_ pkt
         = {| TX_MAC := RX_MAC lastRX; Immediately := true;
              TX_Timestamp := 0; TX_Frequency := RX2Frequency (band env);
              TX_Power := DefaultTXPower (band env);
              TX_DataRate := rate; TX_CodeRate := "4/5" |}
      /\ MType_ (PHY_MHDR (PHYPayload_ pkt))
         = (if confirmed then ConfirmedDataDown else UnconfirmedDataDown)
      /\ PHY_MACPayload (PHYPayload_ pkt) = IsMACPayload m
      /\ FCnt (MP_FHDR m) = FCntDown ns
      /\ ACK (FHDR_FCtrl (MP_FHDR m)) = false
      /\ FPending (FHDR_FCtrl (MP_FHDR m)) = false
      /\ MP_FPort m = (if 0 <? fPort then Some fPort else None)
      /\ FRMPayload m = (if 0 <? fPort then [DataPayload data] else []).
Proof.
  intros env ns confirmed fPort data h h'.
  unfold HandlePushDataDown.
  destruct (LastRXInfoSet ns) as [|lastRX others]; [discriminate|].
  destruct (len (DataRates (band env)) - 1 <? RX2DR ns); [discriminate|].
  destruct (index (MaxPayloadSizes (band env)) (RX2DR ns)) as [mps|];
    [|discriminate].
  destruct (MPS_N mps <? len data) eqn:Hfit; [discriminate|].
  apply Z.ltb_ge in Hfit.
  unfold bind at 1. unfold orReturn at 1.
  pose proof (fun A (sel : Event -> option A) H1 H2 H3 =>
                @getAndFilterMACQueueItems_collect A sel env ns false
                  (MPS_N mps - len data) h H1 H2 H3) as Hgf.
  destruct (getAndFilterMACQueueItems env ns false (MPS_N mps - len data) h)
    as [[[[items enc] pending]|e|why] h1]; try discriminate.
  cbn [snd] in Hgf.
  rewrite bind_callMacQueueItemsToMACCommands.
  pose proof (fun A (sel : Event -> option A) H =>
                @macQueueItemsToMACCommands_collect_other A sel env ns items
                  H h1) as Hmq.
  set (cmds := fst (macQueueItemsToMACCommands env ns items h1)) in *.
  set (h2 := snd (macQueueItemsToMACCommands env ns items h1)) in *.
  destruct (index (DataRates (band env)) (RX2DR ns)) as [rate|];
    [|discriminate].
  intro Hrun.
  match type of Hrun with
  | context [callSendDataDown env ns ?t ?d] =>
      destruct (@send_then_delete_deletions env
                  (fun e => Wrap e "send data down error" [])
                  (fun e => Wrap e "delete mac-command queue item error" [])
                  ns t d items h2) as [_ Hok]
  end.
  rewrite Hrun in Hok. cbn [fst snd] in Hok.
  destruct (Hok eq_refl) as [pkt [dels [Htr [HB _]]]].
  destruct HB as [Htx [Hmt [m [Hm [_ [Hctrl [Hcnt [_ Hbody]]]]]]]].
  destruct (Hbody eq_refl) as [Hport Hfrm].
  exists lastRX, others, mps, rate, pkt, m.
  split; [reflexivity|]. split; [reflexivity|]. split; [exact Hfit|].
  split; [reflexivity|].
  split.
  { rewrite Htr. f_equal. apply transmitted_unchanged. unfold sendCalls.
    rewrite Hmq by reflexivity. apply Hgf; reflexivity. }
  split; [exact Htx|]. split; [exact Hmt|]. split; [exact Hm|].
  split; [exact Hcnt|]. rewrite Hctrl.
  split; [reflexivity|]. split; [reflexivity|].
  split; [exact Hport|exact Hfrm].
Qed.

Lemma HandlePushDataDown_transmits_witness :
  let env := sampleEnv None (inr sampleQueue) (inr None) in
  let ns := sampleSession RX1 5 0 in
  exists h' pkt,
    HandlePushDataDown env ns true 10 [x01; x02; x03] [] = (Ok tt, h')
    /\ transmitted h' = pkt :: transmitted []
    /\ TXInfo_ pkt
       = {| TX_MAC := RX_MAC sampleRXInfo; Immediately := true;
            TX_Timestamp := 0; TX_Frequency := 869525000;
            TX_Power := 14; TX_DataRate := sampleRate 12 125;
            TX_CodeRate := "4/5" |}
    /\ MType_ (PHY_MHDR (PHYPayload_ pkt)) = ConfirmedDataDown.
Proof.
  cbv zeta. eexists _, _.
  split; [vm_compute; reflexivity|].
  split; [vm_compute; reflexivity|].
  destruct (@HandlePushDataDown_transmits
              (sampleEnv None (inr sampleQueue) (inr None))
              (sampleSession RX1 5 0) true 10 [x01; x02; x03] [] _ eq_refl)
    as [lastRX [others [mps [rate [pkt [m [Hl [_ [_ [Hr [Htr [Htx [Hmt _]]]]]]]]]]]]].
  split; reflexivity.
Defined.

(** Nothing is deleted from the MAC queue by a push unless the gateway
    accepted the frame; a push that returns no error has deleted every item
    that the filter selected, in queue order and under the session's
    DevEUI, whether or not the item could be unmarshalled into the frame. *)
Theorem HandlePushDataDown_deletes_selected_items :
  forall env ns confirmed fPort data h,
    let out := HandlePushDataDown env ns confirmed fPort data h in
    (transmitted (snd out) = transmitted h ->
     deleteCalls (snd out) = deleteCalls h)
    /\ (fst out = Ok tt ->
        exists mps items enc pending h1 dels,
          index (MaxPayloadSizes (band env)) (RX2DR ns) = Some mps
          /\ getAndFilterMACQueueItems env ns false (MPS_N mps - len data) h
             = (Ok (items, enc, pending), h1)
          /\ deleteCalls (snd out) = dels ++ deleteCalls h
          /\ rev dels = map (fun qi => (NS_DevEUI ns, qi, None)) items).
Proof.
  intros env ns confirmed fPort data h. cbv zeta.
  destruct (HandlePushDataDown env ns confirmed fPort data h) as [r h']
    eqn:Hrun.
  cbn [fst snd]. revert Hrun. unfold HandlePushDataDown.
  destruct (LastRXInfoSet ns) as [|lastRX others];
    [intro H; inversion H; subst; split; [reflexivity|discriminate]|].
  destruct (len (DataRates (band env)) - 1 <? RX2DR ns);
    [intro H; inversion H; subst; split; [reflexivity|discriminate]|].
  destruct (index (MaxPayloadSizes (band env)) (RX2DR ns)) as [mps|];
    [|intro H; inversion H; subst; split; [reflexivity|discriminate]].
  destruct (MPS_N mps <? len data);
    [intro H; inversion H; subst; split; [reflexivity|discriminate]|].
  unfold bind at 1. unfold orReturn at 1.
  pose proof (fun A (sel : Event -> option A) H1 H2 H3 =>
                @getAndFilterMACQueueItems_collect A sel env ns false
                  (MPS_N mps - len data) h H1 H2 H3) as Hgf.
  destruct (getAndFilterMACQueueItems env ns false (MPS_N mps - len data) h)
    as [[[[items enc] pending]|e|why] h1] eqn:Hfilt; cbn [fst snd] in *;
    try (intro H; inversion H; subst;
         split; [intros _; apply Hgf; reflexivity|discriminate]).
  rewrite bind_callMacQueueItemsToMACCommands.
  pose proof (fun A (sel : Event -> option A) H =>
                @macQueueItemsToMACCommands_collect_other A sel env ns items
                  H h1) as Hmq.
  set (cmds := fst (macQueueItemsToMACCommands env ns items h1)) in *.
  set (h2 := snd (macQueueItemsToMACCommands env ns items h1)) in *.
  assert (Hdel2 : deleteCalls h2 = deleteCalls h).
  { unfold deleteCalls. rewrite Hmq by reflexivity. apply Hgf; reflexivity. }
  assert (Htr2 : transmitted h2 = transmitted h).
  { apply transmitted_unchanged. unfold sendCalls.
    rewrite Hmq by reflexivity. apply Hgf; reflexivity. }
  destruct (index (DataRates (band env)) (RX2DR ns)) as [rate|];
    [|intro H; inversion H; subst;
      split; [intros _; exact Hdel2|discriminate]].
  intro Hrun.
  match type of Hrun with
  | context [callSendDataDown env ns ?t ?d] =>
      destruct (@send_then_delete_deletions env
                  (fun e => Wrap e "send data down error" [])
                  (fun e => Wrap e "delete mac-command queue item error" [])
                  ns t d items h2) as [Hnone Hok]
  end.
  rewrite Hrun in Hnone, Hok. cbn [fst snd] in Hnone, Hok.
  rewrite Htr2, Hdel2 in Hnone. split; [exact Hnone|].
  intro H. destruct (Hok H) as [pkt [dels [_ [_ [Hd Hm]]]]].
  exists mps, items, enc, pending, h1, dels.
  rewrite Hdel2 in Hd. auto.
Qed.

(** The gateway refuses the frame: the two queued commands stay queued. *)
Example HandlePushDataDown_keeps_items_on_failure :
  let out := HandlePushDataDown
               (sampleEnv (Some "gateway offline") (inr sampleQueue)
                  (inr None))
               (sampleSession RX1 5 0) false 10 [x01] [] in
  deleteCalls (snd out) = []
  /\ fst out
     = Err (Wrap (Wrap (ErrExt "gateway offline")
                    "send tx packet to gateway error" [])
              "send data down error" []).
Proof. cbv zeta. split; reflexivity. Qed.

(** ** More on answering an uplink *)

(** [getDataDownFromApplication] logs the query only. *)
Lemma getDataDownFromApplication_collect_other {A : Type}
    (sel : Event -> option A) env ns dr h :
  (forall req r, sel (EvGetDataDown req r) = None) ->
  collect sel (snd (getDataDownFromApplication env ns dr h)) = collect sel h.
Proof.
  intros Hg. unfold getDataDownFromApplication.
  destruct (index (MaxPayloadSizes (band env)) dr) as [mps|];
    [|reflexivity].
  unfold bind, call, ret.
  destruct (as_GetDataDown env h _) as [e|[resp|]]; cbn [snd];
    try (rewrite collect_cons, Hg; reflexivity).
  destruct (Resp_FPort resp =? 0); cbn [snd];
    [rewrite collect_cons, Hg; reflexivity|].
  destruct (MPS_N mps <? len (Resp_Data resp)); cbn [snd];
    rewrite collect_cons, Hg; reflexivity.
Qed.

Lemma getDataDownTXInfoAndDR_MAC env ns rxInfo :
  TX_MAC (fst (fst (getDataDownTXInfoAndDR env ns rxInfo))) = RX_MAC rxInfo.
Proof.
  unfold getDataDownTXInfoAndDR.
  destruct (NS_RXWindow ns).
  - destruct (GetDataRate _ _); [reflexivity|].
    destruct (GetRX1DataRate _ _ _); [reflexivity|].
    destruct (index _ _); [|reflexivity].
    destruct (GetRX1Frequency _ _); reflexivity.
  - destruct (_ <? _); [reflexivity|].
    destruct (index _ _); reflexivity.
  - reflexivity.
Qed.

(** The delete loop logs deletions only. *)
Lemma deleteQueueItems_collect_other {A : Type} (sel : Event -> option A)
    env onError devEUI items :
  (forall d q r, sel (EvDeleteQueueItem d q r) = None) ->
  forall h,
    collect sel (snd (deleteQueueItems env onError devEUI items h))
    = collect sel h.
Proof.
  intros Hd. induction items as [|qi rest IH]; intro h;
    cbn [deleteQueueItems].
  - reflexivity.
  - unfold bind, call.
    destruct (maccommand_DeleteQueueItem env h devEUI qi) as [e|];
      cbn [fail snd].
    + rewrite collect_cons, Hd. reflexivity.
    + rewrite IH, collect_cons, Hd. reflexivity.
Qed.

Section UplinkResponseLog.

Variable env : Env.
Variable ns : NodeSession.
Variable rxPacket : RXPacket.
Variable h : History.

Variables (macPL : MACPayload) (rxInfo : RXInfo) (others : list RXInfo).
Variables (txInfo : TXInfo) (dr : Z).
Hypothesis uplink_is_data :
  PHY_MACPayload (RX_PHYPayload rxPacket) = IsMACPayload macPL.
Hypothesis uplink_heard : RXInfoSet rxPacket = rxInfo :: others.
Hypothesis tx_parameters :
  getDataDownTXInfoAndDR env ns rxInfo = (txInfo, dr, Ok tt).

Variables (mps : MaxPayloadSize) (txPayload : option GetDataDownResponse).
Variable h1 : History.
Hypothesis max_payload : index (MaxPayloadSizes (band env)) dr = Some mps.
Hypothesis from_application :
  getDataDownFromApplication env ns dr h = (Ok txPayload, h1).

Variables (items : list QueueItem) (enc pending : bool) (h2 : History).
Variables (cmds : list MACCommand) (h3 : History).
Hypothesis filtered :
  getAndFilterMACQueueItems env ns (responseAllowEncrypted txPayload)
    (responseRemaining mps txPayload) h1
  = (Ok (items, enc, pending), h2).
Hypothesis converted :
  macQueueItemsToMACCommands env ns items h2 = (cmds, h3).

Lemma log_before_decision_other {A : Type} (sel : Event -> option A) :
  (forall req r, sel (EvGetDataDown req r) = None) ->
  (forall a r, sel (EvEnterGetAndFilterMACQueueItems a r) = None) ->
  (forall d r, sel (EvReadQueue d r) = None) ->
  (forall q f m, sel (EvFilterItems q f m) = None) ->
  (forall req r, sel (EvControllerHandleError req r) = None) ->
  collect sel h3 = collect sel h.
Proof.
  intros Hg He Hr Hf Hc.
  pose proof (@getDataDownFromApplication_collect_other A sel env ns dr h Hg)
    as H1.
  rewrite from_application in H1. cbn [snd] in H1.
  pose proof (@getAndFilterMACQueueItems_collect A sel env ns
                (responseAllowEncrypted txPayload)
                (responseRemaining mps txPayload) h1 He Hr Hf) as H2.
  rewrite filtered in H2. cbn [snd] in H2.
  pose proof (@macQueueItemsToMACCommands_collect_other A sel env ns items
                Hc h2) as H3.
  rewrite converted in H3. cbn [snd] in H3.
  rewrite H3, H2, H1. reflexivity.
Qed.

(** When the steps before the decision go through, [SendUplinkResponse]
    deletes nothing from the MAC queue unless the gateway accepted the
    frame; and when it has sent a frame and returns no error, it has deleted
    every item the filter selected, in queue order and under the session's
    DevEUI. *)
Theorem SendUplinkResponse_deletes_selected_items :
  let out := SendUplinkResponse env ns rxPacket h in
  (transmitted (snd out) = transmitted h ->
   deleteCalls (snd out) = deleteCalls h)
  /\ (fst out = Ok tt ->
      mustRespond rxPacket macPL txPayload cmds ->
      exists pkt dels,
        transmitted (snd out) = pkt :: transmitted h
        /\ deleteCalls (snd out) = dels ++ deleteCalls h
        /\ rev dels = map (fun qi => (NS_DevEUI ns, qi, None)) items).
Proof.
  cbv zeta.
  rewrite (SendUplinkResponse_decision env ns rxPacket h uplink_is_data
             uplink_heard tx_parameters max_payload from_application
             filtered converted).
  assert (Hdel : deleteCalls h3 = deleteCalls h)
    by (apply log_before_decision_other; reflexivity).
  assert (Htr : transmitted h3 = transmitted h)
    by (apply transmitted_unchanged; apply log_before_decision_other;
        reflexivity).
  pose proof (decision_mustRespond env ns rxPacket h macPL dr mps
                from_application cmds filtered) as Hdec.
  destruct (responseAllowEncrypted txPayload
            && negb (uplinkConfirmed rxPacket)
            && (len cmds =? 0)
            && negb (ADRACKReq (FHDR_FCtrl (MP_FHDR macPL)))).
  - cbn [fst snd]. split; [intros _; exact Hdel|].
    intros _ Hyes. apply Hdec in Hyes. discriminate.
  - destruct (@send_then_delete_deletions env
                (fun e => ErrFrom "send data down error: %s" e)
                (fun e =>
                   ErrFrom
                     "delete mac-command queue item from queue error: %s" e)
                ns txInfo
                (responseFrameContext rxPacket txPayload cmds enc pending)
                items h3) as [Hnone Hok].
    rewrite Htr, Hdel in Hnone. split; [exact Hnone|].
    intros H _. destruct (Hok H) as [pkt [dels [Ht [_ [Hd Hm]]]]].
    exists pkt, dels. rewrite Htr in Ht. rewrite Hdel in Hd. auto.
Qed.

(** The application server may answer with an FPort above 255: the frame
    context takes its low byte.  With a payload [p] from the application
    server, [SendUplinkResponse] fails on the validation error
    FPortMustNotBeZero exactly when the low byte of [p]'s FPort is 0 and [p]
    has data; nothing is then handed to the gateway and nothing is deleted
    from the MAC queue. *)
Theorem SendUplinkResponse_FPort_low_byte :
  forall p,
    txPayload = Some p ->
    let out := SendUplinkResponse env ns rxPacket h in
    (fst out
     = Err (ErrFrom "send data down error: %s"
              (Wrap ErrFPortMustNotBeZero "validation error" []))
     <-> Resp_FPort p mod 256 = 0 /\ Resp_Data p <> [])
    /\ (Resp_FPort p mod 256 = 0 -> Resp_Data p <> [] ->
        sendCalls (snd out) = sendCalls h
        /\ deleteCalls (snd out) = deleteCalls h).
Proof.
  intros p Hp. cbv zeta.
  rewrite (SendUplinkResponse_decision env ns rxPacket h uplink_is_data
             uplink_heard tx_parameters max_payload from_application
             filtered converted).
  assert (Hdel : deleteCalls h3 = deleteCalls h)
    by (apply log_before_decision_other; reflexivity).
  assert (Hsc : sendCalls h3 = sendCalls h)
    by (apply log_before_decision_other; reflexivity).
  rewrite Hp. cbn [responseAllowEncrypted andb].
  rewrite send_then_delete_eq.
  set (dd := responseFrameContext rxPacket (Some p) cmds enc pending).
  assert (Hcond : (DD_FPort dd = 0 /\ 0 < len (DD_Data dd))
                  <-> (Resp_FPort p mod 256 = 0 /\ Resp_Data p <> [])).
  { subst dd. cbn [DD_FPort DD_Data responseFrameContext]. unfold u8.
    split; intros [H0 Hd]; (split; [exact H0|]).
    - intro Hn. rewrite Hn in Hd. discriminate.
    - destruct (Resp_Data p); [exfalso; apply Hd; reflexivity|reflexivity]. }
  pose proof (SendDataDown_run env ns txInfo dd h3) as R.
  inversion R as [v HV Ho | v HV Henc Ho | v HV Ho | pkt v HV HB Ho
                 | pkt HV HB Hconf Ho | pkt v HV HB Hconf Ho
                 | pkt HV HB Hconf Ho]; cbn [fst snd].
  - destruct (Validate_Some _ HV) as [[Hv Hc] | [Hv [Hpos Henc]]]; subst v.
    + split; [split; [intros _; apply Hcond; exact Hc|reflexivity]|].
      intros _ _. unfold sendCalls, deleteCalls in *.
      rewrite !collect_cons. cbn [asSendTXPacket asDeleteQueueItem].
      split; assumption.
    + split; [split; [discriminate|]|];
        intros; exfalso;
        assert (DD_FPort dd = 0) by (apply Hcond; auto); lia.
  - apply Validate_None in HV. destruct HV as [HV _].
    split; [split; [discriminate|intro H; exfalso; apply HV, Hcond, H]|].
    intros H0 Hd. exfalso. apply HV, Hcond. auto.
  - apply Validate_None in HV. destruct HV as [HV _].
    split; [split; [discriminate|intro H; exfalso; apply HV, Hcond, H]|].
    intros H0 Hd. exfalso. apply HV, Hcond. auto.
  - apply Validate_None in HV. destruct HV as [HV _].
    split; [split; [discriminate|intro H; exfalso; apply HV, Hcond, H]|].
    intros H0 Hd. exfalso. apply HV, Hcond. auto.
  - apply Validate_None in HV. destruct HV as [HV _].
    split; [split; [|intro H; exfalso; apply HV, Hcond, H]|].
    + match goal with
      | |- fst (deleteQueueItems ?e ?f ?d ?i ?hh) = _ -> _ =>
          destruct (deleteQueueItems_result e f d i hh) as [Hr | [x Hr]];
            rewrite Hr; discriminate
      end.
    + intros H0 Hd. exfalso. apply HV, Hcond. auto.
  - apply Validate_None in HV. destruct HV as [HV _].
    split; [split; [discriminate|intro H; exfalso; apply HV, Hcond, H]|].
    intros H0 Hd. exfalso. apply HV, Hcond. auto.
  - apply Validate_None in HV. destruct HV as [HV _].
    split; [split; [|intro H; exfalso; apply HV, Hcond, H]|].
    + match goal with
      | |- fst (deleteQueueItems ?e ?f ?d ?i ?hh) = _ -> _ =>
          destruct (deleteQueueItems_result e f d i hh) as [Hr | [x Hr]];
            rewrite Hr; discriminate
      end.
    + intros H0 Hd. exfalso. apply HV, Hcond. auto.
Qed.

(** [SendUplinkResponse] asks the application server once, telling it the
    session's FCntDown and the maximum payload size of the downlink data
    rate; the frame it then hands to the gateway, if any, carries that same
    FCntDown and goes out with the TX parameters that
    [getDataDownTXInfoAndDR] computed from the first reception. *)
Theorem SendUplinkResponse_same_FCnt :
  let out := SendUplinkResponse env ns rxPacket h in
  let req :=
    {| GDD_AppEUI := NS_AppEUI ns; GDD_DevEUI := NS_DevEUI ns;
       GDD_MaxPayloadSize := u32 (MPS_N mps); GDD_FCnt := FCntDown ns |} in
  applicationQueries (snd out)
  = (req, as_GetDataDown env h req) :: applicationQueries h
  /\ (sendCalls (snd out) = sendCalls h
      \/ exists pkt gw m,
           sendCalls (snd out) = (pkt, gw) :: sendCalls h
           /\ TXInfo_ pkt = txInfo
           /\ TX_MAC txInfo = RX_MAC rxInfo
           /\ PHY_MACPayload (PHYPayload_ pkt) = IsMACPayload m
           /\ FCnt (MP_FHDR m) = GDD_FCnt req).
Proof.
  cbv zeta.
  rewrite (SendUplinkResponse_decision env ns rxPacket h uplink_is_data
             uplink_heard tx_parameters max_payload from_application
             filtered converted).
  assert (Hsc : sendCalls h3 = sendCalls h)
    by (apply log_before_decision_other; reflexivity).
  assert (Hq : applicationQueries h3
               = ({| GDD_AppEUI := NS_AppEUI ns; GDD_DevEUI := NS_DevEUI ns;
                     GDD_MaxPayloadSize := u32 (MPS_N mps);
                     GDD_FCnt := FCntDown ns |},
                  as_GetDataDown env h
                    {| GDD_AppEUI := NS_AppEUI ns;
                       GDD_DevEUI := NS_DevEUI ns;
                       GDD_MaxPayloadSize := u32 (MPS_N mps);
                       GDD_FCnt := FCntDown ns |})
                 :: applicationQueries h).
  { pose proof (@getAndFilterMACQueueItems_collect _ asGetDataDown env ns
                  (responseAllowEncrypted txPayload)
                  (responseRemaining mps txPayload) h1
                  (fun _ _ => eq_refl) (fun _ _ => eq_refl)
                  (fun _ _ _ => eq_refl)) as H2.
    rewrite filtered in H2. cbn [snd] in H2.
    pose proof (@macQueueItemsToMACCommands_collect_other _ asGetDataDown
                  env ns items (fun _ _ => eq_refl) h2) as H3.
    rewrite converted in H3. cbn [snd] in H3.
    unfold applicationQueries. rewrite H3, H2.
    pose proof from_application as H1.
    unfold getDataDownFromApplication in H1. rewrite max_payload in H1.
    unfold bind, call, ret in H1.
    destruct (as_GetDataDown env h _) as [e|[resp|]];
      [| destruct (Resp_FPort resp =? 0);
         [|destruct (MPS_N mps <? len (Resp_Data resp))] |];
      inversion H1; reflexivity. }
  assert (Hmac : TX_MAC txInfo = RX_MAC rxInfo).
  { pose proof (getDataDownTXInfoAndDR_MAC env ns rxInfo) as Ht.
    rewrite tx_parameters in Ht. exact Ht. }
  destruct (responseAllowEncrypted txPayload
            && negb (uplinkConfirmed rxPacket)
            && (len cmds =? 0)
            && negb (ADRACKReq (FHDR_FCtrl (MP_FHDR macPL)))).
  { cbn [snd]. split; [exact Hq|left; exact Hsc]. }
  rewrite send_then_delete_eq.
  set (dd := responseFrameContext rxPacket txPayload cmds enc pending).
  pose proof (@SendDataDown_collect _ asGetDataDown env ns txInfo dd h3
                (fun _ _ _ => eq_refl) (fun _ _ => eq_refl)
                (fun _ _ => eq_refl)) as Hq4.
  pose proof (SendDataDown_run env ns txInfo dd h3) as R.
  unfold applicationQueries, sendCalls in *.
  inversion R as [v HV Ho | v HV Henc Ho | v HV Ho | pkt v HV HB Ho
                 | pkt HV HB Hconf Ho | pkt v HV HB Hconf Ho
                 | pkt HV HB Hconf Ho]; rewrite <- Ho in Hq4;
    cbn [fst snd] in *;
    rewrite ?deleteQueueItems_collect_other by reflexivity;
    (split; [rewrite Hq4; exact Hq|]);
    rewrite ?collect_cons; cbn [asSendTXPacket];
    try (left; exact Hsc);
    right; destruct HB as [Htx [_ [m [Hm [_ [_ [Hc _]]]]]]];
    eexists pkt, _, m; rewrite Hsc;
    (split; [reflexivity|]); repeat split; assumption.
Qed.

End UplinkResponseLog.

(** The piggyback scenario: both queued commands are deleted after the
    frame went out. *)
Lemma SendUplinkResponse_deletes_selected_items_witness :
  let env := sampleEnv None (inr sampleQueue) (inr (Some samplePayload)) in
  let ns := sampleSession RX1 5 0 in
  let rx := sampleUplink UnconfirmedDataUp false in
  let out := SendUplinkResponse env ns rx [] in
  fst out = Ok tt
  /\ (transmitted (snd out) = transmitted [] ->
      deleteCalls (snd out) = deleteCalls [])
  /\ exists pkt dels,
       transmitted (snd out) = pkt :: transmitted []
       /\ deleteCalls (snd out) = dels ++ deleteCalls []
       /\ rev dels = map (fun qi => (NS_DevEUI ns, qi, None)) sampleQueue.
Proof.
  cbv zeta. split; [reflexivity|].
  pose proof (@SendUplinkResponse_deletes_selected_items
                (sampleEnv None (inr sampleQueue) (inr (Some samplePayload)))
                (sampleSession RX1 5 0) (sampleUplink UnconfirmedDataUp false)
                [] (sampleMACPayload false) sampleRXInfo [] _ 5
                eq_refl eq_refl eq_refl
                {| MPS_M := 230; MPS_N := 222 |} (Some samplePayload) _
                eq_refl eq_refl sampleQueue false false _ _ _
                eq_refl eq_refl) as W.
  cbv zeta in W. destruct W as [W1 W2].
  split; [exact W1|]. apply W2; [reflexivity|].
  left. discriminate.
Defined.

(** The application server answers on port 256 with one byte: its answer is
    taken (the port is not 0), the frame context gets port 0, and the
    response fails on validation. *)
Lemma SendUplinkResponse_FPort_low_byte_witness :
  let p := {| Resp_Data := [x01]; Resp_Confirmed := false;
              Resp_MoreData := false; Resp_FPort := 256 |} in
  let env := sampleEnv None (inr []) (inr (Some p)) in
  let ns := sampleSession RX1 5 0 in
  let out := SendUplinkResponse env ns (sampleUplink UnconfirmedDataUp false)
               [] in
  fst (getDataDownFromApplication env ns 5 []) = Ok (Some p)
  /\ fst out
     = Err (ErrFrom "send data down error: %s"
              (Wrap ErrFPortMustNotBeZero "validation error" []))
  /\ sendCalls (snd out) = sendCalls []
  /\ deleteCalls (snd out) = deleteCalls [].
Proof.
  cbv zeta. split; [reflexivity|].
  pose proof (@SendUplinkResponse_FPort_low_byte
                (sampleEnv None (inr [])
                   (inr (Some {| Resp_Data := [x01]; Resp_Confirmed := false;
                                 Resp_MoreData := false;
                                 Resp_FPort := 256 |})))
                (sampleSession RX1 5 0) (sampleUplink UnconfirmedDataUp false)
                [] (sampleMACPayload false) sampleRXInfo [] _ 5
                eq_refl eq_refl eq_refl
                {| MPS_M := 230; MPS_N := 222 |} _ _ eq_refl eq_refl
                [] false false _ _ _ eq_refl eq_refl
                _ eq_refl) as W.
  cbv zeta in W. destruct W as [W1 W2].
  split.
  - apply W1. split; [reflexivity|discriminate].
  - apply W2; [reflexivity|discriminate].
Defined.

Lemma SendUplinkResponse_same_FCnt_witness :
  let env := sampleEnv None (inr []) (inr (Some samplePayload)) in
  let ns := sampleSession RX1 5 0 in
  let out := SendUplinkResponse env ns (sampleUplink UnconfirmedDataUp false)
               [] in
  exists req answer,
    applicationQueries (snd out) = (req, answer) :: applicationQueries []
    /\ GDD_FCnt req = 5
    /\ GDD_MaxPayloadSize req = 222
    /\ (sendCalls (snd out) = sendCalls []
        \/ exists pkt gw m,
             sendCalls (snd out) = (pkt, gw) :: sendCalls []
             /\ TXInfo_ pkt
                = fst (fst (getDataDownTXInfoAndDR env ns sampleRXInfo))
             /\ TX_MAC (fst (fst (getDataDownTXInfoAndDR env ns sampleRXInfo)))
                = RX_MAC sampleRXInfo
             /\ PHY_MACPayload (PHYPayload_ pkt) = IsMACPayload m
             /\ FCnt (MP_FHDR m) = GDD_FCnt req).
Proof.
  cbv zeta.
  pose proof (@SendUplinkResponse_same_FCnt
                (sampleEnv None (inr []) (inr (Some samplePayload)))
                (sampleSession RX1 5 0) (sampleUplink UnconfirmedDataUp false)
                [] (sampleMACPayload false) sampleRXInfo [] _ 5
                eq_refl eq_refl eq_refl
                {| MPS_M := 230; MPS_N := 222 |} (Some samplePayload) _
                eq_refl eq_refl [] false false _ _ _ eq_refl eq_refl) as W.
  cbv zeta in W. destruct W as [W1 W2].
  eexists _, _. split; [exact W1|].
  split; [reflexivity|]. split; [reflexivity|]. exact W2.
Defined.

(** ** Errors of [SendUplinkResponse] carry no code *)

Lemma getDataDownFromApplication_no_error env ns dr h e :
  fst (getDataDownFromApplication env ns dr h) <> Err e.
Proof.
  unfold getDataDownFromApplication.
  destruct (index (MaxPayloadSizes (band env)) dr) as [mps|];
    [|discriminate].
  unfold bind, call, ret.
  destruct (as_GetDataDown env h _) as [x|[resp|]]; try discriminate.
  destruct (Resp_FPort resp =? 0); [discriminate|].
  destruct (MPS_N mps <? len (Resp_Data resp)); discriminate.
Qed.

(** Every error that [SendUplinkResponse] returns is made with
    [fmt.Errorf]: it is its own cause, whatever error it was formatted from,
    and [errToRPCError] gives it the code Unknown.  ([HandlePushDataDown]
    wraps instead, and keeps the code of the cause.) *)
Theorem SendUplinkResponse_errors_are_unknown :
  forall env ns rxPacket h e,
    fst (SendUplinkResponse env ns rxPacket h) = Err e ->
    Cause e = e /\ errToRPCError e = (Unknown, e).
Proof.
  intros env ns rxPacket h e. unfold SendUplinkResponse.
  destruct (PHY_MACPayload (RX_PHYPayload rxPacket)) as [macPL|j|raw];
    try (intro H; inversion H; split; reflexivity).
  destruct (RXInfoSet rxPacket) as [|rxInfo others]; [discriminate|].
  destruct (getDataDownTXInfoAndDR env ns rxInfo) as [[txInfo dr] [u|e0|why]];
    try (intro H; inversion H; split; reflexivity).
  destruct (index (MaxPayloadSizes (band env)) dr) as [mps|];
    [|discriminate].
  unfold bind at 1.
  pose proof (@getDataDownFromApplication_no_error env ns dr h) as Hne.
  destruct (getDataDownFromApplication env ns dr h)
    as [[txPayload|e0|why] h1]; cbn [fst] in Hne;
    [|exfalso; apply (Hne e0); reflexivity|discriminate].
  unfold bind at 1. unfold orReturn at 1.
  destruct (getAndFilterMACQueueItems env ns _ _ h1)
    as [[[[items enc] pending]|e0|why] h2];
    try (intro H; inversion H; split; reflexivity).
  rewrite bind_callMacQueueItemsToMACCommands. cbv zeta.
  match goal with
  | |- context [if ?c then ret tt else _] => destruct c
  end; [discriminate|].
  rewrite send_then_delete_eq.
  destruct (SendDataDown env ns txInfo _ _) as [[[u'|e0|why] ns'] h4];
    try (intro H; inversion H; split; reflexivity).
  match goal with
  | |- fst (deleteQueueItems ?e1 ?f ?d ?i ?hh) = _ -> _ =>
      destruct (deleteQueueItems_result e1 f d i hh) as [Hr | [x Hr]];
        rewrite Hr; intro H; inversion H; split; reflexivity
  end.
Qed.

Lemma SendUplinkResponse_errors_are_unknown_witness :
  let env := sampleEnv (Some "gateway offline") (inr []) (inr None) in
  let out := SendUplinkResponse env (sampleSession RX1 5 0)
               (sampleUplink ConfirmedDataUp false) [] in
  exists e,
    fst out = Err e
    /\ e = ErrFrom "send data down error: %s"
             (Wrap (ErrExt "gateway offline")
                "send tx packet to gateway error" [])
    /\ Cause e = e
    /\ errToRPCError e = (Unknown, e).
Proof.
  cbv zeta. eexists. split; [reflexivity|]. split; [reflexivity|].
  exact (@SendUplinkResponse_errors_are_unknown
           (sampleEnv (Some "gateway offline") (inr []) (inr None))
           (sampleSession RX1 5 0) (sampleUplink ConfirmedDataUp false) []
           _ eq_refl).
Defined.

(** The same validation failure through the two callers: the push keeps
    the code InvalidArgument, the uplink response loses it. *)
Example validation_error_through_callers :
  let p := {| Resp_Data := [x01]; Resp_Confirmed := false;
              Resp_MoreData := false; Resp_FPort := 256 |} in
  let pushed := fst (HandlePushDataDown (sampleEnv None (inr []) (inr None))
                       (sampleSession RX1 5 0) false 0 [x01] []) in
  let answered :=
    fst (SendUplinkResponse (sampleEnv None (inr []) (inr (Some p)))
           (sampleSession RX1 5 0) (sampleUplink UnconfirmedDataUp false)
           []) in
  (forall e, pushed = Err e -> fst (errToRPCError e) = InvalidArgument)
  /\ (forall e, answered = Err e -> fst (errToRPCError e) = Unknown).
Proof.
  cbv zeta. split; intros e H; vm_compute in H; inversion H; reflexivity.
Qed.

(** ** More on joining *)

Lemma copy_into_zeroed_length n (src : bytes) :
  List.length (copy_into_zeroed n src) = n.
Proof.
  unfold copy_into_zeroed.
  rewrite length_app, length_firstn, repeat_length. lia.
Qed.

Lemma u8_range x : is_u8 (u8 x).
Proof. unfold is_u8, u8. apply Z.mod_pos_bound. lia. Qed.

(** Unfolds the projections of a log built from known entries. *)
Ltac read_log :=
  unfold sendCalls, saveCalls, flushCalls, joinAcceptCalls,
    applicationErrorCalls, deleteCalls, applicationQueries in *;
  rewrite ?collect_cons in *;
  cbn [asSendTXPacket asSaveNodeSession asFlushQueue
       asSendJoinAcceptResponse asApplicationHandleError asDeleteQueueItem
       asGetDataDown] in *.

(** Whenever the join handler reports to the application server, the report
    names the EUIs of the join request, the handler returns the reported
    error, and nothing has been saved, flushed or sent.  It reports in two
    cases: the answer to the JoinRequest lists more than five CFList
    frequencies, or its PHYPayload does not parse. *)
Theorem handleCollectedJoinRequestPackets_reports :
  forall env rxPacket h req r,
    let out := handleCollectedJoinRequestPackets env rxPacket h in
    applicationErrorCalls (snd out) = (req, r) :: applicationErrorCalls h ->
    exists jrPL joinResp,
      PHY_MACPayload (RX_PHYPayload rxPacket) = IsJoinRequestPayload jrPL
      /\ HE_AppEUI req = JR_AppEUI jrPL
      /\ HE_DevEUI req = JR_DevEUI jrPL
      /\ fst out = Err (HE_Error req)
      /\ ((5 < len (JResp_CFList joinResp)
           /\ HE_Error req
              = ErrNew "max CFlist size %d, got %d"
                  [5; len (JResp_CFList joinResp)])
          \/ (len (JResp_CFList joinResp) <= 5
              /\ exists e,
                   phy_UnmarshalBinary env (JResp_PhyPayload joinResp) = inl e
                   /\ HE_Error req
                      = ErrFrom "downlink PHYPayload unmarshal error: %s"
                          (ErrExt e)))
      /\ saveCalls (snd out) = saveCalls h
      /\ flushCalls (snd out) = flushCalls h
      /\ joinAcceptCalls (snd out) = joinAcceptCalls h.
Proof.
  intros env rxPacket h req r. cbv zeta.
  unfold handleCollectedJoinRequestPackets, bind, call, fail, ret.
  destruct (PHY_MACPayload (RX_PHYPayload rxPacket)) as [m|jrPL|raw];
    cbn [fst snd];
    try (intro H; apply list_neq_cons in H; contradiction).
  destruct (phy_MarshalBinary env (RX_PHYPayload rxPacket)) as [e|b];
    cbn [fst snd];
    try (intro H; apply list_neq_cons in H; contradiction).
  destruct (session_GetRandomDevAddr env h (ctx_NetID env)) as [e|devAddr];
    cbn [fst snd];
    try (read_log; intro H; apply list_neq_cons in H; contradiction).
  destruct (as_JoinRequest _ _ _) as [e|joinResp]; cbn [fst snd];
    try (read_log; intro H; apply list_neq_cons in H; contradiction).
  destruct (5 <? len (JResp_CFList joinResp)) eqn:Hcf; cbn [fst snd].
  { apply Z.ltb_lt in Hcf. read_log. intro H. inversion H; subst.
    exists jrPL, joinResp. repeat split. left. split; [exact Hcf|reflexivity]. }
  apply Z.ltb_ge in Hcf.
  destruct (phy_UnmarshalBinary env (JResp_PhyPayload joinResp))
    as [e|downlinkPHY] eqn:Hparse; cbn [fst snd].
  { read_log. intro H. inversion H; subst.
    exists jrPL, joinResp. repeat split. right. split; [exact Hcf|].
    exists e. split; [exact Hparse|reflexivity]. }
  destruct (session_SaveNodeSession _ _ _) as [e|]; cbn [fst snd];
    try (read_log; intro H; apply list_neq_cons in H; contradiction).
  destruct (maccommand_FlushQueue _ _ _) as [e|]; cbn [fst snd];
    try (read_log; intro H; apply list_neq_cons in H; contradiction).
  destruct (downlink_SendJoinAcceptResponse _ _ _ _ _) as [e|];
    cbn [fst snd];
    read_log; intro H; apply list_neq_cons in H; contradiction.
Qed.

Lemma handleCollectedJoinRequestPackets_reports_witness :
  let answer :=
    {| JResp_PhyPayload := [x20]; JResp_NwkSKey := [x01; x02];
       JResp_RxDelay := 1; JResp_Rx1DROffset := 0;
       JResp_CFList := [1; 2; 3; 4; 5; 6];
       JResp_RxWindow := 0; JResp_Rx2DR := 0; JResp_RelaxFCnt := false;
       JResp_AdrInterval := 0; JResp_InstallationMargin := 0 |} in
  let env := withJoin (sampleEnv None (inr []) (inr None)) (inr answer) None
               (inl "unused") in
  let out := handleCollectedJoinRequestPackets env sampleJoinRequest [] in
  exists req r,
    applicationErrorCalls (snd out) = (req, r) :: applicationErrorCalls []
    /\ fst out = Err (ErrNew "max CFlist size %d, got %d" [5; 6])
    /\ fst out = Err (HE_Error req)
    /\ saveCalls (snd out) = saveCalls []
    /\ joinAcceptCalls (snd out) = joinAcceptCalls [].
Proof.
  cbv zeta. eexists _, _. split; [reflexivity|]. split; [reflexivity|].
  destruct (@handleCollectedJoinRequestPackets_reports
              (withJoin (sampleEnv None (inr []) (inr None))
                 (inr {| JResp_PhyPayload := [x20];
                         JResp_NwkSKey := [x01; x02];
                         JResp_RxDelay := 1; JResp_Rx1DROffset := 0;
                         JResp_CFList := [1; 2; 3; 4; 5; 6];
                         JResp_RxWindow := 0; JResp_Rx2DR := 0;
                         JResp_RelaxFCnt := false;
                         JResp_AdrInterval := 0;
                         JResp_InstallationMargin := 0 |})
                 None (inl "unused"))
              sampleJoinRequest [] _ _ eq_refl)
    as [jrPL [joinResp [_ [_ [_ [He [_ [Hs [_ Hj]]]]]]]]].
  split; [exact He|]. split; [exact Hs|exact Hj].
Defined.

(** The session that the join handler saves, whatever the application
    server answered: a NwkSKey of 16 bytes (the answer's key cut or padded
    with zeros), a CFList of five frequencies, RXDelay, RX1DROffset and
    RX2DR within a byte, both counters at 0 and the receptions of the join
    request.  This holds as well when the flush or the join-accept fails
    after the save. *)
Theorem handleCollectedJoinRequestPackets_saved_session :
  forall env rxPacket h ns r,
    saveCalls (snd (handleCollectedJoinRequestPackets env rxPacket h))
    = (ns, r) :: saveCalls h ->
    List.length (NwkSKey ns) = 16%nat
    /\ (exists cFList, NS_CFList ns = Some cFList
                       /\ List.length cFList = 5%nat)
    /\ is_u8 (RXDelay ns) /\ is_u8 (RX1DROffset ns) /\ is_u8 (RX2DR ns)
    /\ FCntUp ns = 0 /\ FCntDown ns = 0
    /\ LastRXInfoSet ns = RXInfoSet rxPacket
    /\ exists jrPL,
         PHY_MACPayload (RX_PHYPayload rxPacket) = IsJoinRequestPayload jrPL
         /\ NS_DevEUI ns = JR_DevEUI jrPL
         /\ NS_AppEUI ns = JR_AppEUI jrPL.
Proof.
  intros env rxPacket h ns r.
  unfold handleCollectedJoinRequestPackets, bind, call, fail, ret.
  destruct (PHY_MACPayload (RX_PHYPayload rxPacket)) as [m|jrPL|raw];
    cbn [fst snd];
    try (intro H; apply list_neq_cons in H; contradiction).
  destruct (phy_MarshalBinary env (RX_PHYPayload rxPacket)) as [e|b];
    cbn [fst snd];
    try (intro H; apply list_neq_cons in H; contradiction).
  destruct (session_GetRandomDevAddr env h (ctx_NetID env)) as [e|devAddr];
    cbn [fst snd];
    try (read_log; intro H; apply list_neq_cons in H; contradiction).
  destruct (as_JoinRequest _ _ _) as [e|joinResp]; cbn [fst snd];
    try (read_log; intro H; apply list_neq_cons in H; contradiction).
  destruct (5 <? len (JResp_CFList joinResp)) eqn:Hcf; cbn [fst snd];
    try (read_log; intro H; apply list_neq_cons in H; contradiction).
  apply Z.ltb_ge in Hcf.
  destruct (phy_UnmarshalBinary env (JResp_PhyPayload joinResp))
    as [e|downlinkPHY]; cbn [fst snd];
    try (read_log; intro H; apply list_neq_cons in H; contradiction).
  assert (Hgoal : forall s,
            s = joinNodeSession env devAddr jrPL joinResp rxPacket ->
            List.length (NwkSKey s) = 16%nat
            /\ (exists cFList, NS_CFList s = Some cFList
                               /\ List.length cFList = 5%nat)
            /\ is_u8 (RXDelay s) /\ is_u8 (RX1DROffset s) /\ is_u8 (RX2DR s)
            /\ FCntUp s = 0 /\ FCntDown s = 0
            /\ LastRXInfoSet s = RXInfoSet rxPacket
            /\ exists j,
                 IsJoinRequestPayload jrPL = IsJoinRequestPayload j
                 /\ NS_DevEUI s = JR_DevEUI j
                 /\ NS_AppEUI s = JR_AppEUI j).
  { intros s ->. unfold joinNodeSession.
    cbn [NwkSKey NS_CFList RXDelay RX1DROffset RX2DR FCntUp FCntDown
         LastRXInfoSet NS_DevEUI NS_AppEUI].
    split; [apply copy_into_zeroed_length|].
    split.
    { eexists. split; [reflexivity|].
      rewrite length_app, repeat_length. unfold len in Hcf. lia. }
    split; [apply u8_range|]. split; [apply u8_range|].
    split; [apply u8_range|].
    repeat split. exists jrPL. repeat split. }
  destruct (session_SaveNodeSession _ _ _) as [e|]; cbn [fst snd];
    [read_log; intro H; inversion H; subst; apply Hgoal; reflexivity|].
  destruct (maccommand_FlushQueue _ _ _) as [e|]; cbn [fst snd];
    [read_log; intro H; inversion H; subst; apply Hgoal; reflexivity|].
  destruct (downlink_SendJoinAcceptResponse _ _ _ _ _) as [e|];
    cbn [fst snd];
    read_log; intro H; inversion H; subst; apply Hgoal; reflexivity.
Qed.

Lemma handleCollectedJoinRequestPackets_saved_session_witness :
  let answer :=
    {| JResp_PhyPayload := [x20]; JResp_NwkSKey := [x01; x02];
       JResp_RxDelay := 257; JResp_Rx1DROffset := 0;
       JResp_CFList := [867100000];
       JResp_RxWindow := 0; JResp_Rx2DR := 0; JResp_RelaxFCnt := false;
       JResp_AdrInterval := 0; JResp_InstallationMargin := 0 |} in
  let env := withJoin (sampleEnv None (inr []) (inr None)) (inr answer)
               None (phy_UnmarshalBinary (sampleEnv None (inr []) (inr None))
                       []) in
  let out := handleCollectedJoinRequestPackets env sampleJoinRequest [] in
  exists ns r,
    saveCalls (snd out) = (ns, r) :: saveCalls []
    /\ NwkSKey ns = [x01; x02] ++ repeat x00 14
    /\ RXDelay ns = 1
    /\ List.length (NwkSKey ns) = 16%nat
    /\ (exists cFList, NS_CFList ns = Some cFList
                       /\ List.length cFList = 5%nat)
    /\ is_u8 (RXDelay ns).
Proof.
  cbv zeta. eexists _, _. split; [reflexivity|].
  split; [reflexivity|]. split; [reflexivity|].
  destruct (@handleCollectedJoinRequestPackets_saved_session
              (withJoin (sampleEnv None (inr []) (inr None))
                 (inr {| JResp_PhyPayload := [x20];
                         JResp_NwkSKey := [x01; x02];
                         JResp_RxDelay := 257; JResp_Rx1DROffset := 0;
                         JResp_CFList := [867100000];
                         JResp_RxWindow := 0; JResp_Rx2DR := 0;
                         JResp_RelaxFCnt := false;
                         JResp_AdrInterval := 0;
                         JResp_InstallationMargin := 0 |})
                 None
                 (phy_UnmarshalBinary (sampleEnv None (inr []) (inr None))
                    []))
              sampleJoinRequest [] _ _ eq_refl)
    as [Hk [Hc [Hd _]]].
  split; [exact Hk|]. split; [exact Hc|exact Hd].
Defined.

(** The order of the join handler's effects: the MAC queue is flushed only
    after the session was saved, and for that session's DevEUI; the
    join-accept is sent only after save and flush succeeded, for the saved
    session and the collected uplink; and the handler returns no error
    exactly when the join-accept was sent without error. *)
Theorem handleCollectedJoinRequestPackets_order :
  forall env rxPacket h,
    let out := handleCollectedJoinRequestPackets env rxPacket h in
    (flushCalls (snd out) = flushCalls h
     \/ exists ns r,
          flushCalls (snd out) = (NS_DevEUI ns, r) :: flushCalls h
          /\ saveCalls (snd out) = (ns, None) :: saveCalls h)
    /\ (joinAcceptCalls (snd out) = joinAcceptCalls h
        \/ exists ns phy r,
             joinAcceptCalls (snd out)
             = (ns, rxPacket, phy, r) :: joinAcceptCalls h
             /\ saveCalls (snd out) = (ns, None) :: saveCalls h
             /\ flushCalls (snd out) = (NS_DevEUI ns, None) :: flushCalls h)
    /\ (fst out = Ok tt
        <-> exists ns phy,
              joinAcceptCalls (snd out)
              = (ns, rxPacket, phy, None) :: joinAcceptCalls h).
Proof.
  intros env rxPacket h. cbv zeta.
  unfold handleCollectedJoinRequestPackets, bind, call, fail, ret.
  assert (Hno : forall (r : result unit) (h' : History),
            flushCalls h' = flushCalls h ->
            joinAcceptCalls h' = joinAcceptCalls h ->
            r <> Ok tt ->
            (flushCalls h' = flushCalls h
             \/ exists ns r0,
                  flushCalls h' = (NS_DevEUI ns, r0) :: flushCalls h
                  /\ saveCalls h' = (ns, None) :: saveCalls h)
            /\ (joinAcceptCalls h' = joinAcceptCalls h
                \/ exists ns phy r0,
                     joinAcceptCalls h'
                     = (ns, rxPacket, phy, r0) :: joinAcceptCalls h
                     /\ saveCalls h' = (ns, None) :: saveCalls h
                     /\ flushCalls h'
                        = (NS_DevEUI ns, None) :: flushCalls h)
            /\ (r = Ok tt
                <-> exists ns phy,
                      joinAcceptCalls h'
                      = (ns, rxPacket, phy, None) :: joinAcceptCalls h)).
  { intros r h' Hf Hj Hr. split; [left; exact Hf|].
    split; [left; exact Hj|]. split; [intro H; contradiction|].
    intros [ns [phy H]]. rewrite Hj in H.
    apply list_neq_cons in H. contradiction. }
  destruct (PHY_MACPayload (RX_PHYPayload rxPacket)) as [m|jrPL|raw];
    cbn [fst snd]; try (apply Hno; [reflexivity|reflexivity|discriminate]).
  destruct (phy_MarshalBinary env (RX_PHYPayload rxPacket)) as [e|b];
    cbn [fst snd]; try (apply Hno; [reflexivity|reflexivity|discriminate]).
  destruct (session_GetRandomDevAddr env h (ctx_NetID env)) as [e|devAddr];
    cbn [fst snd]; try (apply Hno; [reflexivity|reflexivity|discriminate]).
  destruct (as_JoinRequest _ _ _) as [e|joinResp]; cbn [fst snd];
    try (apply Hno; [reflexivity|reflexivity|discriminate]).
  destruct (5 <? len (JResp_CFList joinResp)); cbn [fst snd];
    try (apply Hno; [reflexivity|reflexivity|discriminate]).
  destruct (phy_UnmarshalBinary env (JResp_PhyPayload joinResp))
    as [e|downlinkPHY]; cbn [fst snd];
    try (apply Hno; [reflexivity|reflexivity|discriminate]).
  destruct (session_SaveNodeSession _ _ _) as [e|]; cbn [fst snd];
    try (apply Hno; [reflexivity|reflexivity|discriminate]).
  clear Hno.
  destruct (maccommand_FlushQueue _ _ _) as [e|]; cbn [fst snd].
  { split; [right; eexists _, _; split; reflexivity|].
    split; [left; reflexivity|]. split; [discriminate|].
    intros [ns [phy H]]. read_log.
    apply list_neq_cons in H. contradiction. }
  destruct (downlink_SendJoinAcceptResponse _ _ _ _ _) as [e|];
    cbn [fst snd].
  - split; [right; eexists _, _; split; reflexivity|].
    split; [right; eexists _, _, _; repeat split|].
    split; [discriminate|].
    intros [ns [phy H]]. read_log. inversion H.
  - split; [right; eexists _, _; split; reflexivity|].
    split; [right; eexists _, _, _; repeat split|].
    split; [intros _; eexists _, _; reflexivity|reflexivity].
Qed.

(** The join-accept cannot be scheduled: the session stays saved, the
    queue stays flushed, and the handler returns the error. *)
Example join_accept_fails_after_save :
  let env :=
    {| ctx_NetID := [x01; x02; x03]; band := sampleBand;
       gw_SendTXPacket := fun _ _ => None;
       session_SaveNodeSession := fun _ _ => None;
       session_GetRandomDevAddr := fun _ _ => inr [x02; x00; x00; x2a];
       session_toRXWindow := fun _ => RX1;
       maccommand_ReadQueue := fun _ _ => inr [];
       maccommand_FilterItems := FilterItems_prefix;
       maccommand_DeleteQueueItem := fun _ _ _ => None;
       maccommand_FlushQueue := fun _ _ => None;
       as_GetDataDown := fun _ _ => inr None;
       as_JoinRequest :=
         as_JoinRequest (sampleEnv None (inr []) (inr None));
       as_HandleError := fun _ _ => None;
       nc_HandleError := fun _ _ => None;
       downlink_SendJoinAcceptResponse :=
         fun _ _ _ _ => Some "gateway offline";
       phy_EncryptFRMPayload := fun _ _ => inl "unused";
       phy_SetMIC := fun _ _ => inl "unused";
       phy_MarshalBinary := fun _ => inr [x00];
       phy_UnmarshalBinary :=
         phy_UnmarshalBinary (sampleEnv None (inr []) (inr None));
       mac_UnmarshalBinary := fun _ => inl "unused" |} in
  let out := handleCollectedJoinRequestPackets env sampleJoinRequest [] in
  fst out
  = Err (ErrFrom "send join-accept response error: %s"
           (ErrExt "gateway offline"))
  /\ List.length (saveCalls (snd out)) = 1%nat
  /\ List.length (flushCalls (snd out)) = 1%nat.
Proof. cbv zeta. repeat split. Qed.
